(** * BlackmagicMedia: the capture player and its SDK event callback

    A shallow embedding of
    [Source/BlackmagicMedia/Private/Player/BlackmagicMediaPlayer.cpp]:
    the callback object [FBlackmagicMediaPlayerEventCallback] that the
    vendor SDK drives, and the consumer-side [FBlackmagicMediaPlayer].

    Conventions.
    - [int32] values are integers of [Z]; arithmetic the file performs on
      them is wrapped with [int32]. A value converted to [uint32] (the
      parameters of the samples' [Initialize] and of [WriteRawFile], the
      members [LastNumChannels] and [LastSampleRate]) is wrapped with
      [uint32], and one converted to [size_t] (an operand of [sizeof]) with
      [size_t].
    - [double] clock readings are the exact rationals of [Q] they denote.
      The file subtracts two readings and compares against the constants
      0.1 (a "not yet set" sentinel) and 2.0; the difference of two doubles
      is the exact difference rounded to a double, [RoundDouble].
    - Callback objects live in a heap indexed by addresses, because the
      player and the SDK share them through reference counting.
    - A method returns [None] where the C++ dereferences a null or
      dangling pointer or fails a [check]. In particular [Uninitialize]
      holds a [FScopeLock] on the member [CallbackLock]: when its [Release]
      deletes the object, the lock is released on freed memory.
    - A method runs as one step. [OnFrameReceived] and [Uninitialize] hold
      [CallbackLock] for their whole body, so the two never interleave; the
      interleaving of whole calls is a list of [Call]s.
    - Functions of the engine and of the vendor SDK are the fields of the
      class [External]. *)

From Stdlib Require Import ZArith QArith Qround Lia Lqa Bool.
From stdpp Require Import base option list gmap strings.

Local Open Scope Z_scope.

(** ** Machine integers *)

Definition int32 (z : Z) : Z := (z + 2 ^ 31) mod 2 ^ 32 - 2 ^ 31.
#[global] Arguments int32 z : simpl never.
Definition INT32_MAX : Z := 2 ^ 31 - 1.

(** Conversion to [uint32] and to [size_t] (64 bits). *)
Definition uint32 (z : Z) : Z := z mod 2 ^ 32.
#[global] Arguments uint32 z : simpl never.
Definition size_t (z : Z) : Z := z mod 2 ^ 64.
#[global] Arguments size_t z : simpl never.

(** [sizeof(int32)] *)
Definition sizeof_int32 : Z := 4.

(** [FMath::Max] on [int32] *)
Definition FMath_Max (a b : Z) : Z := if Z.ltb a b then b else a.
#[global] Arguments FMath_Max a b : simpl never.

(** ** Enumerations *)

Module EMediaState.
Inductive t := Closed | Error | Paused | Playing | Preparing | Stopped.
#[global] Instance eq_dec : EqDecision t.
Proof. solve_decision. Defined.
End EMediaState.

Module EMediaEvent.
Inductive t :=
| MediaClosed | MediaOpened | MediaOpenFailed
| PlaybackResumed | PlaybackSuspended | TracksChanged.
#[global] Instance eq_dec : EqDecision t.
Proof. solve_decision. Defined.
End EMediaEvent.

Module ELogVerbosity.
Inductive t := Error | Warning | Log.
#[global] Instance eq_dec : EqDecision t.
Proof. solve_decision. Defined.
End ELogVerbosity.

Module EFieldDominance.
Inductive t := Progressive | Interlaced | ProgressiveSegmentedFrame.
#[global] Instance eq_dec : EqDecision t.
Proof. solve_decision. Defined.
End EFieldDominance.

(** [pf_Other] stands for every value the [switch] of [OnFrameReceived] has
    no [case] for. *)
Module EPixelFormat.
Inductive t := pf_8Bits | pf_10Bits | pf_Other.
End EPixelFormat.

Module ETimecodeFormat.
Inductive t := TCF_None | TCF_LTC | TCF_VITC1.
#[global] Instance eq_dec : EqDecision t.
Proof. solve_decision. Defined.
End ETimecodeFormat.

Module EMediaTextureSampleFormat.
Inductive t := CharBGRA | CharUYVY | YUVv210.
End EMediaTextureSampleFormat.

Module EMediaIOCoreEncodePixelFormat.
Inductive t := CharUYVY | YUVv210.
End EMediaIOCoreEncodePixelFormat.

Module EBlackmagicMediaSourceColorFormat.
Inductive t := YUV8 | YUV10.
End EBlackmagicMediaSourceColorFormat.

(** [Other] stands for every value of the cast that is none of the three
    enumerators: the [switch] of [Open] sends it to [default]. *)
Module EMediaIOTimecodeFormat.
Inductive t := None | LTC | VITC | Other.
End EMediaIOTimecodeFormat.

Module EBlackmagicMediaAudioChannel.
Inductive t := Stereo2 | Surround8.
End EBlackmagicMediaAudioChannel.

(** ** Plain data *)

(** Addresses of heap objects and of SDK buffers. *)
Definition loc := positive.

(** [BlackmagicDesign::FUniqueIdentifier]; [None] is the default-constructed,
    invalid identifier. *)
Definition FUniqueIdentifier := option positive.
Definition IsValid (id : FUniqueIdentifier) : bool :=
  match id with Some _ => true | None => false end.

(** [FTimespan]: a number of ticks. *)
Definition FTimespan := Z.

Record FFrameRate := { Numerator : Z; Denominator : Z }.

(** [BlackmagicDesign::FTimecode], the timecode as the hardware reports it
    (unsigned fields). *)
Record BMTimecode := { bmHours : Z; bmMinutes : Z; bmSeconds : Z; bmFrames : Z }.

(** The engine's [FTimecode] ([int32] fields). *)
Record FTimecode := {
  Hours : Z; Minutes : Z; Seconds : Z; Frames : Z; bDropFrameFormat : bool }.

Record FChannelInfo := { DeviceIndex : Z }.

Record FInputChannelOptions := {
  CallbackPriority : Z;
  bReadVideo : bool;
  DisplayMode : Z;
  PixelFormat : EPixelFormat.t;
  TimecodeFormat : ETimecodeFormat.t;
  bReadAudio : bool;
  NumberOfAudioChannel : Z }.

(** [IInputEventCallback::FFrameReceivedInfo]. Buffers are nullable
    pointers. *)
Record FFrameReceivedInfo := {
  bHasInputSource : bool;
  bHaveTimecode : bool;
  Timecode : BMTimecode;
  VideoBuffer : option loc;
  VideoWidth : Z;
  VideoHeight : Z;
  VideoPitch : Z;
  fiPixelFormat : EPixelFormat.t;
  FieldDominance : EFieldDominance.t;
  AudioBuffer : option loc;
  AudioBufferSize : Z;
  fiNumberOfAudioChannel : Z;
  AudioRate : Z }.

(** What [OnFrameReceived] reads from its surroundings: [FApp::GetCurrentTime],
    [MediaPlayer->GetPlatformSeconds] and [MediaPlayer->IsTimecodeLogEnabled]. *)
Record FrameClock := {
  CurrentTime : Q;
  PlatformSeconds : Q;
  bTimecodeLogEnabled : bool }.

Record FMediaAudioTrackFormat := {
  BitsPerSample : Z; NumChannels : Z; SampleRate : Z }.

(** An audio sample is the argument list its [Initialize] received. *)
Record FBlackmagicMediaAudioSample := {
  asBuffer : loc;
  asBufferSize : Z;
  asNumberOfChannels : Z;
  asSampleRate : Z;
  asTime : FTimespan;
  asTimecode : option FTimecode }.

(** A texture sample is the argument list of [Initialize] (no field) or of
    [InitializeWithEvenOddLine] ([Some true] for the even lines). *)
Record FBlackmagicMediaTextureSample := {
  tsUseEvenLine : option bool;
  tsBuffer : loc;
  tsBufferSize : Z;
  tsStride : Z;
  tsWidth : Z;
  tsHeight : Z;
  tsSampleFormat : EMediaTextureSampleFormat.t;
  tsTime : FTimespan;
  tsFrameRate : FFrameRate;
  tsTimecode : option FTimecode;
  tsIsSRGBInput : bool }.

(** [FMediaIOCoreSamples]: two queues, oldest sample first. *)
Record FMediaIOCoreSamples := {
  AudioSamples : list FBlackmagicMediaAudioSample;
  VideoSamples : list FBlackmagicMediaTextureSample }.

Definition NumAudioSamples (s : FMediaIOCoreSamples) : Z :=
  Z.of_nat (length (AudioSamples s)).
Definition NumVideoSamples (s : FMediaIOCoreSamples) : Z :=
  Z.of_nat (length (VideoSamples s)).
Definition AddAudio (a : FBlackmagicMediaAudioSample) (s : FMediaIOCoreSamples) :=
  {| AudioSamples := AudioSamples s ++ [a]; VideoSamples := VideoSamples s |}.
Definition AddVideo (v : FBlackmagicMediaTextureSample) (s : FMediaIOCoreSamples) :=
  {| AudioSamples := AudioSamples s; VideoSamples := VideoSamples s ++ [v] |}.
Definition PopAudio (s : FMediaIOCoreSamples) :=
  {| AudioSamples := tail (AudioSamples s); VideoSamples := VideoSamples s |}.
Definition PopVideo (s : FMediaIOCoreSamples) :=
  {| AudioSamples := AudioSamples s; VideoSamples := tail (VideoSamples s) |}.

(** ** Log lines and other observable effects *)

Inductive LogMessage :=
| NoVideoInput (url : string)
| InvalidTimecodeFrame (url : string) (frames : Z) (rate : FFrameRate)
| HasTimecode (url : string) (tc : BMTimecode)
| MissingTimecode (url : string)
| LostAudioFrames (n : Z) (url : string)
| LostVideoFrames (n : Z) (url : string)
| VideoFormatChanged (url : string)
| NotInitialized (url : string)
| CardCannotBeUsed (url : string).

Inductive Effect :=
| UE_LOG (v : ELogVerbosity.t) (m : LogMessage)
| SdkRegister (this : loc)
| SdkUnregister (info : FChannelInfo) (id : FUniqueIdentifier)
| MediaEvent (ev : EMediaEvent.t)
| DeleteThis (this : loc)
| WriteRawFile (prefix : string) (device : option Z) (size : Z)
| EncodeTimeRender (h m s f : Z).

(** ** The callback object *)

Record FBlackmagicMediaPlayerEventCallback := mkCallback {
  RefCounter : Z;
  BlackmagicIdendifier : FUniqueIdentifier;
  ChannelInfo : FChannelInfo;
  (** the back-reference to the player; [false] is [nullptr] *)
  MediaPlayer : bool;
  MediaState : EMediaState.t;
  PreviousTimecode : BMTimecode;
  PrevousTimespan : FTimespan;
  bEncodeTimecodeInTexel : bool;
  LastBitsPerSample : Z;
  LastNumChannels : Z;
  LastSampleRate : Z;
  AudioFrameDropCount : Z;
  MetadataFrameDropCount : Z;
  VideoFrameDropCount : Z;
  MaxNumAudioFrameBuffer : Z;
  MaxNumVideoFrameBuffer : Z;
  LastHasFrameTime : Q;
  bReceivedValidFrame : bool;
  bIsTimecodeExpected : bool;
  bHasWarnedMissingTimecode : bool;
  bIsSRGBInput : bool }.

Definition set_RefCounter (v : Z) (c : FBlackmagicMediaPlayerEventCallback) :=
  let 'mkCallback _ b c d e f g h i j k l m n o p q r s t u := c in
  mkCallback v b c d e f g h i j k l m n o p q r s t u.
Definition set_BlackmagicIdendifier (v : FUniqueIdentifier) (c : FBlackmagicMediaPlayerEventCallback) :=
  let 'mkCallback a _ c d e f g h i j k l m n o p q r s t u := c in
  mkCallback a v c d e f g h i j k l m n o p q r s t u.
Definition set_MediaPlayer (v : bool) (c : FBlackmagicMediaPlayerEventCallback) :=
  let 'mkCallback a b c _ e f g h i j k l m n o p q r s t u := c in
  mkCallback a b c v e f g h i j k l m n o p q r s t u.
Definition set_MediaState (v : EMediaState.t) (c : FBlackmagicMediaPlayerEventCallback) :=
  let 'mkCallback a b c d _ f g h i j k l m n o p q r s t u := c in
  mkCallback a b c d v f g h i j k l m n o p q r s t u.
Definition set_PreviousTimecode (v : BMTimecode) (c : FBlackmagicMediaPlayerEventCallback) :=
  let 'mkCallback a b c d e _ g h i j k l m n o p q r s t u := c in
  mkCallback a b c d e v g h i j k l m n o p q r s t u.
Definition set_PrevousTimespan (v : FTimespan) (c : FBlackmagicMediaPlayerEventCallback) :=
  let 'mkCallback a b c d e f _ h i j k l m n o p q r s t u := c in
  mkCallback a b c d e f v h i j k l m n o p q r s t u.
Definition set_bEncodeTimecodeInTexel (v : bool) (c : FBlackmagicMediaPlayerEventCallback) :=
  let 'mkCallback a b c d e f g _ i j k l m n o p q r s t u := c in
  mkCallback a b c d e f g v i j k l m n o p q r s t u.
Definition set_LastBitsPerSample (v : Z) (c : FBlackmagicMediaPlayerEventCallback) :=
  let 'mkCallback a b c d e f g h _ j k l m n o p q r s t u := c in
  mkCallback a b c d e f g h v j k l m n o p q r s t u.
Definition set_LastNumChannels (v : Z) (c : FBlackmagicMediaPlayerEventCallback) :=
  let 'mkCallback a b c d e f g h i _ k l m n o p q r s t u := c in
  mkCallback a b c d e f g h i v k l m n o p q r s t u.
Definition set_LastSampleRate (v : Z) (c : FBlackmagicMediaPlayerEventCallback) :=
  let 'mkCallback a b c d e f g h i j _ l m n o p q r s t u := c in
  mkCallback a b c d e f g h i j v l m n o p q r s t u.
Definition set_AudioFrameDropCount (v : Z) (c : FBlackmagicMediaPlayerEventCallback) :=
  let 'mkCallback a b c d e f g h i j k _ m n o p q r s t u := c in
  mkCallback a b c d e f g h i j k v m n o p q r s t u.
Definition set_VideoFrameDropCount (v : Z) (c : FBlackmagicMediaPlayerEventCallback) :=
  let 'mkCallback a b c d e f g h i j k l m _ o p q r s t u := c in
  mkCallback a b c d e f g h i j k l m v o p q r s t u.
Definition set_MaxNumAudioFrameBuffer (v : Z) (c : FBlackmagicMediaPlayerEventCallback) :=
  let 'mkCallback a b c d e f g h i j k l m n _ p q r s t u := c in
  mkCallback a b c d e f g h i j k l m n v p q r s t u.
Definition set_MaxNumVideoFrameBuffer (v : Z) (c : FBlackmagicMediaPlayerEventCallback) :=
  let 'mkCallback a b c d e f g h i j k l m n o _ q r s t u := c in
  mkCallback a b c d e f g h i j k l m n o v q r s t u.
Definition set_LastHasFrameTime (v : Q) (c : FBlackmagicMediaPlayerEventCallback) :=
  let 'mkCallback a b c d e f g h i j k l m n o p _ r s t u := c in
  mkCallback a b c d e f g h i j k l m n o p v r s t u.
Definition set_bReceivedValidFrame (v : bool) (c : FBlackmagicMediaPlayerEventCallback) :=
  let 'mkCallback a b c d e f g h i j k l m n o p q _ s t u := c in
  mkCallback a b c d e f g h i j k l m n o p q v s t u.
Definition set_bIsTimecodeExpected (v : bool) (c : FBlackmagicMediaPlayerEventCallback) :=
  let 'mkCallback a b c d e f g h i j k l m n o p q r _ t u := c in
  mkCallback a b c d e f g h i j k l m n o p q r v t u.
Definition set_bHasWarnedMissingTimecode (v : bool) (c : FBlackmagicMediaPlayerEventCallback) :=
  let 'mkCallback a b c d e f g h i j k l m n o p q r s _ u := c in
  mkCallback a b c d e f g h i j k l m n o p q r s v u.
Definition set_bIsSRGBInput (v : bool) (c : FBlackmagicMediaPlayerEventCallback) :=
  let 'mkCallback a b c d e f g h i j k l m n o p q r s t _ := c in
  mkCallback a b c d e f g h i j k l m n o p q r s t v.

(** The constructor. [MaxNumAudioFrameBuffer], [MaxNumVideoFrameBuffer] and
    [PreviousTimecode] are not in the initialiser list; they are given
    here and overwritten by [Initialize] before they are read. *)
Definition new_FBlackmagicMediaPlayerEventCallback (InChannelInfo : FChannelInfo)
  : FBlackmagicMediaPlayerEventCallback :=
  {| RefCounter := 0;
     BlackmagicIdendifier := None;
     ChannelInfo := InChannelInfo;
     MediaPlayer := true;
     MediaState := EMediaState.Closed;
     PreviousTimecode := {| bmHours := 0; bmMinutes := 0; bmSeconds := 0; bmFrames := 0 |};
     PrevousTimespan := 0;
     bEncodeTimecodeInTexel := false;
     LastBitsPerSample := 0;
     LastNumChannels := 0;
     LastSampleRate := 0;
     AudioFrameDropCount := 0;
     MetadataFrameDropCount := 0;
     VideoFrameDropCount := 0;
     MaxNumAudioFrameBuffer := 0;
     MaxNumVideoFrameBuffer := 0;
     LastHasFrameTime := 0%Q;
     bReceivedValidFrame := false;
     bIsTimecodeExpected := false;
     bHasWarnedMissingTimecode := false;
     bIsSRGBInput := false |}.

(** ** The option bag read by [Open] *)

Module BlackmagicMediaOption.
Inductive t :=
| DeviceIndex | CaptureVideo | BlackmagicVideoFormat | ColorFormat | SRGBInput
| TimecodeFormat | CaptureAudio | AudioChannelOption | LogDropFrame
| EncodeTimecodeInTexel | MaxAudioFrameBuffer | MaxVideoFrameBuffer.
End BlackmagicMediaOption.

(** [IMediaOptions]: a key is either absent or carries a value. *)
Record IMediaOptions := {
  Int64Option : BlackmagicMediaOption.t -> option Z;
  BoolOption : BlackmagicMediaOption.t -> option bool }.

Definition GetMediaOption_int64 (o : IMediaOptions) (k : BlackmagicMediaOption.t) (d : Z) : Z :=
  default d (Int64Option o k).
Definition GetMediaOption_bool (o : IMediaOptions) (k : BlackmagicMediaOption.t) (d : bool) : bool :=
  default d (BoolOption o k).

(** ** The player's base class: the members of [FMediaIOCorePlayerBase]
    this file reads or writes. The member [EventSink] refers to an object
    of the host; a notification it receives is an [Effect]. *)

Record FMediaIOCorePlayerBase := mkBase {
  CurrentState : EMediaState.t;
  Samples : FMediaIOCoreSamples;
  OpenUrl : string;
  VideoFrameRate : FFrameRate;
  bUseTimeSynchronization : bool;
  AudioTrackFormat : FMediaAudioTrackFormat }.

Definition set_CurrentState (v : EMediaState.t) (b : FMediaIOCorePlayerBase) :=
  let 'mkBase _ s u r t f := b in mkBase v s u r t f.
Definition set_Samples (v : FMediaIOCoreSamples) (b : FMediaIOCorePlayerBase) :=
  let 'mkBase c _ u r t f := b in mkBase c v u r t f.
Definition set_AudioTrackFormat (v : FMediaAudioTrackFormat) (b : FMediaIOCorePlayerBase) :=
  let 'mkBase c s u r t _ := b in mkBase c s u r t v.

Definition is_null {A} (p : option A) : bool :=
  match p with Some _ => false | None => true end.

Definition Qltb (a b : Q) : bool := negb (Qle_bool b a).

(** ** What the file calls but does not define: the vendor SDK, the
    engine's base class, pools, time and frame-rate arithmetic, and the
    declarations of [BlackmagicMediaSource.h]. *)

Class External := {
  (** the state of the vendor SDK *)
  SDK : Type;
  (** Registration answers with an identifier and with the number of
      references ([AddRef] calls) the SDK took on the callback object. *)
  RegisterCallbackForChannel :
    FChannelInfo -> FInputChannelOptions -> loc -> SDK -> FUniqueIdentifier * nat * SDK;
  UnregisterCallbackForChannel : FChannelInfo -> FUniqueIdentifier -> SDK -> SDK;
  (** [TMediaObjectPool] *)
  Pool : Type;
  PoolReset : Pool -> Pool;
  AcquireShared : Pool -> Pool;
  (** [FMediaIOCorePlayerBase::Open], [::Close] and [::TickTimeManagement]:
      the new base members and the notifications sent to the event sink *)
  SuperOpen : string -> IMediaOptions -> FMediaIOCorePlayerBase ->
              bool * FMediaIOCorePlayerBase * list EMediaEvent.t;
  SuperClose : FMediaIOCorePlayerBase -> FMediaIOCorePlayerBase * list EMediaEvent.t;
  TickTimeManagement : FMediaIOCorePlayerBase -> FMediaIOCorePlayerBase * list EMediaEvent.t;
  (** [FTimespan::FromSeconds], [FFrameRate::AsInterval], [::AsDecimal],
      [FMath::RoundToInt], [FTimecode::ToTimespan] and
      [FTimecode::IsDropFormatTimecodeSupported] *)
  FromSeconds : Q -> FTimespan;
  (** rounding of an exact result to a [double]: monotone, and exact on
      the representable number 2 *)
  RoundDouble : Q -> Q;
  RoundDouble_le : forall x y : Q, (x <= y)%Q -> (RoundDouble x <= RoundDouble y)%Q;
  RoundDouble_2 : (RoundDouble 2 == 2)%Q;
  AsInterval : FFrameRate -> Q;
  AsDecimal : FFrameRate -> Q;
  RoundToInt : Q -> Z;
  ToTimespan : FTimecode -> FFrameRate -> FTimespan;
  IsDropFormatTimecodeSupported : FFrameRate -> bool;
  (** whether [Initialize] of a pooled sample accepts its arguments *)
  AudioSampleInitialize : FBlackmagicMediaAudioSample -> bool;
  TextureSampleInitialize : FBlackmagicMediaTextureSample -> bool;
  (** the enumerations of the media source and their casts from and to [int64] *)
  DefaultVideoFormat : Z;
  ColorFormat_of_int64 : Z -> EBlackmagicMediaSourceColorFormat.t;
  TimecodeFormat_of_int64 : Z -> EMediaIOTimecodeFormat.t;
  AudioChannel_of_int64 : Z -> EBlackmagicMediaAudioChannel.t;
  int64_of_ColorFormat : EBlackmagicMediaSourceColorFormat.t -> Z;
  int64_of_TimecodeFormat : EMediaIOTimecodeFormat.t -> Z;
  int64_of_AudioChannel : EBlackmagicMediaAudioChannel.t -> Z }.

Section Model.

Context `{External}.

(** *** The player and the world around it *)

Record FBlackmagicMediaPlayer := mkPlayer {
  Super : FMediaIOCorePlayerBase;
  EventCallback : option loc;
  AudioSamplePool : Pool;
  TextureSamplePool : Pool;
  bVerifyFrameDropCount : bool }.

Definition set_Super (v : FMediaIOCorePlayerBase) (p : FBlackmagicMediaPlayer) :=
  let 'mkPlayer _ e a t b := p in mkPlayer v e a t b.
Definition set_EventCallback (v : option loc) (p : FBlackmagicMediaPlayer) :=
  let 'mkPlayer s _ a t b := p in mkPlayer s v a t b.
Definition set_AudioSamplePool (v : Pool) (p : FBlackmagicMediaPlayer) :=
  let 'mkPlayer s e _ t b := p in mkPlayer s e v t b.
Definition set_TextureSamplePool (v : Pool) (p : FBlackmagicMediaPlayer) :=
  let 'mkPlayer s e a _ b := p in mkPlayer s e a v b.
Definition set_bVerifyFrameDropCount (v : bool) (p : FBlackmagicMediaPlayer) :=
  let 'mkPlayer s e a t _ := p in mkPlayer s e a t v.

(** [FBlackmagicMediaPlayer::FBlackmagicMediaPlayer]; the base members and
    the two fresh pools are the caller's. *)
Definition new_FBlackmagicMediaPlayer (base : FMediaIOCorePlayerBase) (audio texture : Pool) :=
  {| Super := base; EventCallback := None;
     AudioSamplePool := audio; TextureSamplePool := texture;
     bVerifyFrameDropCount := false |}.

Record World := mkWorld {
  (** the live callback objects *)
  Heap : gmap loc FBlackmagicMediaPlayerEventCallback;
  Player : FBlackmagicMediaPlayer;
  Sdk : SDK;
  (** [FBlackmagic::IsInitialized()] and [FBlackmagic::CanUseBlackmagicCard()] *)
  bIsInitialized : bool;
  bCanUseBlackmagicCard : bool;
  bBlackmagicWriteOutputRawDataCmdEnable : bool;
  (** log lines, SDK calls and file writes so far, oldest first *)
  Trace : list Effect }.

Definition set_Heap (v : gmap loc FBlackmagicMediaPlayerEventCallback) (w : World) :=
  let 'mkWorld _ p s i c g t := w in mkWorld v p s i c g t.
Definition set_Player (v : FBlackmagicMediaPlayer) (w : World) :=
  let 'mkWorld h _ s i c g t := w in mkWorld h v s i c g t.
Definition set_Sdk (v : SDK) (w : World) :=
  let 'mkWorld h p _ i c g t := w in mkWorld h p v i c g t.
Definition set_bBlackmagicWriteOutputRawDataCmdEnable (v : bool) (w : World) :=
  let 'mkWorld h p s i c _ t := w in mkWorld h p s i c v t.
Definition emits (es : list Effect) (w : World) :=
  let 'mkWorld h p s i c g t := w in mkWorld h p s i c g (t ++ es).
Definition emit (e : Effect) (w : World) := emits [e] w.
(** [EventSink.ReceiveMediaEvent] *)
Definition ReceiveMediaEvent (ev : EMediaEvent.t) (w : World) := emit (MediaEvent ev) w.
(** A call into the base class: its members change, its notifications
    reach the sink. *)
Definition call_Super (r : FMediaIOCorePlayerBase * list EMediaEvent.t) (w : World) :=
  emits (MediaEvent <$> snd r) (set_Player (set_Super (fst r) (Player w)) w).

Definition store (this : loc) (cb : FBlackmagicMediaPlayerEventCallback) (w : World) :=
  set_Heap (<[this := cb]> (Heap w)) w.
Definition with_Super (f : FMediaIOCorePlayerBase -> FMediaIOCorePlayerBase) (w : World) :=
  set_Player (set_Super (f (Super (Player w))) (Player w)) w.
Definition with_Samples (f : FMediaIOCoreSamples -> FMediaIOCoreSamples) (w : World) :=
  with_Super (fun b => set_Samples (f (Samples b)) b) w.
Definition GetUrl (w : World) : string := OpenUrl (Super (Player w)).
Definition TheSamples (w : World) : FMediaIOCoreSamples := Samples (Super (Player w)).


(** *** [namespace BlackmagicMediaPlayerHelpers] *)

Definition ToleratedExtraMaxBufferCount : Z := 2.

(** **** Reference counting *)

Definition AddRef (this : loc) (w : World) : option World :=
  cb ← Heap w !! this;
  Some (store this (set_RefCounter (int32 (RefCounter cb + 1)) cb) w).

Definition Release (this : loc) (w : World) : option World :=
  cb ← Heap w !! this;
  let n := int32 (RefCounter cb - 1) in
  if decide (n = 0)
  then Some (emit (DeleteThis this) (set_Heap (delete this (Heap w)) w))
  else Some (store this (set_RefCounter n cb) w).

(** **** [Initialize] and [Uninitialize] *)

Definition Initialize (this : loc) (InChannelInfo : FInputChannelOptions)
    (bInEncodeTimecodeInTexel : bool) (InMaxNumAudioFrameBuffer InMaxNumVideoFrameBuffer : Z)
    (bInIsSRGBInput : bool) (w : World) : option (bool * World) :=
  w ← AddRef this w;
  cb ← Heap w !! this;
  let cb := set_bEncodeTimecodeInTexel bInEncodeTimecodeInTexel cb in
  let cb := set_MaxNumAudioFrameBuffer InMaxNumAudioFrameBuffer cb in
  let cb := set_MaxNumVideoFrameBuffer InMaxNumVideoFrameBuffer cb in
  let cb := set_bIsTimecodeExpected
              (negb (bool_decide (TimecodeFormat InChannelInfo = ETimecodeFormat.TCF_None))) cb in
  let cb := set_bIsSRGBInput bInIsSRGBInput cb in
  (* SelfRef(this) *)
  w ← AddRef this (store this cb w);
  cb ← Heap w !! this;
  let '(id, taken, sdk) :=
    RegisterCallbackForChannel (ChannelInfo cb) InChannelInfo this (Sdk w) in
  let w := emit (SdkRegister this) (set_Sdk sdk w) in
  let cb := set_RefCounter (int32 (RefCounter cb + Z.of_nat taken)) cb in
  let cb := set_BlackmagicIdendifier id cb in
  let cb := set_MediaState
              (if IsValid id then EMediaState.Preparing else EMediaState.Error) cb in
  (* ~SelfRef *)
  w ← Release this (store this cb w);
  Some (IsValid id, w).

Definition Uninitialize (this : loc) (w : World) : option World :=
  (* FScopeLock Lock(&CallbackLock) *)
  cb ← Heap w !! this;
  let cb := set_MediaPlayer false cb in
  w ← (if IsValid (BlackmagicIdendifier cb) then
         let cb1 := set_MediaState EMediaState.Stopped cb in
         let w := emit (SdkUnregister (ChannelInfo cb) (BlackmagicIdendifier cb))
                    (set_Sdk (UnregisterCallbackForChannel (ChannelInfo cb)
                                (BlackmagicIdendifier cb) (Sdk w)) w) in
         let cb2 := set_BlackmagicIdendifier None cb1 in
         Release this (store this cb2 w)
       else
         Release this (store this cb w));
  (* ~FScopeLock: [CallbackLock] is a member of the object *)
  _ ← Heap w !! this;
  Some w.

Definition GetMediaState (this : loc) (w : World) : option EMediaState.t :=
  cb ← Heap w !! this; Some (MediaState cb).

Definition UpdateAudioTrackFormat (cb : FBlackmagicMediaPlayerEventCallback)
    (OutAudioTrackFormat : FMediaAudioTrackFormat) : FMediaAudioTrackFormat :=
  {| BitsPerSample := LastBitsPerSample cb;
     NumChannels := LastNumChannels cb;
     SampleRate := LastSampleRate cb |}.

(** **** [VerifyFrameDropCount_GameThread] *)

Definition AudioOverflowCount (cb : FBlackmagicMediaPlayerEventCallback)
    (s : FMediaIOCoreSamples) : Z :=
  FMath_Max (int32 (NumAudioSamples s - MaxNumAudioFrameBuffer cb)) 0.
Definition VideoOverflowCount (cb : FBlackmagicMediaPlayerEventCallback)
    (s : FMediaIOCoreSamples) : Z :=
  FMath_Max (int32 (NumVideoSamples s - MaxNumVideoFrameBuffer cb)) 0.

(** The numbers the two warnings would print: the overflow just trimmed
    plus the counter read (and reset) by [InterlockedExchange]. *)
Definition AudioLostCount (cb : FBlackmagicMediaPlayerEventCallback)
    (s : FMediaIOCoreSamples) : Z :=
  int32 (AudioOverflowCount cb s + AudioFrameDropCount cb).
Definition VideoLostCount (cb : FBlackmagicMediaPlayerEventCallback)
    (s : FMediaIOCoreSamples) : Z :=
  int32 (VideoOverflowCount cb s + VideoFrameDropCount cb).

Definition VerifyFrameDropCount_GameThread (this : loc) (InUrl : string) (w : World)
    : option World :=
  cb ← Heap w !! this;
  if negb (MediaPlayer cb) then None else
  let s0 := TheSamples w in
  let w := with_Samples (Nat.iter (Z.to_nat (AudioOverflowCount cb s0)) PopAudio) w in
  let s1 := TheSamples w in
  let w := with_Samples (Nat.iter (Z.to_nat (VideoOverflowCount cb s1)) PopVideo) w in
  if bVerifyFrameDropCount (Player w) then
    let audio := AudioLostCount cb s0 in
    let w := if 0 <? audio
             then emit (UE_LOG ELogVerbosity.Warning (LostAudioFrames audio InUrl)) w else w in
    let video := VideoLostCount cb s1 in
    let w := if 0 <? video
             then emit (UE_LOG ELogVerbosity.Warning (LostVideoFrames video InUrl)) w else w in
    Some (store this (set_VideoFrameDropCount 0 (set_AudioFrameDropCount 0 cb)) w)
  else Some w.

(** **** The one-line event handlers *)

Definition OnInitializationCompleted (this : loc) (bSuccess : bool) (w : World) : option World :=
  cb ← Heap w !! this;
  Some (store this
          (set_MediaState (if bSuccess then EMediaState.Playing else EMediaState.Error) cb) w).

Definition OnShutdownCompleted (this : loc) (w : World) : option World :=
  cb ← Heap w !! this;
  Some (store this (set_MediaState EMediaState.Closed cb) w).

Definition OnFrameFormatChanged (this : loc) (w : World) : option World :=
  cb ← Heap w !! this;
  let w := emit (UE_LOG ELogVerbosity.Error
                   (VideoFormatChanged (if MediaPlayer cb then GetUrl w else "<Invalid>"))) w in
  Some (store this (set_MediaState EMediaState.Error cb) w).

Definition OnInterlacedOddFieldEvent (this : loc) (w : World) : option World :=
  cb ← Heap w !! this; Some w.


(** **** [OnFrameReceived] *)

(** The locals [DecodedTime], [DecodedTimeF2], [DecodedTimecode] and
    [DecodedTimecodeF2]. *)
Record FrameLocals := {
  DecodedTime : FTimespan;
  DecodedTimeF2 : FTimespan;
  DecodedTimecode : option FTimecode;
  DecodedTimecodeF2 : option FTimecode }.

(** The "no input source and no audio" branch, up to its [return]. *)
Definition NoSignal (clock : FrameClock) (cb : FBlackmagicMediaPlayerEventCallback)
    (w : World) : FBlackmagicMediaPlayerEventCallback * World :=
  let TimeAllowedToConnect : Q := 2%Q in
  let cb := if Qltb (LastHasFrameTime cb) (1 # 10)
            then set_LastHasFrameTime (CurrentTime clock) cb else cb in
  if bReceivedValidFrame cb
     || Qltb TimeAllowedToConnect (RoundDouble (CurrentTime clock - LastHasFrameTime cb)%Q)
  then (set_MediaState EMediaState.Error cb,
        emit (UE_LOG ELogVerbosity.Error (NoVideoInput (GetUrl w))) w)
  else (cb, w).

(** [if (InFrameInfo.bHaveTimecode) ... else if ...] *)
Definition ReceiveTimecode (clock : FrameClock) (InFrameInfo : FFrameReceivedInfo)
    (L : FrameLocals) (cb : FBlackmagicMediaPlayerEventCallback) (w : World)
    : FrameLocals * FBlackmagicMediaPlayerEventCallback * World :=
  let rate := VideoFrameRate (Super (Player w)) in
  let tc := Timecode InFrameInfo in
  if bHaveTimecode InFrameInfo then
    let FrameLimit :=
      if negb (bool_decide (FieldDominance InFrameInfo = EFieldDominance.Interlaced))
      then RoundToInt (AsDecimal rate)
      else int32 (RoundToInt (AsDecimal rate) - 1) in
    let w := if FrameLimit <=? int32 (bmFrames tc)
             then emit (UE_LOG ELogVerbosity.Warning
                          (InvalidTimecodeFrame (GetUrl w) (bmFrames tc) rate)) w
             else w in
    let Decoded :=
      {| Hours := int32 (bmHours tc); Minutes := int32 (bmMinutes tc);
         Seconds := int32 (bmSeconds tc); Frames := int32 (bmFrames tc);
         bDropFrameFormat := IsDropFormatTimecodeSupported rate |} in
    let DecodedF2 :=
      {| Hours := Hours Decoded; Minutes := Minutes Decoded;
         Seconds := Seconds Decoded; Frames := int32 (Frames Decoded + 1);
         bDropFrameFormat := bDropFrameFormat Decoded |} in
    let TimecodeDecodedTime := ToTimespan Decoded rate in
    let L :=
      if bUseTimeSynchronization (Super (Player w))
      then {| DecodedTime := TimecodeDecodedTime;
              DecodedTimeF2 := TimecodeDecodedTime + FromSeconds (AsInterval rate);
              DecodedTimecode := Some Decoded; DecodedTimecodeF2 := Some DecodedF2 |}
      else {| DecodedTime := DecodedTime L; DecodedTimeF2 := DecodedTimeF2 L;
              DecodedTimecode := Some Decoded; DecodedTimecodeF2 := Some DecodedF2 |} in
    let cb := set_PreviousTimecode tc cb in
    let cb := set_PrevousTimespan TimecodeDecodedTime cb in
    let w := if bTimecodeLogEnabled clock
             then emit (UE_LOG ELogVerbosity.Log (HasTimecode (GetUrl w) tc)) w else w in
    (L, cb, w)
  else if negb (bHasWarnedMissingTimecode cb) && bIsTimecodeExpected cb then
    (L, set_bHasWarnedMissingTimecode true cb,
     emit (UE_LOG ELogVerbosity.Warning (MissingTimecode (GetUrl w))) w)
  else (L, cb, w).

(** [if (InFrameInfo.AudioBuffer) ...] *)
Definition ReceiveAudio (InFrameInfo : FFrameReceivedInfo) (L : FrameLocals)
    (cb : FBlackmagicMediaPlayerEventCallback) (w : World)
    : FBlackmagicMediaPlayerEventCallback * World :=
  match AudioBuffer InFrameInfo with
  | None => (cb, w)
  | Some buffer =>
    if int32 (MaxNumAudioFrameBuffer cb * ToleratedExtraMaxBufferCount)
         <=? NumAudioSamples (TheSamples w)
    then
      if bVerifyFrameDropCount (Player w)
      then (set_AudioFrameDropCount (int32 (AudioFrameDropCount cb + 1)) cb, w)
      else (cb, w)
    else
      let w := set_Player (set_AudioSamplePool
                             (AcquireShared (AudioSamplePool (Player w))) (Player w)) w in
      let AudioSample :=
        {| asBuffer := buffer;
           asBufferSize := uint32 (size_t (AudioBufferSize InFrameInfo) / sizeof_int32);
           asNumberOfChannels := uint32 (fiNumberOfAudioChannel InFrameInfo);
           asSampleRate := uint32 (AudioRate InFrameInfo);
           asTime := DecodedTime L;
           asTimecode := DecodedTimecode L |} in
      if AudioSampleInitialize AudioSample then
        let w := with_Samples (AddAudio AudioSample) w in
        let cb := set_LastBitsPerSample sizeof_int32 cb in
        let cb := set_LastSampleRate (uint32 (AudioRate InFrameInfo)) cb in
        let cb := set_LastNumChannels (uint32 (fiNumberOfAudioChannel InFrameInfo)) cb in
        (cb, w)
      else (cb, w)
  end.

Definition AcquireTexture (w : World) : World :=
  set_Player (set_TextureSamplePool
                (AcquireShared (TextureSamplePool (Player w))) (Player w)) w.

(** The arguments the three texture initialisations share. *)
Definition TextureSample (InFrameInfo : FFrameReceivedInfo) (buffer : loc)
    (line : option bool) (SampleFormat : EMediaTextureSampleFormat.t)
    (time : FTimespan) (rate : FFrameRate) (timecode : option FTimecode)
    (cb : FBlackmagicMediaPlayerEventCallback) : FBlackmagicMediaTextureSample :=
  {| tsUseEvenLine := line;
     tsBuffer := buffer;
     tsBufferSize := uint32 (VideoPitch InFrameInfo * VideoHeight InFrameInfo);
     tsStride := uint32 (VideoPitch InFrameInfo);
     tsWidth := uint32 (VideoWidth InFrameInfo);
     tsHeight := uint32 (VideoHeight InFrameInfo);
     tsSampleFormat := SampleFormat;
     tsTime := time;
     tsFrameRate := rate;
     tsTimecode := timecode;
     tsIsSRGBInput := bIsSRGBInput cb |}.

(** The occupancy the video check compares: the queue length, plus one
    slot for the odd field of an interlaced picture. *)
Definition VideoOccupancy (InFrameInfo : FFrameReceivedInfo) (s : FMediaIOCoreSamples) : Z :=
  let bIsProgressivePicture :=
    negb (bool_decide (FieldDominance InFrameInfo = EFieldDominance.Interlaced)) in
  int32 (NumVideoSamples s + (if negb bIsProgressivePicture then 1 else 0)).

(** [switch (InFrameInfo.PixelFormat)]: [SampleFormat], [EncodePixelFormat]
    and [OutputFilename] (a prefix and the [%d] argument). *)
Definition SelectFormats (InFrameInfo : FFrameReceivedInfo)
    (cb : FBlackmagicMediaPlayerEventCallback)
    : EMediaTextureSampleFormat.t * EMediaIOCoreEncodePixelFormat.t * (string * option Z) :=
  match fiPixelFormat InFrameInfo with
  | EPixelFormat.pf_8Bits =>
      (EMediaTextureSampleFormat.CharUYVY, EMediaIOCoreEncodePixelFormat.CharUYVY,
       ("Blackmagic_Output_8_YUV_ch"%string, Some (DeviceIndex (ChannelInfo cb))))
  | EPixelFormat.pf_10Bits =>
      (EMediaTextureSampleFormat.YUVv210, EMediaIOCoreEncodePixelFormat.YUVv210,
       ("Blackmagic_Output_10_YUV_ch"%string, Some (DeviceIndex (ChannelInfo cb))))
  | _ =>
      (EMediaTextureSampleFormat.CharBGRA, EMediaIOCoreEncodePixelFormat.CharUYVY,
       (""%string, None))
  end.

(** [if (bBlackmagicWriteOutputRawDataCmdEnable) ...] *)
Definition WriteOutputRawData (InFrameInfo : FFrameReceivedInfo)
    (OutputFilename : string * option Z) (w : World) : World :=
  if bBlackmagicWriteOutputRawDataCmdEnable w
  then set_bBlackmagicWriteOutputRawDataCmdEnable false
         (emit (WriteRawFile (fst OutputFilename) (snd OutputFilename)
                  (uint32 (VideoPitch InFrameInfo * VideoHeight InFrameInfo))) w)
  else w.

(** [if (bIsProgressivePicture) ...] *)
Definition AddProgressive (InFrameInfo : FFrameReceivedInfo) (buffer : loc)
    (SampleFormat : EMediaTextureSampleFormat.t) (L : FrameLocals)
    (cb : FBlackmagicMediaPlayerEventCallback) (w : World) : World :=
  let w :=
    match DecodedTimecode L with
    | Some SetTimecode =>
        if bEncodeTimecodeInTexel cb
        then emit (EncodeTimeRender (Hours SetTimecode) (Minutes SetTimecode)
                     (Seconds SetTimecode) (Frames SetTimecode)) w
        else w
    | None => w
    end in
  let w := AcquireTexture w in
  let Sample := TextureSample InFrameInfo buffer None SampleFormat
                  (DecodedTime L) (VideoFrameRate (Super (Player w)))
                  (DecodedTimecode L) cb in
  if TextureSampleInitialize Sample then with_Samples (AddVideo Sample) w else w.

(** [else ...]: the even field, then the odd field *)
Definition AddInterlaced (InFrameInfo : FFrameReceivedInfo) (buffer : loc)
    (SampleFormat : EMediaTextureSampleFormat.t) (L : FrameLocals)
    (cb : FBlackmagicMediaPlayerEventCallback) (w : World) : World :=
  let w := AcquireTexture w in
  let SampleEven := TextureSample InFrameInfo buffer (Some true) SampleFormat
                      (DecodedTime L) (VideoFrameRate (Super (Player w)))
                      (DecodedTimecode L) cb in
  let w := if TextureSampleInitialize SampleEven
           then with_Samples (AddVideo SampleEven) w else w in
  let w := AcquireTexture w in
  let SampleOdd := TextureSample InFrameInfo buffer (Some false) SampleFormat
                     (DecodedTimeF2 L) (VideoFrameRate (Super (Player w)))
                     (DecodedTimecodeF2 L) cb in
  if TextureSampleInitialize SampleOdd then with_Samples (AddVideo SampleOdd) w else w.

(** [if (InFrameInfo.VideoBuffer) ...] *)
Definition ReceiveVideo (InFrameInfo : FFrameReceivedInfo) (L : FrameLocals)
    (cb : FBlackmagicMediaPlayerEventCallback) (w : World)
    : FBlackmagicMediaPlayerEventCallback * World :=
  match VideoBuffer InFrameInfo with
  | None => (cb, w)
  | Some buffer =>
    let bIsProgressivePicture :=
      negb (bool_decide (FieldDominance InFrameInfo = EFieldDominance.Interlaced)) in
    let NumVideoSamples := VideoOccupancy InFrameInfo (TheSamples w) in
    if int32 (MaxNumVideoFrameBuffer cb * ToleratedExtraMaxBufferCount) <=? NumVideoSamples
    then
      if bVerifyFrameDropCount (Player w)
      then (set_VideoFrameDropCount (int32 (VideoFrameDropCount cb + 1)) cb, w)
      else (cb, w)
    else
      let '(SampleFormat, EncodePixelFormat, OutputFilename) :=
        SelectFormats InFrameInfo cb in
      let w := WriteOutputRawData InFrameInfo OutputFilename w in
      if bIsProgressivePicture
      then (cb, AddProgressive InFrameInfo buffer SampleFormat L cb w)
      else (cb, AddInterlaced InFrameInfo buffer SampleFormat L cb w)
  end.

Definition OnFrameReceived (this : loc) (clock : FrameClock)
    (InFrameInfo : FFrameReceivedInfo) (w : World) : option World :=
  cb ← Heap w !! this;
  if negb (MediaPlayer cb) then Some w else
  if negb (bHasInputSource InFrameInfo) && is_null (AudioBuffer InFrameInfo) then
    let '(cb, w) := NoSignal clock cb w in
    Some (store this cb w)
  else
    let cb := set_bReceivedValidFrame
                (bReceivedValidFrame cb || bHasInputSource InFrameInfo) cb in
    let Time := FromSeconds (PlatformSeconds clock) in
    let L := {| DecodedTime := Time;
                DecodedTimeF2 :=
                  Time + FromSeconds (AsInterval (VideoFrameRate (Super (Player w))));
                DecodedTimecode := None; DecodedTimecodeF2 := None |} in
    if bool_decide (MediaState cb = EMediaState.Playing) then
      let '(L, cb, w) := ReceiveTimecode clock InFrameInfo L cb w in
      let '(cb, w) := ReceiveAudio InFrameInfo L cb w in
      let '(cb, w) := ReceiveVideo InFrameInfo L cb w in
      Some (store this cb w)
    else Some (store this cb w).


(** *** [FBlackmagicMediaPlayer] *)

Definition Close (w : World) : option World :=
  w ← match EventCallback (Player w) with
      | Some callback =>
          w ← Uninitialize callback w;
          Some (set_Player (set_EventCallback None (Player w)) w)
      | None => Some w
      end;
  let p := Player w in
  let p := set_AudioSamplePool (PoolReset (AudioSamplePool p)) p in
  let p := set_TextureSamplePool (PoolReset (TextureSamplePool p)) p in
  let w := set_Player p w in
  Some (call_Super (SuperClose (Super (Player w))) w).

Definition Open (Url : string) (Options : IMediaOptions) (w : World) : option (bool * World) :=
  if negb (bIsInitialized w) then
    Some (false, emit (UE_LOG ELogVerbosity.Error (NotInitialized Url)) w)
  else if negb (bCanUseBlackmagicCard w) then
    Some (false, emit (UE_LOG ELogVerbosity.Warning (CardCannotBeUsed Url)) w)
  else
    let '(opened, base, sent) := SuperOpen Url Options (Super (Player w)) in
    let w := call_Super (base, sent) w in
    if negb opened then Some (false, w) else
    let Info := {| DeviceIndex :=
                     int32 (GetMediaOption_int64 Options
                              BlackmagicMediaOption.DeviceIndex 0) |} in
    (* check(EventCallback == nullptr) *)
    if negb (is_null (EventCallback (Player w))) then None else
    let this := fresh (dom (Heap w)) in
    let w := store this (new_FBlackmagicMediaPlayerEventCallback Info) w in
    let w := set_Player (set_EventCallback (Some this) (Player w)) w in
    let Format :=
      ColorFormat_of_int64
        (GetMediaOption_int64 Options BlackmagicMediaOption.ColorFormat
           (int64_of_ColorFormat EBlackmagicMediaSourceColorFormat.YUV8)) in
    let bIsSRGBInput := GetMediaOption_bool Options BlackmagicMediaOption.SRGBInput true in
    let TimecodeFormat :=
      TimecodeFormat_of_int64
        (GetMediaOption_int64 Options BlackmagicMediaOption.TimecodeFormat
           (int64_of_TimecodeFormat EMediaIOTimecodeFormat.None)) in
    let AudioChannelOption :=
      AudioChannel_of_int64
        (GetMediaOption_int64 Options BlackmagicMediaOption.AudioChannelOption
           (int64_of_AudioChannel EBlackmagicMediaAudioChannel.Stereo2)) in
    let ChannelOptions :=
      {| CallbackPriority := 10;
         bReadVideo := GetMediaOption_bool Options BlackmagicMediaOption.CaptureVideo true;
         DisplayMode :=
           int32 (GetMediaOption_int64 Options BlackmagicMediaOption.BlackmagicVideoFormat
                    DefaultVideoFormat);
         PixelFormat :=
           match Format with
           | EBlackmagicMediaSourceColorFormat.YUV8 => EPixelFormat.pf_8Bits
           | _ => EPixelFormat.pf_10Bits
           end;
         TimecodeFormat :=
           match TimecodeFormat with
           | EMediaIOTimecodeFormat.LTC => ETimecodeFormat.TCF_LTC
           | EMediaIOTimecodeFormat.VITC => ETimecodeFormat.TCF_VITC1
           | EMediaIOTimecodeFormat.None | EMediaIOTimecodeFormat.Other =>
               ETimecodeFormat.TCF_None
           end;
         bReadAudio := GetMediaOption_bool Options BlackmagicMediaOption.CaptureAudio false;
         NumberOfAudioChannel :=
           match AudioChannelOption with
           | EBlackmagicMediaAudioChannel.Surround8 => 8
           | _ => 2
           end |} in
    let w := set_Player
               (set_bVerifyFrameDropCount
                  (GetMediaOption_bool Options BlackmagicMediaOption.LogDropFrame false)
                  (Player w)) w in
    let bEncodeTimecodeInTexel :=
      match TimecodeFormat with
      | EMediaIOTimecodeFormat.None => false
      | _ => GetMediaOption_bool Options BlackmagicMediaOption.EncodeTimecodeInTexel false
      end in
    let MaxNumAudioFrameBuffer :=
      int32 (GetMediaOption_int64 Options BlackmagicMediaOption.MaxAudioFrameBuffer 8) in
    let MaxNumVideoFrameBuffer :=
      int32 (GetMediaOption_int64 Options BlackmagicMediaOption.MaxVideoFrameBuffer 8) in
    '(bSuccess, w) ← Initialize this ChannelOptions bEncodeTimecodeInTexel
                       MaxNumAudioFrameBuffer MaxNumVideoFrameBuffer bIsSRGBInput w;
    if negb bSuccess then
      w ← Uninitialize this w;
      Some (false, set_Player (set_EventCallback None (Player w)) w)
    else Some (true, w).

(** [if (NewState != CurrentState) ...], the state-sync phase of [TickInput] *)
Definition UpdatePlayerState (NewState : EMediaState.t) (w : World) : option World :=
  if bool_decide (NewState ≠ CurrentState (Super (Player w))) then
    let w := with_Super (set_CurrentState NewState) w in
    if bool_decide (CurrentState (Super (Player w)) = EMediaState.Playing) then
      let w := ReceiveMediaEvent EMediaEvent.TracksChanged w in
      let w := ReceiveMediaEvent EMediaEvent.MediaOpened w in
      Some (ReceiveMediaEvent EMediaEvent.PlaybackResumed w)
    else if bool_decide (NewState = EMediaState.Error) then
      Close (ReceiveMediaEvent EMediaEvent.MediaOpenFailed w)
    else Some w
  else Some w.

Definition TickInput (w : World) : option World :=
  NewState ← match EventCallback (Player w) with
             | Some callback => GetMediaState callback w
             | None => Some EMediaState.Closed
             end;
  w ← UpdatePlayerState NewState w;
  if bool_decide (CurrentState (Super (Player w)) ≠ EMediaState.Playing)
  then Some w
  else Some (call_Super (TickTimeManagement (Super (Player w))) w).

Definition IsHardwareReady (w : World) : option bool :=
  match EventCallback (Player w) with
  | Some callback =>
      state ← GetMediaState callback w;
      Some (bool_decide (state = EMediaState.Playing))
  | None => Some false
  end.

Definition ProcessFrame (w : World) : option World :=
  callback ← EventCallback (Player w);
  cb ← Heap w !! callback;
  Some (with_Super
          (fun b => set_AudioTrackFormat (UpdateAudioTrackFormat cb (AudioTrackFormat b)) b) w).

Definition VerifyFrameDropCount (w : World) : option World :=
  callback ← EventCallback (Player w);
  VerifyFrameDropCount_GameThread callback (GetUrl w) w.

Definition TickFetch (w : World) : option World :=
  ready ← IsHardwareReady w;
  if (ready : bool) then w ← ProcessFrame w; VerifyFrameDropCount w else Some w.

(** *** Everything that can happen to a world: the calls of the SDK on a
    callback object and the calls of the host on the player. *)

Inductive Call :=
| SdkAddRef (this : loc)
| SdkRelease (this : loc)
| SdkOnInitializationCompleted (this : loc) (bSuccess : bool)
| SdkOnShutdownCompleted (this : loc)
| SdkOnFrameReceived (this : loc) (clock : FrameClock) (info : FFrameReceivedInfo)
| SdkOnFrameFormatChanged (this : loc)
| SdkOnInterlacedOddFieldEvent (this : loc)
| HostOpen (Url : string) (Options : IMediaOptions)
| HostClose
| HostTickInput
| HostTickFetch.

Definition step (c : Call) (w : World) : option World :=
  match c with
  | SdkAddRef this => AddRef this w
  | SdkRelease this => Release this w
  | SdkOnInitializationCompleted this b => OnInitializationCompleted this b w
  | SdkOnShutdownCompleted this => OnShutdownCompleted this w
  | SdkOnFrameReceived this clock info => OnFrameReceived this clock info w
  | SdkOnFrameFormatChanged this => OnFrameFormatChanged this w
  | SdkOnInterlacedOddFieldEvent this => OnInterlacedOddFieldEvent this w
  | HostOpen Url Options => snd <$> Open Url Options w
  | HostClose => Close w
  | HostTickInput => TickInput w
  | HostTickFetch => TickFetch w
  end.

Fixpoint run (cs : list Call) (w : World) : option World :=
  match cs with
  | [] => Some w
  | c :: cs => w ← step c w; run cs w
  end.

End Model.

(** ** The vocabulary of the properties *)

Section Vocabulary.

Context `{External}.

Implicit Types (w : World) (cb : FBlackmagicMediaPlayerEventCallback) (this : loc).

(** No object was created; no detached callback was re-attached; no
    callback entered the [Playing] state. *)
Definition evolves (w w' : World) : Prop :=
  forall this cb', Heap w' !! this = Some cb' ->
    exists cb, Heap w !! this = Some cb
               /\ (MediaPlayer cb = false -> MediaPlayer cb' = false)
               /\ (MediaState cb' = EMediaState.Playing -> MediaState cb = EMediaState.Playing).

(** The heap holds no new object in the [Playing] state. *)
Definition no_new_Playing (w w' : World) : Prop :=
  forall this cb', Heap w' !! this = Some cb' -> MediaState cb' = EMediaState.Playing ->
    exists cb, Heap w !! this = Some cb /\ MediaState cb = EMediaState.Playing.

(** The parts of a world no block of [OnFrameReceived] writes. *)
Definition frame_world (w w' : World) : Prop :=
  Heap w' = Heap w /\ Sdk w' = Sdk w
  /\ EventCallback (Player w') = EventCallback (Player w)
  /\ bVerifyFrameDropCount (Player w') = bVerifyFrameDropCount (Player w)
  /\ VideoFrameRate (Super (Player w')) = VideoFrameRate (Super (Player w))
  /\ bUseTimeSynchronization (Super (Player w')) = bUseTimeSynchronization (Super (Player w))
  /\ CurrentState (Super (Player w')) = CurrentState (Super (Player w)).

(** The members of a callback the blocks after the no-signal test never
    write. *)
Definition frame_callback (cb cb' : FBlackmagicMediaPlayerEventCallback) : Prop :=
  MaxNumAudioFrameBuffer cb' = MaxNumAudioFrameBuffer cb
  /\ MaxNumVideoFrameBuffer cb' = MaxNumVideoFrameBuffer cb
  /\ MediaPlayer cb' = MediaPlayer cb
  /\ MediaState cb' = MediaState cb
  /\ RefCounter cb' = RefCounter cb
  /\ BlackmagicIdendifier cb' = BlackmagicIdendifier cb
  /\ bIsSRGBInput cb' = bIsSRGBInput cb
  /\ LastHasFrameTime cb' = LastHasFrameTime cb
  /\ bReceivedValidFrame cb' = bReceivedValidFrame cb
  /\ ChannelInfo cb' = ChannelInfo cb.

(** The relation between the locals that [ReceiveTimecode] establishes. *)
Definition fields_apart (InFrameInfo : FFrameReceivedInfo) (rate : FFrameRate)
    (L : FrameLocals) : Prop :=
  DecodedTimeF2 L = DecodedTime L + FromSeconds (AsInterval rate)
  /\ if bHaveTimecode InFrameInfo then
       exists T, DecodedTimecode L = Some T
         /\ Frames T = int32 (bmFrames (Timecode InFrameInfo))
         /\ DecodedTimecodeF2 L =
              Some {| Hours := Hours T; Minutes := Minutes T; Seconds := Seconds T;
                      Frames := int32 (Frames T + 1);
                      bDropFrameFormat := bDropFrameFormat T |}
     else DecodedTimecode L = None /\ DecodedTimecodeF2 L = None.

(** The audio sample [ReceiveAudio] builds from a frame. *)
Definition AudioSampleOf (InFrameInfo : FFrameReceivedInfo) (buffer : loc) (L : FrameLocals)
    : FBlackmagicMediaAudioSample :=
  {| asBuffer := buffer;
     asBufferSize := uint32 (size_t (AudioBufferSize InFrameInfo) / sizeof_int32);
     asNumberOfChannels := uint32 (fiNumberOfAudioChannel InFrameInfo);
     asSampleRate := uint32 (AudioRate InFrameInfo);
     asTime := DecodedTime L;
     asTimecode := DecodedTimecode L |}.

(** The three outcomes of the audio block. *)
Inductive AudioOutcome (InFrameInfo : FFrameReceivedInfo) (L : FrameLocals)
    (cb : FBlackmagicMediaPlayerEventCallback) (w : World)
    (cb' : FBlackmagicMediaPlayerEventCallback) (w' : World) : Prop :=
| AudioDropped :
    is_null (AudioBuffer InFrameInfo) = false ->
    bVerifyFrameDropCount (Player w) = true ->
    int32 (MaxNumAudioFrameBuffer cb * ToleratedExtraMaxBufferCount)
      <= NumAudioSamples (TheSamples w) ->
    AudioFrameDropCount cb' = int32 (AudioFrameDropCount cb + 1) ->
    AudioSamples (TheSamples w') = AudioSamples (TheSamples w) ->
    LastBitsPerSample cb' = LastBitsPerSample cb ->
    LastNumChannels cb' = LastNumChannels cb ->
    LastSampleRate cb' = LastSampleRate cb ->
    AudioOutcome InFrameInfo L cb w cb' w'
| AudioEnqueued buffer :
    AudioBuffer InFrameInfo = Some buffer ->
    AudioSampleInitialize (AudioSampleOf InFrameInfo buffer L) = true ->
    NumAudioSamples (TheSamples w)
      < int32 (MaxNumAudioFrameBuffer cb * ToleratedExtraMaxBufferCount) ->
    AudioFrameDropCount cb' = AudioFrameDropCount cb ->
    AudioSamples (TheSamples w')
      = AudioSamples (TheSamples w) ++ [AudioSampleOf InFrameInfo buffer L] ->
    LastBitsPerSample cb' = sizeof_int32 ->
    LastNumChannels cb' = uint32 (fiNumberOfAudioChannel InFrameInfo) ->
    LastSampleRate cb' = uint32 (AudioRate InFrameInfo) ->
    AudioOutcome InFrameInfo L cb w cb' w'
| AudioUntouched :
    AudioFrameDropCount cb' = AudioFrameDropCount cb ->
    AudioSamples (TheSamples w') = AudioSamples (TheSamples w) ->
    LastBitsPerSample cb' = LastBitsPerSample cb ->
    LastNumChannels cb' = LastNumChannels cb ->
    LastSampleRate cb' = LastSampleRate cb ->
    (forall buffer, AudioBuffer InFrameInfo = Some buffer ->
       NumAudioSamples (TheSamples w)
         < int32 (MaxNumAudioFrameBuffer cb * ToleratedExtraMaxBufferCount) ->
       AudioSampleInitialize (AudioSampleOf InFrameInfo buffer L) = false) ->
    AudioOutcome InFrameInfo L cb w cb' w'.

(** The texture samples [ReceiveVideo] offers to the queue: one for a
    progressive picture, the even and then the odd field for an
    interlaced one. *)
Definition OfferedVideoSamples (InFrameInfo : FFrameReceivedInfo) (buffer : loc)
    (L : FrameLocals) (cb : FBlackmagicMediaPlayerEventCallback) (w : World)
    : list FBlackmagicMediaTextureSample :=
  let SampleFormat := fst (fst (SelectFormats InFrameInfo cb)) in
  let rate := VideoFrameRate (Super (Player w)) in
  if bool_decide (FieldDominance InFrameInfo = EFieldDominance.Interlaced)
  then [TextureSample InFrameInfo buffer (Some true) SampleFormat
          (DecodedTime L) rate (DecodedTimecode L) cb;
        TextureSample InFrameInfo buffer (Some false) SampleFormat
          (DecodedTimeF2 L) rate (DecodedTimecodeF2 L) cb]
  else [TextureSample InFrameInfo buffer None SampleFormat
          (DecodedTime L) rate (DecodedTimecode L) cb].

(** Those of them whose initialisation succeeds are enqueued. *)
Definition NewVideoSamples (InFrameInfo : FFrameReceivedInfo) (buffer : loc)
    (L : FrameLocals) (cb : FBlackmagicMediaPlayerEventCallback) (w : World)
    : list FBlackmagicMediaTextureSample :=
  List.filter TextureSampleInitialize (OfferedVideoSamples InFrameInfo buffer L cb w).

Inductive VideoOutcome (InFrameInfo : FFrameReceivedInfo) (L : FrameLocals)
    (cb : FBlackmagicMediaPlayerEventCallback) (w : World)
    (cb' : FBlackmagicMediaPlayerEventCallback) (w' : World) : Prop :=
| VideoDropped :
    is_null (VideoBuffer InFrameInfo) = false ->
    bVerifyFrameDropCount (Player w) = true ->
    int32 (MaxNumVideoFrameBuffer cb * ToleratedExtraMaxBufferCount)
      <= VideoOccupancy InFrameInfo (TheSamples w) ->
    VideoFrameDropCount cb' = int32 (VideoFrameDropCount cb + 1) ->
    VideoSamples (TheSamples w') = VideoSamples (TheSamples w) ->
    VideoOutcome InFrameInfo L cb w cb' w'
| VideoEnqueued buffer :
    VideoBuffer InFrameInfo = Some buffer ->
    VideoOccupancy InFrameInfo (TheSamples w)
      < int32 (MaxNumVideoFrameBuffer cb * ToleratedExtraMaxBufferCount) ->
    VideoFrameDropCount cb' = VideoFrameDropCount cb ->
    VideoSamples (TheSamples w')
      = VideoSamples (TheSamples w) ++ NewVideoSamples InFrameInfo buffer L cb w ->
    VideoOutcome InFrameInfo L cb w cb' w'
| VideoUntouched :
    VideoFrameDropCount cb' = VideoFrameDropCount cb ->
    VideoSamples (TheSamples w') = VideoSamples (TheSamples w) ->
    (forall buffer, VideoBuffer InFrameInfo = Some buffer ->
       int32 (MaxNumVideoFrameBuffer cb * ToleratedExtraMaxBufferCount)
         <= VideoOccupancy InFrameInfo (TheSamples w)) ->
    VideoOutcome InFrameInfo L cb w cb' w'.

(** A frame is a heartbeat of a channel without signal when it reports no
    input source and carries no audio. *)
Definition IsNoSignal (InFrameInfo : FFrameReceivedInfo) : bool :=
  negb (bHasInputSource InFrameInfo) && is_null (AudioBuffer InFrameInfo).

(** What happened to the audio queue and its drop counter: the counter
    moved only at tolerated capacity and then nothing was enqueued; a
    sample was appended only below tolerated capacity. *)
Definition audio_attempt (InFrameInfo : FFrameReceivedInfo)
    (cb : FBlackmagicMediaPlayerEventCallback) (w : World)
    (cb' : FBlackmagicMediaPlayerEventCallback) (w' : World) : Prop :=
  (AudioFrameDropCount cb' = AudioFrameDropCount cb
   \/ (AudioFrameDropCount cb' = int32 (AudioFrameDropCount cb + 1)
       /\ is_null (AudioBuffer InFrameInfo) = false
       /\ bVerifyFrameDropCount (Player w) = true
       /\ int32 (MaxNumAudioFrameBuffer cb * ToleratedExtraMaxBufferCount)
            <= NumAudioSamples (TheSamples w)
       /\ AudioSamples (TheSamples w') = AudioSamples (TheSamples w)))
  /\ (AudioSamples (TheSamples w') = AudioSamples (TheSamples w)
      \/ (NumAudioSamples (TheSamples w)
            < int32 (MaxNumAudioFrameBuffer cb * ToleratedExtraMaxBufferCount)
          /\ exists a, AudioSamples (TheSamples w') = AudioSamples (TheSamples w) ++ [a])).

Definition video_attempt (InFrameInfo : FFrameReceivedInfo)
    (cb : FBlackmagicMediaPlayerEventCallback) (w : World)
    (cb' : FBlackmagicMediaPlayerEventCallback) (w' : World) : Prop :=
  (VideoFrameDropCount cb' = VideoFrameDropCount cb
   \/ (VideoFrameDropCount cb' = int32 (VideoFrameDropCount cb + 1)
       /\ is_null (VideoBuffer InFrameInfo) = false
       /\ bVerifyFrameDropCount (Player w) = true
       /\ int32 (MaxNumVideoFrameBuffer cb * ToleratedExtraMaxBufferCount)
            <= VideoOccupancy InFrameInfo (TheSamples w)
       /\ VideoSamples (TheSamples w') = VideoSamples (TheSamples w)))
  /\ (VideoSamples (TheSamples w') = VideoSamples (TheSamples w)
      \/ (VideoOccupancy InFrameInfo (TheSamples w)
            < int32 (MaxNumVideoFrameBuffer cb * ToleratedExtraMaxBufferCount)
          /\ exists new,
               VideoSamples (TheSamples w') = VideoSamples (TheSamples w) ++ new
               /\ (length new
                     <= if bool_decide (FieldDominance InFrameInfo = EFieldDominance.Interlaced)
                        then 2 else 1)%nat)).

(** Everything the later proofs need to know about one call of
    [OnFrameReceived] on a live callback. *)
Record Received (this : loc) (InFrameInfo : FFrameReceivedInfo)
    (w : World) (cb : FBlackmagicMediaPlayerEventCallback)
    (w' : World) (cb' : FBlackmagicMediaPlayerEventCallback) : Prop := {
  received_callback : Heap w' !! this = Some cb';
  received_others : forall other, other <> this -> Heap w' !! other = Heap w !! other;
  received_EventCallback : EventCallback (Player w') = EventCallback (Player w);
  received_bVerify : bVerifyFrameDropCount (Player w') = bVerifyFrameDropCount (Player w);
  received_MaxAudio : MaxNumAudioFrameBuffer cb' = MaxNumAudioFrameBuffer cb;
  received_MaxVideo : MaxNumVideoFrameBuffer cb' = MaxNumVideoFrameBuffer cb;
  received_MediaPlayer : MediaPlayer cb' = MediaPlayer cb;
  received_MediaState :
    MediaState cb' = MediaState cb \/ MediaState cb' = EMediaState.Error;
  received_audio : audio_attempt InFrameInfo cb w cb' w';
  received_video : video_attempt InFrameInfo cb w cb' w' }.

(** The warnings [VerifyFrameDropCount_GameThread] prints for the counts
    it computed. *)
Definition LostWarnings (audio video : Z) (InUrl : string) : list Effect :=
  (if 0 <? audio then [UE_LOG ELogVerbosity.Warning (LostAudioFrames audio InUrl)] else [])
  ++ (if 0 <? video then [UE_LOG ELogVerbosity.Warning (LostVideoFrames video InUrl)] else []).

(** A sequence of enqueue attempts: the SDK delivers the frames one after
    the other to the same callback. *)
Fixpoint ReceiveFrames (this : loc) (frames : list (FrameClock * FFrameReceivedInfo))
    (w : World) : option World :=
  match frames with
  | [] => Some w
  | (clock, info) :: rest =>
      w ← OnFrameReceived this clock info w; ReceiveFrames this rest w
  end.

(** A configured maximum whose double fits in an [int32]. *)
Definition sound_maximum (M : Z) : Prop := 0 <= M <= 2 ^ 30 - 1.

(** Clock readings that never go back, starting from [t]. *)
Fixpoint nondecreasing (t : Q) (ts : list Q) : Prop :=
  match ts with
  | [] => True
  | u :: ts => (t <= u)%Q /\ nondecreasing u ts
  end.

Definition times (frames : list (FrameClock * FFrameReceivedInfo)) : list Q :=
  map (fun f => CurrentTime (fst f)) frames.

(** A frame is processed in the [Playing] state when it passes the two
    early returns of [OnFrameReceived] (the callback is attached to its
    player, the frame is not a no-signal heartbeat) and the state is
    [Playing]. *)
Definition ProcessedWhilePlaying (cb : FBlackmagicMediaPlayerEventCallback)
    (InFrameInfo : FFrameReceivedInfo) : Prop :=
  MediaPlayer cb = true /\ IsNoSignal InFrameInfo = false
  /\ MediaState cb = EMediaState.Playing.

(** The timecode one frame later, as [++DecodedTimecodeF2->Frames]
    computes it. *)
Definition NextFrame (T : FTimecode) : FTimecode :=
  {| Hours := Hours T; Minutes := Minutes T; Seconds := Seconds T;
     Frames := int32 (Frames T + 1); bDropFrameFormat := bDropFrameFormat T |}.

(** A call that constructs a callback object. *)
Definition constructs (c : Call) : bool :=
  match c with HostOpen _ _ => true | _ => false end.

(** No object was created and no detached callback was re-attached. *)
Definition stays_detached (w w' : World) : Prop :=
  forall this cb', Heap w' !! this = Some cb' ->
    exists cb, Heap w !! this = Some cb /\ (MediaPlayer cb = false -> MediaPlayer cb' = false).

(** The callback the player points to is a live object that is referenced
    by someone else too (the SDK, while it holds the callback): dropping
    the player's reference leaves a count that is not 0, so [Uninitialize]
    does not destroy the object under its own lock. *)
Definition callback_shared (w : World) : Prop :=
  forall this, EventCallback (Player w) = Some this ->
    exists cb, Heap w !! this = Some cb /\ int32 (RefCounter cb - 1) <> 0.

(** What [Close] does after the callback is gone: the pools and the base
    class. *)
Definition CloseRest (w : World) : World :=
  let p := Player w in
  let p := set_AudioSamplePool (PoolReset (AudioSamplePool p)) p in
  let p := set_TextureSamplePool (PoolReset (TextureSamplePool p)) p in
  let w := set_Player p w in
  call_Super (SuperClose (Super (Player w))) w.

(** The state [TickInput] reads: that of the callback, [Closed] without
    one. *)
Definition ObservedState (w : World) : option EMediaState.t :=
  match EventCallback (Player w) with
  | Some callback => GetMediaState callback w
  | None => Some EMediaState.Closed
  end.

Definition PlayingTrio : list EMediaEvent.t :=
  [EMediaEvent.TracksChanged; EMediaEvent.MediaOpened; EMediaEvent.PlaybackResumed].

End Vocabulary.

(** ** The rest of the file, and more vocabulary *)

Section Extensions.

Context `{External}.

Implicit Types (w : World) (cb : FBlackmagicMediaPlayerEventCallback) (this : loc).

(** The console command [Blackmagic.WriteOutputRawData]: its lambda sets the
    global flag. *)
Definition BlackmagicWriteOutputRawDataCmd (w : World) : World :=
  set_bBlackmagicWriteOutputRawDataCmdEnable true w.

(** [FBlackmagicMediaPlayer::GetPlayerName] *)
Definition GetPlayerName : string := "BlackmagicMedia".

(** [FBlackmagicMediaPlayer::~FBlackmagicMediaPlayer]: [Close], after which
    the two pools are deleted with the player. *)
Definition Destroy (w : World) : option World := Close w.

(** *** What one frame processed in the [Playing] state produces *)

(** [FrameLimit] of [OnFrameReceived] *)
Definition FrameLimit (InFrameInfo : FFrameReceivedInfo) (rate : FFrameRate) : Z :=
  if negb (bool_decide (FieldDominance InFrameInfo = EFieldDominance.Interlaced))
  then RoundToInt (AsDecimal rate)
  else int32 (RoundToInt (AsDecimal rate) - 1).

(** The engine timecode built from the hardware timecode of a frame. *)
Definition DecodedTimecodeOf (InFrameInfo : FFrameReceivedInfo) (rate : FFrameRate)
    : FTimecode :=
  {| Hours := int32 (bmHours (Timecode InFrameInfo));
     Minutes := int32 (bmMinutes (Timecode InFrameInfo));
     Seconds := int32 (bmSeconds (Timecode InFrameInfo));
     Frames := int32 (bmFrames (Timecode InFrameInfo));
     bDropFrameFormat := IsDropFormatTimecodeSupported rate |}.

(** The timecode a sample of the frame is tagged with. *)
Definition SampleTimecode (InFrameInfo : FFrameReceivedInfo) (w : World) : option FTimecode :=
  if bHaveTimecode InFrameInfo
  then Some (DecodedTimecodeOf InFrameInfo (VideoFrameRate (Super (Player w))))
  else None.

(** The presentation time of the frame: the timecode converted with the
    frame rate when the frame has one and time synchronisation is on, the
    platform clock otherwise. *)
Definition PresentationTime (clock : FrameClock) (InFrameInfo : FFrameReceivedInfo)
    (w : World) : FTimespan :=
  let rate := VideoFrameRate (Super (Player w)) in
  if bHaveTimecode InFrameInfo && bUseTimeSynchronization (Super (Player w))
  then ToTimespan (DecodedTimecodeOf InFrameInfo rate) rate
  else FromSeconds (PlatformSeconds clock).

(** The log lines of the timecode block. *)
Definition TimecodeEffects (clock : FrameClock) (InFrameInfo : FFrameReceivedInfo)
    (cb : FBlackmagicMediaPlayerEventCallback) (w : World) : list Effect :=
  let rate := VideoFrameRate (Super (Player w)) in
  if bHaveTimecode InFrameInfo then
    (if FrameLimit InFrameInfo rate <=? int32 (bmFrames (Timecode InFrameInfo))
     then [UE_LOG ELogVerbosity.Warning
             (InvalidTimecodeFrame (GetUrl w) (bmFrames (Timecode InFrameInfo)) rate)]
     else [])
    ++ (if bTimecodeLogEnabled clock
        then [UE_LOG ELogVerbosity.Log (HasTimecode (GetUrl w) (Timecode InFrameInfo))]
        else [])
  else if negb (bHasWarnedMissingTimecode cb) && bIsTimecodeExpected cb
       then [UE_LOG ELogVerbosity.Warning (MissingTimecode (GetUrl w))]
       else [].

(** Whether the audio queue, and the video queue, have room for the frame. *)
Definition AudioRoom (cb : FBlackmagicMediaPlayerEventCallback) (w : World) : bool :=
  NumAudioSamples (TheSamples w)
  <? int32 (MaxNumAudioFrameBuffer cb * ToleratedExtraMaxBufferCount).
Definition VideoRoom (InFrameInfo : FFrameReceivedInfo)
    (cb : FBlackmagicMediaPlayerEventCallback) (w : World) : bool :=
  VideoOccupancy InFrameInfo (TheSamples w)
  <? int32 (MaxNumVideoFrameBuffer cb * ToleratedExtraMaxBufferCount).

(** The audio sample of a frame. *)
Definition AudioSampleFor (clock : FrameClock) (InFrameInfo : FFrameReceivedInfo)
    (buffer : loc) (w : World) : FBlackmagicMediaAudioSample :=
  {| asBuffer := buffer;
     asBufferSize := uint32 (size_t (AudioBufferSize InFrameInfo) / sizeof_int32);
     asNumberOfChannels := uint32 (fiNumberOfAudioChannel InFrameInfo);
     asSampleRate := uint32 (AudioRate InFrameInfo);
     asTime := PresentationTime clock InFrameInfo w;
     asTimecode := SampleTimecode InFrameInfo w |}.

(** The sample format chosen for a pixel format. *)
Definition SampleFormatOf (format : EPixelFormat.t) : EMediaTextureSampleFormat.t :=
  match format with
  | EPixelFormat.pf_8Bits => EMediaTextureSampleFormat.CharUYVY
  | EPixelFormat.pf_10Bits => EMediaTextureSampleFormat.YUVv210
  | EPixelFormat.pf_Other => EMediaTextureSampleFormat.CharBGRA
  end.

(** The texture samples of a frame: the whole picture when progressive, the
    even lines and, one frame interval and one timecode frame later, the
    odd lines when interlaced. *)
Definition VideoSamplesFor (clock : FrameClock) (InFrameInfo : FFrameReceivedInfo)
    (buffer : loc) (cb : FBlackmagicMediaPlayerEventCallback) (w : World)
    : list FBlackmagicMediaTextureSample :=
  let rate := VideoFrameRate (Super (Player w)) in
  let format := SampleFormatOf (fiPixelFormat InFrameInfo) in
  let time := PresentationTime clock InFrameInfo w in
  let timecode := SampleTimecode InFrameInfo w in
  if bool_decide (FieldDominance InFrameInfo = EFieldDominance.Interlaced)
  then [TextureSample InFrameInfo buffer (Some true) format time rate timecode cb;
        TextureSample InFrameInfo buffer (Some false) format
          (time + FromSeconds (AsInterval rate)) rate (NextFrame <$> timecode) cb]
  else [TextureSample InFrameInfo buffer None format time rate timecode cb].

(** What the video block does besides enqueuing, when it has room: the raw
    dump if the flag is set, and the timecode burnt into a progressive
    picture if that is enabled and the frame has a timecode. *)
Definition VideoEffects (InFrameInfo : FFrameReceivedInfo) (timecode : option FTimecode)
    (flag : bool) (cb : FBlackmagicMediaPlayerEventCallback) : list Effect :=
  let name := snd (SelectFormats InFrameInfo cb) in
  (if flag
   then [WriteRawFile (fst name) (snd name)
           (uint32 (VideoPitch InFrameInfo * VideoHeight InFrameInfo))]
   else [])
  ++ (if bool_decide (FieldDominance InFrameInfo = EFieldDominance.Interlaced) then []
      else match timecode with
           | Some T => if bEncodeTimecodeInTexel cb
                       then [EncodeTimeRender (Hours T) (Minutes T) (Seconds T) (Frames T)]
                       else []
           | None => []
           end).

(** *** Reading the trace *)

(** The raw dumps written, each with its file-name prefix, its device index
    and its size. *)
Definition RawDumps (es : list Effect) : list (string * option Z * Z) :=
  omap (fun e => match e with
                 | WriteRawFile prefix device size => Some (prefix, device, size)
                 | _ => None
                 end) es.

Definition is_MissingTimecode (e : Effect) : bool :=
  match e with UE_LOG _ (MissingTimecode _) => true | _ => false end.

(** How many times the missing-timecode warning was logged. *)
Definition MissingTimecodeWarnings (es : list Effect) : nat :=
  length (List.filter is_MissingTimecode es).

(** The effects of the frame path: log lines, the raw dump and the timecode
    burnt into a picture. *)
Definition is_frame_effect (e : Effect) : bool :=
  match e with
  | UE_LOG _ _ | WriteRawFile _ _ _ | EncodeTimeRender _ _ _ _ => true
  | _ => false
  end.

(** The calls the vendor SDK makes on its own thread. *)
Definition is_sdk_call (c : Call) : bool :=
  match c with
  | HostOpen _ _ | HostClose | HostTickInput | HostTickFetch => false
  | _ => true
  end.

(** An effect a callback method may have: anything but a notification of
    the event sink or a change of the channel registration. *)
Definition is_callback_effect (e : Effect) : bool :=
  match e with
  | MediaEvent _ | SdkRegister _ | SdkUnregister _ _ => false
  | _ => true
  end.

(** The timecodes burnt into pictures. *)
Definition BurntTimecodes (es : list Effect) : list (Z * Z * Z * Z) :=
  omap (fun e => match e with
                 | EncodeTimeRender h m s f => Some (h, m, s, f)
                 | _ => None
                 end) es.

(** What a callback method leaves alone: the channel registrations, the
    player's callback pointer and published state, and the event sink. *)
Definition behind_the_player (w w' : World) : Prop :=
  Sdk w' = Sdk w
  /\ EventCallback (Player w') = EventCallback (Player w)
  /\ CurrentState (Super (Player w')) = CurrentState (Super (Player w))
  /\ exists es, Trace w' = Trace w ++ es /\ forallb is_callback_effect es = true.

(** The members of the base class and of the SDK that the buffer maintenance
    leaves alone. *)
Definition same_base (w w' : World) : Prop :=
  CurrentState (Super (Player w')) = CurrentState (Super (Player w))
  /\ AudioTrackFormat (Super (Player w')) = AudioTrackFormat (Super (Player w))
  /\ Sdk w' = Sdk w.

(** The channel registrations given up. *)
Definition Unregistrations (es : list Effect) : list (FChannelInfo * FUniqueIdentifier) :=
  omap (fun e => match e with
                 | SdkUnregister info id => Some (info, id)
                 | _ => None
                 end) es.

(** The callback [Uninitialize] leaves behind when the object survives. *)
Definition Uninitialized (cb : FBlackmagicMediaPlayerEventCallback)
    : FBlackmagicMediaPlayerEventCallback :=
  let cb := set_MediaPlayer false cb in
  let cb := if IsValid (BlackmagicIdendifier cb)
            then set_BlackmagicIdendifier None (set_MediaState EMediaState.Stopped cb)
            else cb in
  set_RefCounter (int32 (RefCounter cb - 1)) cb.

(** What [Uninitialize] does to the SDK: the registration is given up if
    the callback holds a valid identifier. *)
Definition UnregisterEffects (cb : FBlackmagicMediaPlayerEventCallback) : list Effect :=
  if IsValid (BlackmagicIdendifier cb)
  then [SdkUnregister (ChannelInfo cb) (BlackmagicIdendifier cb)] else [].
Definition Unregistered (cb : FBlackmagicMediaPlayerEventCallback) (sdk : SDK) : SDK :=
  if IsValid (BlackmagicIdendifier cb)
  then UnregisterCallbackForChannel (ChannelInfo cb) (BlackmagicIdendifier cb) sdk
  else sdk.

(** The callback [Initialize] leaves behind: configured, holding the
    reference of its caller and the [taken] references of the SDK, with the
    identifier the registration returned. *)
Definition Initialized (cb : FBlackmagicMediaPlayerEventCallback)
    (InChannelInfo : FInputChannelOptions) (bInEncodeTimecodeInTexel : bool)
    (InMaxNumAudioFrameBuffer InMaxNumVideoFrameBuffer : Z) (bInIsSRGBInput : bool)
    (id : FUniqueIdentifier) (taken : nat) : FBlackmagicMediaPlayerEventCallback :=
  let cb := set_bEncodeTimecodeInTexel bInEncodeTimecodeInTexel cb in
  let cb := set_MaxNumAudioFrameBuffer InMaxNumAudioFrameBuffer cb in
  let cb := set_MaxNumVideoFrameBuffer InMaxNumVideoFrameBuffer cb in
  let cb := set_bIsTimecodeExpected
              (negb (bool_decide (TimecodeFormat InChannelInfo = ETimecodeFormat.TCF_None))) cb in
  let cb := set_bIsSRGBInput bInIsSRGBInput cb in
  let cb := set_RefCounter (RefCounter cb + 1 + Z.of_nat taken) cb in
  let cb := set_BlackmagicIdendifier id cb in
  set_MediaState (if IsValid id then EMediaState.Preparing else EMediaState.Error) cb.

(** [ChannelOptions], as [Open] fills it from the option bag. *)
Definition ChannelOptionsOf (Options : IMediaOptions) : FInputChannelOptions :=
  {| CallbackPriority := 10;
     bReadVideo := GetMediaOption_bool Options BlackmagicMediaOption.CaptureVideo true;
     DisplayMode :=
       int32 (GetMediaOption_int64 Options BlackmagicMediaOption.BlackmagicVideoFormat
                DefaultVideoFormat);
     PixelFormat :=
       match ColorFormat_of_int64
               (GetMediaOption_int64 Options BlackmagicMediaOption.ColorFormat
                  (int64_of_ColorFormat EBlackmagicMediaSourceColorFormat.YUV8)) with
       | EBlackmagicMediaSourceColorFormat.YUV8 => EPixelFormat.pf_8Bits
       | _ => EPixelFormat.pf_10Bits
       end;
     TimecodeFormat :=
       match TimecodeFormat_of_int64
               (GetMediaOption_int64 Options BlackmagicMediaOption.TimecodeFormat
                  (int64_of_TimecodeFormat EMediaIOTimecodeFormat.None)) with
       | EMediaIOTimecodeFormat.LTC => ETimecodeFormat.TCF_LTC
       | EMediaIOTimecodeFormat.VITC => ETimecodeFormat.TCF_VITC1
       | EMediaIOTimecodeFormat.None | EMediaIOTimecodeFormat.Other =>
           ETimecodeFormat.TCF_None
       end;
     bReadAudio := GetMediaOption_bool Options BlackmagicMediaOption.CaptureAudio false;
     NumberOfAudioChannel :=
       match AudioChannel_of_int64
               (GetMediaOption_int64 Options BlackmagicMediaOption.AudioChannelOption
                  (int64_of_AudioChannel EBlackmagicMediaAudioChannel.Stereo2)) with
       | EBlackmagicMediaAudioChannel.Surround8 => 8
       | _ => 2
       end |}.

(** [ChannelInfo], as [Open] fills it. *)
Definition ChannelInfoOf (Options : IMediaOptions) : FChannelInfo :=
  {| DeviceIndex :=
       int32 (GetMediaOption_int64 Options BlackmagicMediaOption.DeviceIndex 0) |}.

(** The registrations asked for. *)
Definition Registrations (es : list Effect) : list loc :=
  omap (fun e => match e with SdkRegister this => Some this | _ => None end) es.

End Extensions.

(** ** A reference instance of [External]

    An SDK that accepts every registration and keeps one reference, a base
    class whose [Close] goes to [Closed] (notifying once) and flushes the
    queues, and exact tick arithmetic at ten million ticks per second. The
    closed examples run on it. *)

Module Reference.

Definition TicksPerSecond : Z := 10000000.

Definition round_to_int (q : Q) : Z := Qfloor (q + (1 # 2)).
Definition from_seconds (q : Q) : FTimespan := round_to_int (q * inject_Z TicksPerSecond).
Definition as_interval (r : FFrameRate) : Q := inject_Z (Denominator r) / inject_Z (Numerator r).
Definition as_decimal (r : FFrameRate) : Q := inject_Z (Numerator r) / inject_Z (Denominator r).
Definition to_timespan (t : FTimecode) (r : FFrameRate) : FTimespan :=
  from_seconds (inject_Z (Hours t * 3600 + Minutes t * 60 + Seconds t)
               + inject_Z (Frames t) * as_interval r).

Definition super_open (Url : string) (o : IMediaOptions) (b : FMediaIOCorePlayerBase) :=
  (true, let 'mkBase c s _ r t f := b in mkBase c s Url r t f, @nil EMediaEvent.t).

Definition super_close (b : FMediaIOCorePlayerBase)
    : FMediaIOCorePlayerBase * list EMediaEvent.t :=
  (set_Samples {| AudioSamples := []; VideoSamples := [] |}
     (set_CurrentState EMediaState.Closed b),
   if bool_decide (CurrentState b = EMediaState.Closed) then []
   else [EMediaEvent.TracksChanged; EMediaEvent.MediaClosed]).

Definition engine : External :=
  {| SDK := unit;
     RegisterCallbackForChannel := fun _ _ this _ => (Some this, 1%nat, tt);
     UnregisterCallbackForChannel := fun _ _ sdk => sdk;
     Pool := nat;
     PoolReset := fun _ => 0%nat;
     AcquireShared := S;
     SuperOpen := super_open;
     SuperClose := super_close;
     TickTimeManagement := fun b => (b, []);
     FromSeconds := from_seconds;
     RoundDouble := fun q => q;
     RoundDouble_le := fun x y Hle => Hle;
     RoundDouble_2 := Qeq_refl 2;
     AsInterval := as_interval;
     AsDecimal := as_decimal;
     RoundToInt := round_to_int;
     ToTimespan := to_timespan;
     IsDropFormatTimecodeSupported := fun _ => false;
     AudioSampleInitialize := fun _ => true;
     TextureSampleInitialize := fun _ => true;
     DefaultVideoFormat := 0;
     ColorFormat_of_int64 := fun z =>
       if z =? 0 then EBlackmagicMediaSourceColorFormat.YUV8
       else EBlackmagicMediaSourceColorFormat.YUV10;
     TimecodeFormat_of_int64 := fun z =>
       if z =? 0 then EMediaIOTimecodeFormat.None
       else if z =? 1 then EMediaIOTimecodeFormat.LTC
       else if z =? 2 then EMediaIOTimecodeFormat.VITC
       else EMediaIOTimecodeFormat.Other;
     AudioChannel_of_int64 := fun z =>
       if z =? 1 then EBlackmagicMediaAudioChannel.Surround8
       else EBlackmagicMediaAudioChannel.Stereo2;
     int64_of_ColorFormat := fun c =>
       match c with EBlackmagicMediaSourceColorFormat.YUV8 => 0 | _ => 1 end;
     int64_of_TimecodeFormat := fun c =>
       match c with
       | EMediaIOTimecodeFormat.None => 0
       | EMediaIOTimecodeFormat.LTC => 1
       | EMediaIOTimecodeFormat.VITC => 2
       | EMediaIOTimecodeFormat.Other => 3
       end;
     int64_of_AudioChannel := fun c =>
       match c with EBlackmagicMediaAudioChannel.Stereo2 => 0 | _ => 1 end |}.

(** 30 frames per second *)
Definition rate30 : FFrameRate := {| Numerator := 30; Denominator := 1 |}.

Definition base (state : EMediaState.t) : FMediaIOCorePlayerBase :=
  {| CurrentState := state;
     Samples := {| AudioSamples := []; VideoSamples := [] |};
     OpenUrl := "blackmagic://device0"; VideoFrameRate := rate30;
     bUseTimeSynchronization := false;
     AudioTrackFormat := {| BitsPerSample := 0; NumChannels := 0; SampleRate := 0 |} |}.

(** A callback as [Open] leaves it after a successful registration with
    buffer depths 4 and 4, in the given state. *)
Definition callback (state : EMediaState.t) : FBlackmagicMediaPlayerEventCallback :=
  set_MediaState state
    (set_BlackmagicIdendifier (Some 1%positive)
       (set_RefCounter 2
          (set_MaxNumVideoFrameBuffer 4
             (set_MaxNumAudioFrameBuffer 4
                (new_FBlackmagicMediaPlayerEventCallback {| DeviceIndex := 0 |}))))).

(** A world with one registered callback at address 1, drop logging on. *)
Definition world (state : EMediaState.t) : World (H := engine) :=
  {| Heap := {[ 1%positive := callback state ]};
     Player := mkPlayer (H := engine) (base EMediaState.Preparing) (Some 1%positive)
                 0%nat 0%nat true;
     Sdk := tt;
     bIsInitialized := true;
     bCanUseBlackmagicCard := true;
     bBlackmagicWriteOutputRawDataCmdEnable := false;
     Trace := [] |}.

Definition timecode : BMTimecode :=
  {| bmHours := 1; bmMinutes := 2; bmSeconds := 3; bmFrames := 4 |}.

(** An interlaced 8-bit frame with 16 bytes of audio and a timecode. *)
Definition frame : FFrameReceivedInfo :=
  {| bHasInputSource := true; bHaveTimecode := true; Timecode := timecode;
     VideoBuffer := Some 100%positive; VideoWidth := 1920; VideoHeight := 1080;
     VideoPitch := 3840; fiPixelFormat := EPixelFormat.pf_8Bits;
     FieldDominance := EFieldDominance.Interlaced;
     AudioBuffer := Some 200%positive; AudioBufferSize := 16;
     fiNumberOfAudioChannel := 2; AudioRate := 48000 |}.

(** The heartbeat of a channel without signal. *)
Definition nosignal : FFrameReceivedInfo :=
  {| bHasInputSource := false; bHaveTimecode := false; Timecode := timecode;
     VideoBuffer := Some 100%positive; VideoWidth := 1920; VideoHeight := 1080;
     VideoPitch := 3840; fiPixelFormat := EPixelFormat.pf_8Bits;
     FieldDominance := EFieldDominance.Interlaced;
     AudioBuffer := None; AudioBufferSize := 0;
     fiNumberOfAudioChannel := 0; AudioRate := 0 |}.

Definition clock (seconds : Q) : FrameClock :=
  {| CurrentTime := seconds; PlatformSeconds := seconds; bTimecodeLogEnabled := false |}.

Definition options : IMediaOptions :=
  {| Int64Option := fun _ => None; BoolOption := fun _ => None |}.

(** The same engine with an SDK that refuses every registration and keeps
    [kept] references on the callback. *)
Definition refusing (kept : nat) : External :=
  {| SDK := unit;
     RegisterCallbackForChannel := fun _ _ _ _ => (None, kept, tt);
     UnregisterCallbackForChannel := fun _ _ sdk => sdk;
     Pool := nat;
     PoolReset := fun _ => 0%nat;
     AcquireShared := S;
     SuperOpen := super_open;
     SuperClose := super_close;
     TickTimeManagement := fun b => (b, []);
     FromSeconds := from_seconds;
     RoundDouble := fun q => q;
     RoundDouble_le := fun x y Hle => Hle;
     RoundDouble_2 := Qeq_refl 2;
     AsInterval := as_interval;
     AsDecimal := as_decimal;
     RoundToInt := round_to_int;
     ToTimespan := to_timespan;
     IsDropFormatTimecodeSupported := fun _ => false;
     AudioSampleInitialize := fun _ => true;
     TextureSampleInitialize := fun _ => true;
     DefaultVideoFormat := 0;
     ColorFormat_of_int64 := @ColorFormat_of_int64 engine;
     TimecodeFormat_of_int64 := @TimecodeFormat_of_int64 engine;
     AudioChannel_of_int64 := @AudioChannel_of_int64 engine;
     int64_of_ColorFormat := @int64_of_ColorFormat engine;
     int64_of_TimecodeFormat := @int64_of_TimecodeFormat engine;
     int64_of_AudioChannel := @int64_of_AudioChannel engine |}.

(** The same frame, progressive. *)
Definition progressive : FFrameReceivedInfo :=
  {| bHasInputSource := true; bHaveTimecode := true; Timecode := timecode;
     VideoBuffer := Some 100%positive; VideoWidth := 1920; VideoHeight := 1080;
     VideoPitch := 3840; fiPixelFormat := EPixelFormat.pf_10Bits;
     FieldDominance := EFieldDominance.Progressive;
     AudioBuffer := Some 200%positive; AudioBufferSize := 16;
     fiNumberOfAudioChannel := 2; AudioRate := 48000 |}.

(** The same frame, without timecode. *)
Definition untimed : FFrameReceivedInfo :=
  {| bHasInputSource := true; bHaveTimecode := false; Timecode := timecode;
     VideoBuffer := Some 100%positive; VideoWidth := 1920; VideoHeight := 1080;
     VideoPitch := 3840; fiPixelFormat := EPixelFormat.pf_8Bits;
     FieldDominance := EFieldDominance.Interlaced;
     AudioBuffer := Some 200%positive; AudioBufferSize := 16;
     fiNumberOfAudioChannel := 2; AudioRate := 48000 |}.

End Reference.

(** ** Worlds on which the theorems are exercised *)

Module Examples.

Import Reference.

Definition playing : World (H := engine) := world EMediaState.Playing.

(** three frames, one second apart *)
Definition frames : list (FrameClock * FFrameReceivedInfo) :=
  [(clock 100, frame); (clock 101, frame); (clock 102, frame)].

(** heartbeats at 10 s, 11 s and 13 s *)
Definition heartbeats : list (FrameClock * FFrameReceivedInfo) :=
  [(clock 11, nosignal); (clock 13, nosignal)].

(** a callback that has counted three audio and two video drops *)
Definition dropping : World (H := engine) :=
  store 1%positive
    (set_VideoFrameDropCount 2 (set_AudioFrameDropCount 3 (callback EMediaState.Playing)))
    playing.

(** the same world on a machine without the vendor runtime *)
Definition uninitialized : World (H := engine) :=
  let 'mkWorld h p s _ c g t := playing in mkWorld h p s false c g t.

Definition after_Uninitialize : option (World (H := engine)) :=
  Eval vm_compute in Uninitialize 1%positive playing.

Definition after_Verify : option (World (H := engine)) :=
  Eval vm_compute in VerifyFrameDropCount_GameThread 1%positive "url" dropping.

Definition after_frame : option (World (H := engine)) :=
  Eval vm_compute in OnFrameReceived 1%positive (clock 100) frame playing.

(** the playing world with drop logging off *)
Definition quiet : World (H := engine) :=
  set_Player (set_bVerifyFrameDropCount false (Player playing)) playing.

(** eight frames, one second apart: both queues end at tolerated capacity *)
Definition eight : list (FrameClock * FFrameReceivedInfo) :=
  [(clock 100, frame); (clock 101, frame); (clock 102, frame); (clock 103, frame);
   (clock 104, frame); (clock 105, frame); (clock 106, frame); (clock 107, frame)].

Definition full : World (H := engine) :=
  Eval vm_compute in default playing (ReceiveFrames 1%positive eight playing).

Definition full_callback : FBlackmagicMediaPlayerEventCallback :=
  Eval vm_compute in default (callback EMediaState.Playing) (Heap full !! 1%positive).

(** a callback that burns the timecode into the picture *)
Definition burning : World (H := engine) :=
  store 1%positive (set_bEncodeTimecodeInTexel true (callback EMediaState.Playing)) playing.

(** a callback that expects a timecode *)
Definition expecting : World (H := engine) :=
  store 1%positive (set_bIsTimecodeExpected true (callback EMediaState.Playing)) playing.

(** a player that has not opened anything yet *)
Definition closed : World (H := engine) :=
  {| Heap := ∅;
     Player := mkPlayer (H := engine) (base EMediaState.Closed) None 0%nat 0%nat false;
     Sdk := tt;
     bIsInitialized := true;
     bCanUseBlackmagicCard := true;
     bBlackmagicWriteOutputRawDataCmdEnable := false;
     Trace := [] |}.

(** the playing world with a callback that nobody but the player references *)
Definition sole : World (H := engine) :=
  store 1%positive (set_RefCounter 1 (callback EMediaState.Playing)) playing.

(** the same player with an SDK that refuses the registration and keeps
    [kept] references *)
Definition refused (kept : nat) : World (H := refusing kept) :=
  {| Heap := ∅;
     Player := mkPlayer (H := refusing kept) (base EMediaState.Closed) None 0%nat 0%nat
                 false;
     Sdk := tt;
     bIsInitialized := true;
     bCanUseBlackmagicCard := true;
     bBlackmagicWriteOutputRawDataCmdEnable := false;
     Trace := [] |}.

(** what the SDK may call between two ticks *)
Definition sdk_calls : list Call :=
  [SdkAddRef 1%positive;
   SdkOnFrameReceived 1%positive (clock 100) frame;
   SdkOnFrameFormatChanged 1%positive;
   SdkRelease 1%positive].

Definition after_sdk_calls : option (World (H := engine)) :=
  Eval vm_compute in run (H := engine) sdk_calls playing.

End Examples.

(** ** Properties *)

Lemma int32_small (z : Z) : - 2 ^ 31 <= z < 2 ^ 31 -> int32 z = z.
Proof.
  intros Hz. unfold int32.
  rewrite Z.mod_small by lia. lia.
Qed.

Lemma uint32_small (z : Z) : 0 <= z < 2 ^ 32 -> uint32 z = z.
Proof. intros Hz. unfold uint32. by rewrite Z.mod_small. Qed.

Lemma size_t_small (z : Z) : 0 <= z < 2 ^ 64 -> size_t z = z.
Proof. intros Hz. unfold size_t. by rewrite Z.mod_small. Qed.

Lemma int32_range (z : Z) : - 2 ^ 31 <= int32 z < 2 ^ 31.
Proof.
  unfold int32.
  pose proof (Z.mod_pos_bound (z + 2 ^ 31) (2 ^ 32) ltac:(lia)). lia.
Qed.

Lemma Qltb_lt (a b : Q) : Qltb a b = true <-> (a < b)%Q.
Proof.
  unfold Qltb. rewrite negb_true_iff.
  destruct (Qle_bool b a) eqn:E.
  - apply Qle_bool_iff in E. split; [discriminate | intros Hlt; exfalso; lra].
  - split; [intros _ | reflexivity].
    destruct (Qlt_le_dec a b) as [Hlt | Hle]; [exact Hlt |].
    apply Qle_bool_iff in Hle. congruence.
Qed.

Section Properties.

Context `{External}.

Implicit Types (w : World) (cb : FBlackmagicMediaPlayerEventCallback) (this : loc).

(** Unfold the record of a world, of its player and of its base. *)
Ltac open_world w :=
  let h := fresh "heap" in
  let s := fresh "super" in
  destruct w as [h [s ? ? ? ?] ? ? ? ? ?]; destruct s as [? [? ?] ? ? ? ?].

(** Split an equation between pairs and substitute. *)
Ltac pair_eq :=
  repeat match goal with
         | E : (_, _) = (_, _) |- _ => inversion E; subst; clear E
         end.

(** *** How the heap of callback objects evolves *)

Lemma evolves_no_new_Playing w w' : evolves w w' -> no_new_Playing w w'.
Proof.
  intros He this cb' Hl Hs. destruct (He _ _ Hl) as (cb & Hcb & _ & Hst). eauto.
Qed.

Lemma no_new_Playing_trans w1 w2 w3 :
  no_new_Playing w1 w2 -> no_new_Playing w2 w3 -> no_new_Playing w1 w3.
Proof.
  intros H12 H23 this cb' Hl Hs.
  destruct (H23 _ _ Hl Hs) as (cb2 & Hl2 & Hs2). eauto.
Qed.

Lemma evolves_heap w w' : Heap w' = Heap w -> evolves w w'.
Proof. intros Heq this cb' Hl. rewrite Heq in Hl. eauto. Qed.

Lemma evolves_refl w : evolves w w.
Proof. by apply evolves_heap. Qed.

Lemma evolves_trans w1 w2 w3 : evolves w1 w2 -> evolves w2 w3 -> evolves w1 w3.
Proof.
  intros H12 H23 this cb3 Hl.
  destruct (H23 _ _ Hl) as (cb2 & Hl2 & Hp2 & Hs2).
  destruct (H12 _ _ Hl2) as (cb1 & Hl1 & Hp1 & Hs1).
  exists cb1. auto.
Qed.

Lemma evolves_store w w0 this cb cb' :
  Heap w0 = Heap w -> Heap w !! this = Some cb ->
  (MediaPlayer cb = false -> MediaPlayer cb' = false) ->
  (MediaState cb' = EMediaState.Playing -> MediaState cb = EMediaState.Playing) ->
  evolves w (store this cb' w0).
Proof.
  intros Heq Hcb Hp Hst l c Hl.
  unfold store in Hl. destruct w0; simpl in *. subst.
  destruct (decide (this = l)) as [-> | Hne].
  - rewrite lookup_insert_eq in Hl. inversion Hl; subst c. eauto.
  - rewrite lookup_insert_ne in Hl by exact Hne. eauto.
Qed.

Lemma evolves_delete w w0 this :
  Heap w0 = Heap w -> evolves w (set_Heap (delete this (Heap w0)) w0).
Proof.
  intros Heq l c Hl. destruct w0; simpl in *. subst.
  apply lookup_delete_Some in Hl as [_ Hl]. eauto.
Qed.

(** *** What the blocks of [OnFrameReceived] leave alone *)

Lemma frame_world_refl w : frame_world w w.
Proof. repeat split. Qed.

Lemma frame_world_trans w1 w2 w3 :
  frame_world w1 w2 -> frame_world w2 w3 -> frame_world w1 w3.
Proof.
  unfold frame_world. intros (?&?&?&?&?&?&?) (?&?&?&?&?&?&?).
  repeat split; congruence.
Qed.

Lemma frame_callback_refl cb : frame_callback cb cb.
Proof. repeat split. Qed.

Lemma frame_callback_trans cb1 cb2 cb3 :
  frame_callback cb1 cb2 -> frame_callback cb2 cb3 -> frame_callback cb1 cb3.
Proof.
  unfold frame_callback. intros (?&?&?&?&?&?&?&?&?&?) (?&?&?&?&?&?&?&?&?&?).
  repeat split; congruence.
Qed.

Lemma NoSignal_frame clock cb w cb' w' :
  NoSignal clock cb w = (cb', w') ->
  frame_world w w' /\ TheSamples w' = TheSamples w
  /\ MediaPlayer cb' = MediaPlayer cb
  /\ MaxNumAudioFrameBuffer cb' = MaxNumAudioFrameBuffer cb
  /\ MaxNumVideoFrameBuffer cb' = MaxNumVideoFrameBuffer cb
  /\ AudioFrameDropCount cb' = AudioFrameDropCount cb
  /\ VideoFrameDropCount cb' = VideoFrameDropCount cb
  /\ bReceivedValidFrame cb' = bReceivedValidFrame cb
  /\ (MediaState cb' = MediaState cb \/ MediaState cb' = EMediaState.Error).
Proof.
  unfold NoSignal. intros Heq.
  open_world w. destruct cb.
  repeat case_match; simplify_eq/=; repeat split; auto.
Qed.

Lemma ReceiveTimecode_frame clock info L cb w L' cb' w' :
  ReceiveTimecode clock info L cb w = (L', cb', w') ->
  DecodedTimeF2 L = DecodedTime L + FromSeconds (AsInterval (VideoFrameRate (Super (Player w)))) ->
  DecodedTimecode L = None -> DecodedTimecodeF2 L = None ->
  frame_world w w' /\ frame_callback cb cb' /\ TheSamples w' = TheSamples w
  /\ Player w' = Player w
  /\ AudioFrameDropCount cb' = AudioFrameDropCount cb
  /\ VideoFrameDropCount cb' = VideoFrameDropCount cb
  /\ fields_apart info (VideoFrameRate (Super (Player w))) L'.
Proof.
  unfold ReceiveTimecode, fields_apart. intros Heq HL Ht1 Ht2.
  open_world w. destruct cb, L. simpl in *.
  repeat case_match; simplify_eq/=; repeat split; eauto 10.
Qed.

Lemma ReceiveAudio_frame info L cb w cb' w' :
  ReceiveAudio info L cb w = (cb', w') ->
  frame_world w w' /\ frame_callback cb cb'
  /\ VideoSamples (TheSamples w') = VideoSamples (TheSamples w)
  /\ VideoFrameDropCount cb' = VideoFrameDropCount cb
  /\ bBlackmagicWriteOutputRawDataCmdEnable w' = bBlackmagicWriteOutputRawDataCmdEnable w
  /\ AudioOutcome info L cb w cb' w'.
Proof.
  unfold ReceiveAudio. intros Heq.
  destruct (AudioBuffer info) as [buffer|] eqn:Hbuf.
  - fold (AudioSampleOf info buffer L) in Heq.
    destruct (Z.leb_spec (int32 (MaxNumAudioFrameBuffer cb * ToleratedExtraMaxBufferCount))
                (NumAudioSamples (TheSamples w))) as [Hfull | Hroom].
    + destruct (bVerifyFrameDropCount (Player w)) eqn:Hv; pair_eq.
      * repeat split; try (by destruct cb).
        apply AudioDropped; try done; try (by destruct cb).
        by rewrite Hbuf.
      * repeat split. apply AudioUntouched; try done. intros; lia.
    + destruct (AudioSampleInitialize (AudioSampleOf info buffer L)) eqn:Hinit;
        pair_eq.
      * repeat split; try (by destruct cb); try (by open_world w).
        apply (AudioEnqueued _ _ _ _ _ _ buffer); try done;
          try (by destruct cb); try (by open_world w).
      * repeat split; try (by open_world w).
        apply AudioUntouched; try done; try (by open_world w).
        intros b Hb _. congruence.
  - pair_eq. repeat split. apply AudioUntouched; try done. intros; congruence.
Qed.

Lemma WriteOutputRawData_frame info name w :
  frame_world w (WriteOutputRawData info name w)
  /\ TheSamples (WriteOutputRawData info name w) = TheSamples w.
Proof.
  unfold WriteOutputRawData. open_world w. simpl.
  case_match; repeat split.
Qed.

Lemma AddProgressive_frame info buffer fmt L cb w :
  FieldDominance info <> EFieldDominance.Interlaced ->
  fmt = fst (fst (SelectFormats info cb)) ->
  let w' := AddProgressive info buffer fmt L cb w in
  frame_world w w'
  /\ AudioSamples (TheSamples w') = AudioSamples (TheSamples w)
  /\ VideoSamples (TheSamples w')
     = VideoSamples (TheSamples w) ++ NewVideoSamples info buffer L cb w.
Proof.
  intros Hprog ->. unfold AddProgressive, NewVideoSamples, OfferedVideoSamples.
  rewrite bool_decide_eq_false_2 by exact Hprog.
  open_world w. simpl.
  repeat case_match; simpl in *; repeat split; auto using app_nil_r; congruence.
Qed.

Lemma AddInterlaced_frame info buffer fmt L cb w :
  FieldDominance info = EFieldDominance.Interlaced ->
  fmt = fst (fst (SelectFormats info cb)) ->
  let w' := AddInterlaced info buffer fmt L cb w in
  frame_world w w'
  /\ AudioSamples (TheSamples w') = AudioSamples (TheSamples w)
  /\ VideoSamples (TheSamples w')
     = VideoSamples (TheSamples w) ++ NewVideoSamples info buffer L cb w.
Proof.
  intros Hint ->. unfold AddInterlaced, NewVideoSamples, OfferedVideoSamples.
  rewrite bool_decide_eq_true_2 by exact Hint.
  open_world w. simpl.
  repeat case_match; simpl in *; repeat split;
    rewrite <- ?app_assoc; simpl; auto using app_nil_r; congruence.
Qed.

Lemma ReceiveVideo_frame info L cb w cb' w' :
  ReceiveVideo info L cb w = (cb', w') ->
  frame_world w w' /\ frame_callback cb cb'
  /\ AudioSamples (TheSamples w') = AudioSamples (TheSamples w)
  /\ AudioFrameDropCount cb' = AudioFrameDropCount cb
  /\ LastBitsPerSample cb' = LastBitsPerSample cb
  /\ LastNumChannels cb' = LastNumChannels cb
  /\ LastSampleRate cb' = LastSampleRate cb
  /\ VideoOutcome info L cb w cb' w'.
Proof.
  unfold ReceiveVideo. intros Heq.
  destruct (VideoBuffer info) as [buffer|] eqn:Hbuf.
  - destruct (Z.leb_spec (int32 (MaxNumVideoFrameBuffer cb * ToleratedExtraMaxBufferCount))
                (VideoOccupancy info (TheSamples w))) as [Hfull | Hroom].
    + destruct (bVerifyFrameDropCount (Player w)) eqn:Hv; pair_eq.
      * repeat split; try (by destruct cb).
        apply VideoDropped; try done; try (by destruct cb). by rewrite Hbuf.
      * repeat split. apply VideoUntouched; try done.
    + destruct (SelectFormats info cb) as [[fmt enc] name] eqn:Hsel.
      destruct (WriteOutputRawData_frame info name w) as [Hfw Hsw].
      destruct (bool_decide (FieldDominance info = EFieldDominance.Interlaced)) eqn:Hdom;
        simpl in Heq; pair_eq.
      * apply bool_decide_eq_true_1 in Hdom.
        destruct (AddInterlaced_frame info buffer fmt L cb' (WriteOutputRawData info name w)
                    Hdom) as (Hf & Ha & Hv); [by rewrite Hsel |].
        split; [eapply frame_world_trans; eauto |].
        split; [apply frame_callback_refl |].
        split; [by rewrite Ha, Hsw |].
        do 4 (split; [reflexivity |]).
        apply (VideoEnqueued _ _ _ _ _ _ buffer); try done.
        rewrite Hv, Hsw. f_equal.
        unfold NewVideoSamples, OfferedVideoSamples.
        destruct Hfw as (_&_&_&_&->&_). done.
      * apply bool_decide_eq_false_1 in Hdom.
        destruct (AddProgressive_frame info buffer fmt L cb' (WriteOutputRawData info name w)
                    Hdom) as (Hf & Ha & Hv); [by rewrite Hsel |].
        split; [eapply frame_world_trans; eauto |].
        split; [apply frame_callback_refl |].
        split; [by rewrite Ha, Hsw |].
        do 4 (split; [reflexivity |]).
        apply (VideoEnqueued _ _ _ _ _ _ buffer); try done.
        rewrite Hv, Hsw. f_equal.
        unfold NewVideoSamples, OfferedVideoSamples.
        destruct Hfw as (_&_&_&_&->&_). done.
  - pair_eq. repeat split. apply VideoUntouched; try done. intros; congruence.
Qed.

(** *** [OnFrameReceived], case by case *)

Lemma store_same this cb w : Heap w !! this = Some cb -> store this cb w = w.
Proof.
  intros Hcb. unfold store. destruct w; simpl in *. by rewrite insert_id.
Qed.

Lemma store_frame this cb w :
  Player (store this cb w) = Player w /\ Sdk (store this cb w) = Sdk w
  /\ Trace (store this cb w) = Trace w
  /\ bBlackmagicWriteOutputRawDataCmdEnable (store this cb w)
     = bBlackmagicWriteOutputRawDataCmdEnable w
  /\ Heap (store this cb w) !! this = Some cb
  /\ forall other, other <> this -> Heap (store this cb w) !! other = Heap w !! other.
Proof.
  unfold store. destruct w; simpl. repeat split.
  - apply lookup_insert_eq.
  - intros other Hne. by rewrite lookup_insert_ne.
Qed.

Lemma OnFrameReceived_detached this clock info w cb :
  Heap w !! this = Some cb -> MediaPlayer cb = false ->
  OnFrameReceived this clock info w = Some w.
Proof.
  intros Hcb Hnull. unfold OnFrameReceived. rewrite Hcb. simpl. by rewrite Hnull.
Qed.

Lemma OnFrameReceived_NoSignal this clock info w cb :
  Heap w !! this = Some cb -> MediaPlayer cb = true -> IsNoSignal info = true ->
  OnFrameReceived this clock info w
  = Some (store this (fst (NoSignal clock cb w)) (snd (NoSignal clock cb w))).
Proof.
  intros Hcb Hp Hno. unfold OnFrameReceived, IsNoSignal in *.
  rewrite Hcb. simpl. rewrite Hp, Hno. simpl. by destruct (NoSignal clock cb w).
Qed.

Lemma OnFrameReceived_not_Playing this clock info w cb :
  Heap w !! this = Some cb -> MediaPlayer cb = true -> IsNoSignal info = false ->
  MediaState cb <> EMediaState.Playing ->
  OnFrameReceived this clock info w
  = Some (store this (set_bReceivedValidFrame
                        (bReceivedValidFrame cb || bHasInputSource info) cb) w).
Proof.
  intros Hcb Hp Hno Hst. unfold OnFrameReceived, IsNoSignal in *.
  rewrite Hcb. simpl. rewrite Hp, Hno. simpl.
  rewrite bool_decide_eq_false_2; [done | by destruct cb].
Qed.

Lemma OnFrameReceived_Playing this clock info w cb :
  Heap w !! this = Some cb -> MediaPlayer cb = true -> IsNoSignal info = false ->
  MediaState cb = EMediaState.Playing ->
  exists L cb1 w1 cb2 w2 cb3 w3,
    OnFrameReceived this clock info w = Some (store this cb3 w3)
    /\ fields_apart info (VideoFrameRate (Super (Player w))) L
    /\ frame_world w w1 /\ Player w1 = Player w
    /\ MaxNumAudioFrameBuffer cb1 = MaxNumAudioFrameBuffer cb
    /\ MaxNumVideoFrameBuffer cb1 = MaxNumVideoFrameBuffer cb
    /\ MediaPlayer cb1 = MediaPlayer cb
    /\ MediaState cb1 = MediaState cb
    /\ bIsSRGBInput cb1 = bIsSRGBInput cb
    /\ ChannelInfo cb1 = ChannelInfo cb
    /\ AudioFrameDropCount cb1 = AudioFrameDropCount cb
    /\ VideoFrameDropCount cb1 = VideoFrameDropCount cb
    /\ ReceiveAudio info L cb1 w1 = (cb2, w2)
    /\ ReceiveVideo info L cb2 w2 = (cb3, w3).
Proof.
  intros Hcb Hp Hno Hst. unfold OnFrameReceived, IsNoSignal in *.
  rewrite Hcb. simpl. rewrite Hp, Hno. simpl.
  rewrite bool_decide_eq_true_2 by (by destruct cb).
  match goal with
  | |- context [ReceiveTimecode ?c ?i ?L ?b ?w] =>
      destruct (ReceiveTimecode c i L b w) as [[L1 cb1] w1] eqn:Htc
  end.
  destruct (ReceiveAudio info L1 cb1 w1) as [cb2 w2] eqn:Ha.
  destruct (ReceiveVideo info L1 cb2 w2) as [cb3 w3] eqn:Hv.
  exists L1, cb1, w1, cb2, w2, cb3, w3.
  apply ReceiveTimecode_frame in Htc as (Hfw & Hfc & Hs & Hpl & Hda & Hdv & HL);
    [| reflexivity ..].
  destruct Hfc as (?&?&?&?&?&?&?&?&?&?).
  split_and!; try done; destruct cb; simpl in *; congruence.
Qed.

(** *** One enqueue attempt per media kind *)

Lemma AudioOutcome_attempt info L cb w cb' w' :
  AudioOutcome info L cb w cb' w' -> audio_attempt info cb w cb' w'.
Proof.
  intros [ | buffer | ]; (split; [| ]); eauto 10.
Qed.

Lemma NewVideoSamples_length info buffer L cb w :
  (length (NewVideoSamples info buffer L cb w)
     <= if bool_decide (FieldDominance info = EFieldDominance.Interlaced) then 2 else 1)%nat.
Proof.
  unfold NewVideoSamples, OfferedVideoSamples.
  case_bool_decide; simpl; repeat case_match; simpl; lia.
Qed.

Lemma VideoOutcome_attempt info L cb w cb' w' :
  VideoOutcome info L cb w cb' w' -> video_attempt info cb w cb' w'.
Proof.
  intros [ | buffer | ]; (split; [| ]); eauto 10.
  right. split; [done |]. eexists. split; [eassumption |].
  apply NewVideoSamples_length.
Qed.

Lemma attempt_nothing info cb w cb' w' :
  TheSamples w' = TheSamples w ->
  AudioFrameDropCount cb' = AudioFrameDropCount cb ->
  VideoFrameDropCount cb' = VideoFrameDropCount cb ->
  audio_attempt info cb w cb' w' /\ video_attempt info cb w cb' w'.
Proof.
  intros Hs Ha Hv. unfold audio_attempt, video_attempt. rewrite Hs. auto.
Qed.

Lemma TheSamples_store this cb w : TheSamples (store this cb w) = TheSamples w.
Proof. by destruct w. Qed.

Lemma OnFrameReceived_Received this clock info w cb :
  Heap w !! this = Some cb ->
  exists w' cb', OnFrameReceived this clock info w = Some w'
                 /\ Received this info w cb w' cb'.
Proof.
  intros Hcb.
  destruct (MediaPlayer cb) eqn:Hp; [destruct (IsNoSignal info) eqn:Hno |].
  - (* the heartbeat of a channel without signal *)
    rewrite (OnFrameReceived_NoSignal _ _ _ _ _ Hcb Hp Hno).
    destruct (NoSignal clock cb w) as [cb1 w1] eqn:Hns. simpl.
    apply NoSignal_frame in Hns as (Hfw & Hs & ? & ? & ? & Ha & Hv & ? & ?).
    destruct Hfw as (Hh & _ & ? & ? & _).
    destruct (store_frame this cb1 w1) as (Hpl & _ & _ & _ & Hl & Ho).
    destruct (attempt_nothing info cb w cb1 (store this cb1 w1)) as [? ?];
      [by rewrite TheSamples_store | done | done |].
    eexists _, cb1. split; [reflexivity |].
    split; try done; try (rewrite Hpl; congruence).
    intros other Hne. rewrite Ho by done. by rewrite Hh.
  - destruct (decide (MediaState cb = EMediaState.Playing)) as [Hst | Hst].
    + (* a frame while playing *)
      destruct (OnFrameReceived_Playing _ clock info _ _ Hcb Hp Hno Hst)
        as (L & cb1 & w1 & cb2 & w2 & cb3 & w3 & -> & _ & Hf1 & Hp1
            & HA1 & HV1 & HP1 & HS1 & _ & _ & Hda1 & Hdv1 & Ha & Hv).
      apply ReceiveAudio_frame in Ha as (Hf2 & Hc2 & Hvs2 & Hdv2 & _ & Haudio).
      apply ReceiveVideo_frame in Hv as (Hf3 & Hc3 & Has3 & Hda3 & _ & _ & _ & Hvideo).
      apply AudioOutcome_attempt in Haudio. apply VideoOutcome_attempt in Hvideo.
      destruct Hc2 as (HA2 & HV2 & HP2 & HS2 & _). destruct Hc3 as (HA3 & HV3 & HP3 & HS3 & _).
      pose proof (frame_world_trans _ _ _ Hf1 (frame_world_trans _ _ _ Hf2 Hf3))
        as (Hh & _ & ? & ? & _).
      destruct (store_frame this cb3 w3) as (Hpl & _ & _ & _ & Hl & Ho).
      assert (Hs1 : TheSamples w1 = TheSamples w) by (unfold TheSamples; by rewrite Hp1).
      destruct Hf2 as (_ & _ & _ & Hbv2 & _).
      eexists _, cb3. split; [reflexivity |].
      split; try done; try (rewrite Hpl; congruence); try congruence.
      * intros other Hne. rewrite Ho by done. by rewrite Hh.
      * left. congruence.
      * unfold audio_attempt in *. rewrite TheSamples_store, Has3, Hda3.
        rewrite HA1, Hda1, Hs1, Hp1 in Haudio. exact Haudio.
      * unfold video_attempt in *. rewrite TheSamples_store.
        unfold VideoOccupancy, NumVideoSamples in *.
        rewrite HV2, HV1, Hdv2, Hdv1, Hvs2, Hs1, Hbv2, Hp1 in Hvideo. exact Hvideo.
    + (* a frame while not playing *)
      rewrite (OnFrameReceived_not_Playing _ _ _ _ _ Hcb Hp Hno Hst).
      match goal with |- context [store this ?c w] => set (cb1 := c) end.
      destruct (store_frame this cb1 w) as (Hpl & _ & _ & _ & Hl & Ho).
      destruct (attempt_nothing info cb w cb1 (store this cb1 w)) as [? ?];
        [by rewrite TheSamples_store | by destruct cb | by destruct cb |].
      eexists _, cb1. split; [reflexivity |].
      split; try done; try (rewrite Hpl; congruence); try (by destruct cb).
      left. by destruct cb.
  - (* the callback is detached from its player *)
    rewrite (OnFrameReceived_detached _ _ _ _ _ Hcb Hp).
    destruct (attempt_nothing info cb w cb w) as [? ?]; try done.
    eexists w, cb. split; [reflexivity |]. split; auto.
Qed.

(** *** Projections of updated worlds *)

Lemma TheSamples_with_Samples f w : TheSamples (with_Samples f w) = f (TheSamples w).
Proof. by open_world w. Qed.
Lemma Heap_with_Samples f w : Heap (with_Samples f w) = Heap w.
Proof. by open_world w. Qed.
Lemma Trace_with_Samples f w : Trace (with_Samples f w) = Trace w.
Proof. by open_world w. Qed.
Lemma EventCallback_with_Samples f w :
  EventCallback (Player (with_Samples f w)) = EventCallback (Player w).
Proof. by open_world w. Qed.
Lemma bVerify_with_Samples f w :
  bVerifyFrameDropCount (Player (with_Samples f w)) = bVerifyFrameDropCount (Player w).
Proof. by open_world w. Qed.
Lemma Player_emits es w : Player (emits es w) = Player w.
Proof. by destruct w. Qed.
Lemma Heap_emits es w : Heap (emits es w) = Heap w.
Proof. by destruct w. Qed.
Lemma Sdk_emits es w : Sdk (emits es w) = Sdk w.
Proof. by destruct w. Qed.
Lemma Trace_emits es w : Trace (emits es w) = Trace w ++ es.
Proof. by destruct w. Qed.
Lemma TheSamples_emits es w : TheSamples (emits es w) = TheSamples w.
Proof. by destruct w. Qed.
Lemma Player_store this cb w : Player (store this cb w) = Player w.
Proof. by destruct w. Qed.
Lemma Trace_store this cb w : Trace (store this cb w) = Trace w.
Proof. by destruct w. Qed.
Lemma Sdk_store this cb w : Sdk (store this cb w) = Sdk w.
Proof. by destruct w. Qed.
Lemma Heap_store this cb w : Heap (store this cb w) = <[this := cb]> (Heap w).
Proof. by destruct w. Qed.

Lemma Heap_set_Sdk v w : Heap (set_Sdk v w) = Heap w.
Proof. by destruct w. Qed.
Lemma Heap_set_Player v w : Heap (set_Player v w) = Heap w.
Proof. by destruct w. Qed.
Lemma Heap_call_Super r w : Heap (call_Super r w) = Heap w.
Proof. by destruct w. Qed.
Lemma Heap_with_Super f w : Heap (with_Super f w) = Heap w.
Proof. by destruct w. Qed.
Lemma Heap_set_Heap v w : Heap (set_Heap v w) = v.
Proof. by destruct w. Qed.
Lemma Player_set_Player v w : Player (set_Player v w) = v.
Proof. by destruct w. Qed.
Lemma Player_set_Sdk v w : Player (set_Sdk v w) = Player w.
Proof. by destruct w. Qed.
Lemma Player_set_Heap v w : Player (set_Heap v w) = Player w.
Proof. by destruct w. Qed.
Lemma Trace_set_Sdk v w : Trace (set_Sdk v w) = Trace w.
Proof. by destruct w. Qed.
Lemma Trace_set_Player v w : Trace (set_Player v w) = Trace w.
Proof. by destruct w. Qed.
Lemma Trace_set_Heap v w : Trace (set_Heap v w) = Trace w.
Proof. by destruct w. Qed.
Lemma Sdk_set_Player v w : Sdk (set_Player v w) = Sdk w.
Proof. by destruct w. Qed.
Lemma Sdk_set_Heap v w : Sdk (set_Heap v w) = Sdk w.
Proof. by destruct w. Qed.
Lemma Sdk_set_Sdk v w : Sdk (set_Sdk v w) = v.
Proof. by destruct w. Qed.

Create Rewrite HintDb world.
Hint Rewrite Heap_set_Sdk Heap_set_Player Heap_call_Super Heap_with_Super Heap_set_Heap
  Player_set_Player Player_set_Sdk Player_set_Heap Trace_set_Sdk Trace_set_Player
  Trace_set_Heap Sdk_set_Player Sdk_set_Heap Sdk_set_Sdk : world.
Hint Rewrite TheSamples_with_Samples Heap_with_Samples Trace_with_Samples
  EventCallback_with_Samples bVerify_with_Samples Player_emits Heap_emits Sdk_emits
  Trace_emits TheSamples_emits Player_store Trace_store Sdk_store Heap_store
  TheSamples_store : world.

(** *** The buffer-maintenance step *)

Lemma tail_drop {A} (n : nat) (l : list A) : tail (drop n l) = drop (S n) l.
Proof.
  revert n. induction l as [|a l IH]; intros [|n]; simpl; rewrite ?drop_0; auto.
Qed.

Lemma iter_PopAudio n s :
  AudioSamples (Nat.iter n PopAudio s) = drop n (AudioSamples s)
  /\ VideoSamples (Nat.iter n PopAudio s) = VideoSamples s.
Proof.
  induction n as [|n [IHa IHv]]; simpl.
  - by rewrite drop_0.
  - rewrite IHa, IHv. split; [apply tail_drop | done].
Qed.

Lemma iter_PopVideo n s :
  VideoSamples (Nat.iter n PopVideo s) = drop n (VideoSamples s)
  /\ AudioSamples (Nat.iter n PopVideo s) = AudioSamples s.
Proof.
  induction n as [|n [IHv IHa]]; simpl.
  - by rewrite drop_0.
  - rewrite IHa, IHv. split; [apply tail_drop | done].
Qed.

Lemma VerifyFrameDropCount_GameThread_spec this InUrl w cb :
  Heap w !! this = Some cb -> MediaPlayer cb = true ->
  exists w',
    VerifyFrameDropCount_GameThread this InUrl w = Some w'
    /\ AudioSamples (TheSamples w')
       = drop (Z.to_nat (AudioOverflowCount cb (TheSamples w))) (AudioSamples (TheSamples w))
    /\ VideoSamples (TheSamples w')
       = drop (Z.to_nat (VideoOverflowCount cb (TheSamples w))) (VideoSamples (TheSamples w))
    /\ EventCallback (Player w') = EventCallback (Player w)
    /\ bVerifyFrameDropCount (Player w') = bVerifyFrameDropCount (Player w)
    /\ (forall other, other <> this -> Heap w' !! other = Heap w !! other)
    /\ if bVerifyFrameDropCount (Player w)
       then Heap w' !! this
            = Some (set_VideoFrameDropCount 0 (set_AudioFrameDropCount 0 cb))
            /\ Trace w' = Trace w ++ LostWarnings (AudioLostCount cb (TheSamples w))
                                       (VideoLostCount cb (TheSamples w)) InUrl
       else Heap w' = Heap w /\ Trace w' = Trace w.
Proof.
  intros Hcb Hp. unfold VerifyFrameDropCount_GameThread. rewrite Hcb.
  cbn [mbind option_bind]. rewrite Hp. cbn [negb]. cbv zeta.
  set (na := Z.to_nat (AudioOverflowCount cb (TheSamples w))).
  set (w1 := with_Samples (Nat.iter na PopAudio) w).
  destruct (iter_PopAudio na (TheSamples w)) as [Ha1 Ha2].
  assert (Hs1 : TheSamples w1 = Nat.iter na PopAudio (TheSamples w))
    by apply TheSamples_with_Samples.
  assert (Hvo : VideoOverflowCount cb (TheSamples w1) = VideoOverflowCount cb (TheSamples w)).
  { unfold VideoOverflowCount, NumVideoSamples. by rewrite Hs1, Ha2. }
  assert (Hvl : VideoLostCount cb (TheSamples w1) = VideoLostCount cb (TheSamples w)).
  { unfold VideoLostCount. by rewrite Hvo. }
  rewrite Hvo, Hvl.
  set (nv := Z.to_nat (VideoOverflowCount cb (TheSamples w))).
  set (w2 := with_Samples (Nat.iter nv PopVideo) w1).
  destruct (iter_PopVideo nv (TheSamples w1)) as [Hv1 Hv2].
  assert (Hs2 : TheSamples w2 = Nat.iter nv PopVideo (TheSamples w1))
    by apply TheSamples_with_Samples.
  assert (Hbv : bVerifyFrameDropCount (Player w2) = bVerifyFrameDropCount (Player w))
    by (unfold w2, w1; by autorewrite with world).
  assert (Hec : EventCallback (Player w2) = EventCallback (Player w))
    by (unfold w2, w1; by autorewrite with world).
  assert (Hh : Heap w2 = Heap w) by (unfold w2, w1; by autorewrite with world).
  assert (Ht : Trace w2 = Trace w) by (unfold w2, w1; by autorewrite with world).
  assert (Has : AudioSamples (TheSamples w2) = drop na (AudioSamples (TheSamples w)))
    by (by rewrite Hs2, Hv2, Hs1, Ha1).
  assert (Hvs : VideoSamples (TheSamples w2) = drop nv (VideoSamples (TheSamples w)))
    by (by rewrite Hs2, Hv1, Hs1, Ha2).
  rewrite Hbv. clearbody w2. clear w1 Hs1 Hvo Hvl Hv1 Hv2 Hs2.
  destruct (bVerifyFrameDropCount (Player w)).
  - eexists. split; [reflexivity |]. unfold LostWarnings, emit.
    repeat case_match; autorewrite with world;
      rewrite ?app_nil_r, <- ?app_assoc, ?Ht, ?Hh;
      split_and!; try done; try apply lookup_insert_eq;
      intros other Hne; by rewrite lookup_insert_ne.
  - eexists. split; [reflexivity |]. split_and!; try done. intros; by rewrite Hh.
Qed.

Lemma overflow_trim (n M : Z) :
  0 <= n <= INT32_MAX -> 0 <= M <= INT32_MAX ->
  n - Z.of_nat (Z.to_nat (FMath_Max (int32 (n - M)) 0)) <= M.
Proof.
  unfold INT32_MAX, FMath_Max. intros Hn HM.
  rewrite int32_small by lia.
  destruct (Z.ltb_spec (n - M) 0); lia.
Qed.

Lemma VerifyFrameDropCount_GameThread_bound this InUrl w cb :
  Heap w !! this = Some cb -> MediaPlayer cb = true ->
  0 <= MaxNumAudioFrameBuffer cb <= INT32_MAX ->
  0 <= MaxNumVideoFrameBuffer cb <= INT32_MAX ->
  NumAudioSamples (TheSamples w) <= INT32_MAX ->
  NumVideoSamples (TheSamples w) <= INT32_MAX ->
  exists w',
    VerifyFrameDropCount_GameThread this InUrl w = Some w'
    /\ NumAudioSamples (TheSamples w') <= MaxNumAudioFrameBuffer cb
    /\ NumVideoSamples (TheSamples w') <= MaxNumVideoFrameBuffer cb.
Proof.
  intros Hcb Hp HA HV Hna Hnv.
  destruct (VerifyFrameDropCount_GameThread_spec this InUrl w cb Hcb Hp)
    as (w' & Hrun & Ha & Hv & _).
  exists w'. split; [exact Hrun |].
  unfold NumAudioSamples, NumVideoSamples in *. rewrite Ha, Hv, !length_drop.
  unfold AudioOverflowCount, VideoOverflowCount, NumAudioSamples, NumVideoSamples.
  pose proof (overflow_trim _ _ (conj (Nat2Z.is_nonneg _) Hna) HA).
  pose proof (overflow_trim _ _ (conj (Nat2Z.is_nonneg _) Hnv) HV).
  lia.
Qed.

(** *** C1: the buffer bound *)

Lemma hard_capacity (M : Z) :
  sound_maximum M -> int32 (M * ToleratedExtraMaxBufferCount) = 2 * M.
Proof.
  unfold sound_maximum, ToleratedExtraMaxBufferCount. intros HM.
  rewrite int32_small by lia. lia.
Qed.

Lemma Received_bounds this info w cb w' cb' (BA BV : Z) :
  Received this info w cb w' cb' ->
  sound_maximum (MaxNumAudioFrameBuffer cb) ->
  sound_maximum (MaxNumVideoFrameBuffer cb) ->
  2 * MaxNumAudioFrameBuffer cb <= BA -> 2 * MaxNumVideoFrameBuffer cb <= BV ->
  BV < INT32_MAX ->
  NumAudioSamples (TheSamples w) <= BA -> NumVideoSamples (TheSamples w) <= BV ->
  NumAudioSamples (TheSamples w') <= BA /\ NumVideoSamples (TheSamples w') <= BV.
Proof.
  intros HR HA HV HBA HBV Hfit Hna Hnv.
  destruct (received_audio _ _ _ _ _ _ HR) as [_ Ha].
  destruct (received_video _ _ _ _ _ _ HR) as [_ Hv].
  rewrite (hard_capacity _ HA) in Ha. rewrite (hard_capacity _ HV) in Hv.
  unfold VideoOccupancy, NumAudioSamples, NumVideoSamples, INT32_MAX in *.
  split.
  - destruct Ha as [-> | (Hroom & a & ->)]; [done |].
    rewrite length_app. simpl. lia.
  - destruct Hv as [-> | (Hroom & new & -> & Hlen)]; [done |].
    rewrite length_app.
    rewrite int32_small in Hroom by (case_bool_decide; simpl; lia).
    case_bool_decide; simpl in *; lia.
Qed.

Lemma ReceiveFrames_invariant this frames : forall w cb (BA BV : Z),
  Heap w !! this = Some cb ->
  sound_maximum (MaxNumAudioFrameBuffer cb) ->
  sound_maximum (MaxNumVideoFrameBuffer cb) ->
  2 * MaxNumAudioFrameBuffer cb <= BA -> 2 * MaxNumVideoFrameBuffer cb <= BV ->
  BV < INT32_MAX ->
  NumAudioSamples (TheSamples w) <= BA -> NumVideoSamples (TheSamples w) <= BV ->
  exists w' cb',
    ReceiveFrames this frames w = Some w' /\ Heap w' !! this = Some cb'
    /\ MaxNumAudioFrameBuffer cb' = MaxNumAudioFrameBuffer cb
    /\ MaxNumVideoFrameBuffer cb' = MaxNumVideoFrameBuffer cb
    /\ MediaPlayer cb' = MediaPlayer cb
    /\ NumAudioSamples (TheSamples w') <= BA /\ NumVideoSamples (TheSamples w') <= BV.
Proof.
  induction frames as [| [clock info] rest IH]; intros w cb BA BV Hcb HA HV HBA HBV Hfit Hna Hnv.
  - exists w, cb. simpl. split_and!; done.
  - destruct (OnFrameReceived_Received this clock info w cb Hcb) as (w1 & cb1 & Hrun & HR).
    destruct (Received_bounds _ _ _ _ _ _ BA BV HR) as [Hna1 Hnv1]; try done.
    pose proof (received_MaxAudio _ _ _ _ _ _ HR) as HA1.
    pose proof (received_MaxVideo _ _ _ _ _ _ HR) as HV1.
    destruct (IH w1 cb1 BA BV) as (w' & cb' & Hrest & Hcb' & ? & ? & ? & ? & ?);
      try done; try congruence.
    { apply HR. }
    exists w', cb'. simpl. rewrite Hrun. simpl.
    pose proof (received_MediaPlayer _ _ _ _ _ _ HR).
    split_and!; try done; congruence.
Qed.

Lemma ReceiveFrames_app this before after w :
  ReceiveFrames this (before ++ after) w
  = w1 ← ReceiveFrames this before w; ReceiveFrames this after w1.
Proof.
  revert w. induction before as [| [clock info] rest IH]; intros w; simpl; [done |].
  destruct (OnFrameReceived this clock info w); simpl; [apply IH | done].
Qed.

(** C1. Let a callback with soft maxima [MaxNumAudioFrameBuffer] and
    [MaxNumVideoFrameBuffer] (non-negative, their double an [int32]) be
    attached to its player, the queues holding fewer than [INT32_MAX]
    samples. Any sequence of frames is received, and
    [VerifyFrameDropCount_GameThread] then leaves each queue no longer
    than its soft maximum. At every attempt of the sequence a drop counter
    changes only if the occupancy was at twice the soft maximum (for video:
    the queue length plus one slot when the picture is interlaced), and
    that attempt leaves the queue of that kind as it was. *)
Theorem C1_buffer_bound this frames InUrl w cb :
  Heap w !! this = Some cb ->
  MediaPlayer cb = true ->
  sound_maximum (MaxNumAudioFrameBuffer cb) ->
  sound_maximum (MaxNumVideoFrameBuffer cb) ->
  NumAudioSamples (TheSamples w) < INT32_MAX ->
  NumVideoSamples (TheSamples w) < INT32_MAX ->
  exists w1 w2,
    ReceiveFrames this frames w = Some w1
    /\ VerifyFrameDropCount_GameThread this InUrl w1 = Some w2
    /\ NumAudioSamples (TheSamples w2) <= MaxNumAudioFrameBuffer cb
    /\ NumVideoSamples (TheSamples w2) <= MaxNumVideoFrameBuffer cb
    /\ forall before clock info after wa,
         frames = before ++ (clock, info) :: after ->
         ReceiveFrames this before w = Some wa ->
         exists cba wb cbb,
           Heap wa !! this = Some cba
           /\ OnFrameReceived this clock info wa = Some wb
           /\ Heap wb !! this = Some cbb
           /\ (AudioFrameDropCount cbb <> AudioFrameDropCount cba ->
                 2 * MaxNumAudioFrameBuffer cb <= NumAudioSamples (TheSamples wa)
                 /\ AudioSamples (TheSamples wb) = AudioSamples (TheSamples wa))
           /\ (VideoFrameDropCount cbb <> VideoFrameDropCount cba ->
                 2 * MaxNumVideoFrameBuffer cb
                   <= NumVideoSamples (TheSamples wa)
                      + (if bool_decide (FieldDominance info = EFieldDominance.Interlaced)
                         then 1 else 0)
                 /\ VideoSamples (TheSamples wb) = VideoSamples (TheSamples wa)).
Proof.
  intros Hcb Hp HA HV Hna Hnv.
  set (BA := Z.max (NumAudioSamples (TheSamples w)) (2 * MaxNumAudioFrameBuffer cb)).
  set (BV := Z.max (NumVideoSamples (TheSamples w)) (2 * MaxNumVideoFrameBuffer cb)).
  assert (HBA : BA < INT32_MAX) by (unfold sound_maximum, INT32_MAX in *; lia).
  assert (HBV : BV < INT32_MAX) by (unfold sound_maximum, INT32_MAX in *; lia).
  destruct (ReceiveFrames_invariant this frames w cb BA BV)
    as (w1 & cb1 & Hrun & Hcb1 & HA1 & HV1 & Hp1 & Hna1 & Hnv1); try done; try lia.
  destruct (VerifyFrameDropCount_GameThread_bound this InUrl w1 cb1)
    as (w2 & Hverify & Ha2 & Hv2); try congruence;
    try (unfold sound_maximum, INT32_MAX in *; lia).
  exists w1, w2. split_and!; try done; try congruence.
  intros before clock info after wa -> Hbefore.
  destruct (ReceiveFrames_invariant this before w cb BA BV)
    as (wa' & cba & Hrun' & Hcba & HAa & HVa & _ & Hnaa & Hnva); try done; try lia.
  assert (wa' = wa) by congruence. subst wa'.
  destruct (OnFrameReceived_Received this clock info wa cba Hcba) as (wb & cbb & Hstep & HR).
  exists cba, wb, cbb. split_and!; try done; try apply HR.
  - intros Hchanged.
    destruct (received_audio _ _ _ _ _ _ HR) as [[Hsame | (_ & _ & _ & Hfull & Hkept)] _];
      [done |].
    rewrite hard_capacity in Hfull by congruence. split; [| done]. congruence.
  - intros Hchanged.
    destruct (received_video _ _ _ _ _ _ HR) as [[Hsame | (_ & _ & _ & Hfull & Hkept)] _];
      [done |].
    rewrite hard_capacity in Hfull by congruence. split; [| done].
    unfold VideoOccupancy in Hfull.
    rewrite int32_small in Hfull
      by (unfold NumVideoSamples, INT32_MAX in *; case_bool_decide; simpl; lia).
    rewrite negb_involutive in Hfull. congruence.
Qed.

(** *** C2: the no-signal timeout *)

Lemma last_cons {A} (l : list A) : forall a d, List.last (a :: l) d = List.last l a.
Proof.
  induction l as [| b l IH]; intros a d; [done |].
  change (List.last (a :: b :: l) d) with (List.last (b :: l) d).
  by rewrite (IH b d), (IH b a).
Qed.

(** A rounded difference above 2.0 is the rounding of an exact difference
    above 2.0. *)
Lemma RoundDouble_above_2 (x : Q) : (2 < RoundDouble x)%Q -> (2 < x)%Q.
Proof.
  intros Hlate. destruct (Qlt_le_dec 2 x) as [Hx | Hx]; [done |].
  pose proof (RoundDouble_le x 2 Hx) as Hle. pose proof RoundDouble_2 as H2. lra.
Qed.

Lemma NoSignal_callback clock cb w :
  let cb' := fst (NoSignal clock cb w) in
  LastHasFrameTime cb'
  = (if Qltb (LastHasFrameTime cb) (1 # 10) then CurrentTime clock else LastHasFrameTime cb)
  /\ bReceivedValidFrame cb' = bReceivedValidFrame cb
  /\ MediaPlayer cb' = MediaPlayer cb
  /\ MediaState cb'
     = (if bReceivedValidFrame cb
           || Qltb 2 (RoundDouble (CurrentTime clock - LastHasFrameTime cb')%Q)
        then EMediaState.Error else MediaState cb).
Proof.
  unfold NoSignal. destruct cb. simpl.
  repeat case_match; simpl in *; split_and!; congruence.
Qed.

Lemma OnFrameReceived_NoSignal_callback this clock info w cb :
  Heap w !! this = Some cb -> MediaPlayer cb = true -> IsNoSignal info = true ->
  exists w',
    OnFrameReceived this clock info w = Some w'
    /\ Heap w' !! this = Some (fst (NoSignal clock cb w)).
Proof.
  intros Hcb Hp Hno. rewrite (OnFrameReceived_NoSignal _ _ _ _ _ Hcb Hp Hno).
  eexists. split; [reflexivity |]. apply store_frame.
Qed.

Lemma NoSignal_run this (t0 : Q) frames : forall w cb (latest : Q),
  Heap w !! this = Some cb -> MediaPlayer cb = true ->
  bReceivedValidFrame cb = false ->
  (t0 <= LastHasFrameTime cb)%Q -> (t0 <= latest)%Q ->
  (MediaState cb = EMediaState.Error -> (2 < latest - t0)%Q) ->
  Forall (fun f => IsNoSignal (snd f) = true) frames ->
  nondecreasing latest (times frames) ->
  exists w' cb',
    ReceiveFrames this frames w = Some w' /\ Heap w' !! this = Some cb'
    /\ (MediaState cb' = EMediaState.Error -> (2 < List.last (times frames) latest - t0)%Q).
Proof.
  induction frames as [| [clock info] rest IH];
    intros w cb latest Hcb Hp Hrv Hlast Hlatest Herr Hall Hsorted.
  - exists w, cb. simpl. auto.
  - inversion Hall as [| ? ? Hno Hall']; subst. simpl in Hno.
    destruct Hsorted as [Hle Hsorted]. simpl in Hle, Hsorted.
    destruct (OnFrameReceived_NoSignal_callback this clock info w cb Hcb Hp Hno)
      as (w1 & Hrun & Hcb1).
    destruct (NoSignal_callback clock cb w) as (Hl1 & Hr1 & Hp1 & Hs1).
    set (cb1 := fst (NoSignal clock cb w)) in *.
    assert (Hlast1 : (t0 <= LastHasFrameTime cb1)%Q).
    { rewrite Hl1. destruct (Qltb (LastHasFrameTime cb) (1 # 10)); [lra | done]. }
    destruct (IH w1 cb1 (CurrentTime clock)) as (w' & cb' & Hrest & Hcb' & Hfinal);
      try done; try congruence; try lra.
    { rewrite Hs1, Hrv. simpl.
      destruct (Qltb 2 (RoundDouble (CurrentTime clock - LastHasFrameTime cb1))) eqn:Hlate.
      - intros _. apply Qltb_lt, RoundDouble_above_2 in Hlate. lra.
      - intros Hwas. specialize (Herr Hwas). lra. }
    exists w', cb'. simpl ReceiveFrames. rewrite Hrun. split_and!; try done.
    intros Hst. specialize (Hfinal Hst).
    change (times ((clock, info) :: rest)) with (CurrentTime clock :: times rest).
    by rewrite last_cons.
Qed.

(** C2. On a callback attached to its player, let heartbeats of a channel
    without signal (no input source, no audio) arrive at clock readings
    that never go back, no valid frame having been received and the time
    of the first heartbeat not yet recorded. If the state is [Error] after
    the last of them and was not before the first, more than 2.0 seconds
    lie between the first and the last reading. If a valid frame has been
    received, one heartbeat sets the state to [Error]. *)
Theorem C2_no_signal_timeout this w cb :
  Heap w !! this = Some cb ->
  MediaPlayer cb = true ->
  (forall first info rest,
     bReceivedValidFrame cb = false ->
     (LastHasFrameTime cb < 1 # 10)%Q ->
     MediaState cb <> EMediaState.Error ->
     Forall (fun f => IsNoSignal (snd f) = true) ((first, info) :: rest) ->
     nondecreasing (CurrentTime first) (times rest) ->
     exists w' cb',
       ReceiveFrames this ((first, info) :: rest) w = Some w'
       /\ Heap w' !! this = Some cb'
       /\ (MediaState cb' = EMediaState.Error ->
           (2 < List.last (times rest) (CurrentTime first) - CurrentTime first)%Q))
  /\ (forall clock info,
        bReceivedValidFrame cb = true -> IsNoSignal info = true ->
        exists w' cb',
          OnFrameReceived this clock info w = Some w'
          /\ Heap w' !! this = Some cb'
          /\ MediaState cb' = EMediaState.Error).
Proof.
  intros Hcb Hp. split.
  - intros first info rest Hrv Hunset Hst Hall Hsorted.
    inversion Hall as [| ? ? Hno Hall']; subst. simpl in Hno.
    destruct (OnFrameReceived_NoSignal_callback this first info w cb Hcb Hp Hno)
      as (w1 & Hrun & Hcb1).
    destruct (NoSignal_callback first cb w) as (Hl1 & Hr1 & Hp1 & Hs1).
    set (cb1 := fst (NoSignal first cb w)) in *.
    apply Qltb_lt in Hunset. rewrite Hunset in Hl1.
    assert (Hs1' : MediaState cb1 = MediaState cb).
    { rewrite Hs1, Hrv, Hl1. simpl.
      destruct (Qltb 2 (RoundDouble (CurrentTime first - CurrentTime first))) eqn:Hlate;
        [| done].
      apply Qltb_lt, RoundDouble_above_2 in Hlate. lra. }
    destruct (NoSignal_run this (CurrentTime first) rest w1 cb1 (CurrentTime first))
      as (w' & cb' & Hrest & Hcb' & Hfinal); try done; try congruence; try lra.
    { rewrite Hl1. lra. }
    exists w', cb'. simpl. rewrite Hrun. simpl. auto.
  - intros clock info Hrv Hno.
    destruct (OnFrameReceived_NoSignal_callback this clock info w cb Hcb Hp Hno)
      as (w' & Hrun & Hcb').
    destruct (NoSignal_callback clock cb w) as (_ & _ & _ & Hs).
    exists w', (fst (NoSignal clock cb w)). rewrite Hs, Hrv. auto.
Qed.

(** A no-signal heartbeat enqueues nothing, whatever buffers it carries. *)
Remark heartbeat_enqueues_nothing this clock info w cb :
  Heap w !! this = Some cb -> IsNoSignal info = true ->
  exists w', OnFrameReceived this clock info w = Some w' /\ TheSamples w' = TheSamples w.
Proof.
  intros Hcb Hno. destruct (MediaPlayer cb) eqn:Hp.
  - rewrite (OnFrameReceived_NoSignal _ _ _ _ _ Hcb Hp Hno).
    destruct (NoSignal clock cb w) as [cb1 w1] eqn:Hns. simpl.
    apply NoSignal_frame in Hns as (_ & Hs & _).
    eexists. split; [reflexivity |]. by rewrite TheSamples_store.
  - rewrite (OnFrameReceived_detached _ _ _ _ _ Hcb Hp). eauto.
Qed.

(** *** C3: field doubling *)

(** C3. A frame that carries an interlaced video buffer is processed in
    the [Playing] state (it reaches the block under
    [if (MediaState == EMediaState::Playing)]), the occupancy (queue length
    plus one) being below the tolerated capacity and the engine accepting
    samples on that buffer. Then exactly two samples are appended to the
    video queue, the
    even field and then the odd field; the time of the odd field is the
    time of the even field plus one interval of the frame rate; with a
    timecode on the frame, the odd field carries the timecode of the even
    field with its frame number incremented ([int32] arithmetic, so plus
    one below [INT32_MAX]); without one, neither field carries a
    timecode. *)
Theorem C3_field_doubling this clock info w cb buffer :
  Heap w !! this = Some cb ->
  ProcessedWhilePlaying cb info ->
  VideoBuffer info = Some buffer ->
  FieldDominance info = EFieldDominance.Interlaced ->
  VideoOccupancy info (TheSamples w)
    < int32 (MaxNumVideoFrameBuffer cb * ToleratedExtraMaxBufferCount) ->
  (forall s, tsBuffer s = buffer -> TextureSampleInitialize s = true) ->
  exists w' even odd,
    OnFrameReceived this clock info w = Some w'
    /\ VideoSamples (TheSamples w') = VideoSamples (TheSamples w) ++ [even; odd]
    /\ tsUseEvenLine even = Some true /\ tsUseEvenLine odd = Some false
    /\ tsTime odd
       = tsTime even + FromSeconds (AsInterval (VideoFrameRate (Super (Player w))))
    /\ if bHaveTimecode info then
         exists T, tsTimecode even = Some T /\ tsTimecode odd = Some (NextFrame T)
                   /\ (Frames T < INT32_MAX -> Frames (NextFrame T) = Frames T + 1)
       else tsTimecode even = None /\ tsTimecode odd = None.
Proof.
  intros Hcb (Hp & Hno & Hst) Hbuf Hint Hroom Hinit.
  destruct (OnFrameReceived_Playing _ clock info _ _ Hcb Hp Hno Hst)
    as (L & cb1 & w1 & cb2 & w2 & cb3 & w3 & Hrun & [Htime Htc] & Hf1 & Hp1
        & _ & HV1 & _ & _ & _ & _ & _ & _ & Ha & Hv).
  apply ReceiveAudio_frame in Ha as (Hf2 & Hc2 & Hvs2 & _).
  apply ReceiveVideo_frame in Hv as (_ & _ & _ & _ & _ & _ & _ & Hvideo).
  destruct Hc2 as (_ & HV2 & _).
  assert (Hs : VideoSamples (TheSamples w2) = VideoSamples (TheSamples w)).
  { rewrite Hvs2. unfold TheSamples. by rewrite Hp1. }
  assert (Hocc : VideoOccupancy info (TheSamples w2) = VideoOccupancy info (TheSamples w)).
  { unfold VideoOccupancy, NumVideoSamples. by rewrite Hs. }
  rewrite <- Hocc, <- HV1, <- HV2 in Hroom.
  destruct Hvideo as [_ _ Hfull _ _ | buffer' Hbuf' _ _ Hnew | _ _ Hfull].
  - lia.
  - assert (buffer' = buffer) by congruence. subst buffer'.
    unfold NewVideoSamples, OfferedVideoSamples in Hnew.
    rewrite bool_decide_eq_true_2 in Hnew by exact Hint.
    simpl in Hnew. rewrite !Hinit in Hnew by reflexivity.
    eexists _, _, _. split; [exact Hrun |].
    rewrite TheSamples_store, Hnew, Hs. split; [reflexivity |].
    simpl. split_and!; try done.
    destruct (bHaveTimecode info).
    + destruct Htc as (T & -> & HT & ->). exists T. split_and!; try done.
      intros Hlt. simpl. apply int32_small.
      pose proof (int32_range (bmFrames (Timecode info))). unfold INT32_MAX in Hlt. lia.
    + by destruct Htc as [-> ->].
  - specialize (Hfull _ Hbuf). lia.
Qed.

(** *** Every call but [Open] and a successful [OnInitializationCompleted]
    lets the heap evolve *)

Lemma AddRef_evolves this w w' : AddRef this w = Some w' -> evolves w w'.
Proof.
  unfold AddRef. intros Hrun.
  destruct (Heap w !! this) as [cb|] eqn:Hcb; simplify_eq/=.
  eapply evolves_store; eauto; by destruct cb.
Qed.

Lemma Release_evolves this w w' : Release this w = Some w' -> evolves w w'.
Proof.
  unfold Release. intros Hrun.
  destruct (Heap w !! this) as [cb|] eqn:Hcb; simplify_eq/=.
  case_decide; simplify_eq.
  - eapply evolves_trans; [by apply evolves_delete |].
    apply evolves_heap. unfold emit. by autorewrite with world.
  - eapply evolves_store; eauto; by destruct cb.
Qed.

(** [Uninitialize] returns only if the object outlives its [Release]. *)
Lemma Uninitialize_inv this w w' :
  Uninitialize this w = Some w' ->
  exists cb,
    Heap w !! this = Some cb
    /\ is_Some (Heap w' !! this)
    /\ Release this
         (if IsValid (BlackmagicIdendifier (set_MediaPlayer false cb))
          then store this
                 (set_BlackmagicIdendifier None
                    (set_MediaState EMediaState.Stopped (set_MediaPlayer false cb)))
                 (emit (SdkUnregister (ChannelInfo (set_MediaPlayer false cb))
                          (BlackmagicIdendifier (set_MediaPlayer false cb)))
                    (set_Sdk (UnregisterCallbackForChannel
                                (ChannelInfo (set_MediaPlayer false cb))
                                (BlackmagicIdendifier (set_MediaPlayer false cb)) (Sdk w)) w))
          else store this (set_MediaPlayer false cb) w)
       = Some w'.
Proof.
  unfold Uninitialize. intros Hrun.
  destruct (Heap w !! this) as [cb|] eqn:Hcb; [| done].
  cbn [mbind option_bind] in Hrun. cbv zeta in Hrun. exists cb. split; [done |].
  destruct (IsValid (BlackmagicIdendifier (set_MediaPlayer false cb)));
    match type of Hrun with
    | (Release this ?x ≫= _) = _ => destruct (Release this x) as [w1|] eqn:Hrel
    end; try done; cbn [mbind option_bind] in Hrun;
    destruct (Heap w1 !! this) as [cb1|] eqn:Hcb1; try done;
    cbn [mbind option_bind] in Hrun; inversion Hrun; subst w1; eauto.
Qed.

Lemma Uninitialize_evolves this w w' : Uninitialize this w = Some w' -> evolves w w'.
Proof.
  intros Hrun. destruct (Uninitialize_inv _ _ _ Hrun) as (cb & Hcb & _ & Hrel).
  case_match.
  - eapply evolves_trans; [| eapply Release_evolves; exact Hrel].
    eapply evolves_store; eauto; try (by destruct cb).
    unfold emit. by autorewrite with world.
  - eapply evolves_trans; [| eapply Release_evolves; exact Hrel].
    eapply evolves_store; eauto; by destruct cb.
Qed.

Lemma OnFrameReceived_evolves this clock info w w' :
  OnFrameReceived this clock info w = Some w' -> evolves w w'.
Proof.
  intros Hrun.
  destruct (Heap w !! this) as [cb|] eqn:Hcb;
    [| unfold OnFrameReceived in Hrun; by rewrite Hcb in Hrun].
  destruct (OnFrameReceived_Received this clock info w cb Hcb) as (w1 & cb1 & Hrun1 & HR).
  assert (w1 = w') by congruence. subst w1.
  intros l c Hl. destruct (decide (l = this)) as [-> | Hne].
  - rewrite (received_callback _ _ _ _ _ _ HR) in Hl. inversion Hl; subst c.
    exists cb. split; [done |].
    pose proof (received_MediaPlayer _ _ _ _ _ _ HR).
    destruct (received_MediaState _ _ _ _ _ _ HR); split; congruence.
  - rewrite (received_others _ _ _ _ _ _ HR) in Hl by done. eauto.
Qed.

Lemma VerifyFrameDropCount_GameThread_evolves this InUrl w w' :
  VerifyFrameDropCount_GameThread this InUrl w = Some w' -> evolves w w'.
Proof.
  intros Hrun.
  destruct (Heap w !! this) as [cb|] eqn:Hcb;
    [| unfold VerifyFrameDropCount_GameThread in Hrun; by rewrite Hcb in Hrun].
  destruct (MediaPlayer cb) eqn:Hp;
    [| unfold VerifyFrameDropCount_GameThread in Hrun; rewrite Hcb in Hrun; simpl in Hrun;
       by rewrite Hp in Hrun].
  destruct (VerifyFrameDropCount_GameThread_spec this InUrl w cb Hcb Hp)
    as (w1 & Hrun1 & _ & _ & _ & _ & Ho & Hthis).
  assert (w1 = w') by congruence. subst w1.
  intros l c Hl. destruct (decide (l = this)) as [-> | Hne].
  - destruct (bVerifyFrameDropCount (Player w)).
    + destruct Hthis as [Hthis _]. rewrite Hthis in Hl. inversion Hl; subst c.
      exists cb. split; [done |]. by destruct cb.
    + destruct Hthis as [Hthis _]. rewrite Hthis in Hl. eauto.
  - rewrite Ho in Hl by done. eauto.
Qed.

Lemma Close_evolves w w' : Close w = Some w' -> evolves w w'.
Proof.
  unfold Close. intros Hrun.
  destruct (EventCallback (Player w)) as [callback|].
  - destruct (Uninitialize callback w) as [w1|] eqn:Hun; simplify_eq/=.
    eapply evolves_trans; [eapply Uninitialize_evolves; exact Hun |].
    apply evolves_heap. by autorewrite with world.
  - simplify_eq/=. apply evolves_heap. by autorewrite with world.
Qed.

Lemma UpdatePlayerState_evolves NewState w w' :
  UpdatePlayerState NewState w = Some w' -> evolves w w'.
Proof.
  unfold UpdatePlayerState. intros Hrun.
  case_bool_decide; [| simplify_eq; apply evolves_refl].
  case_bool_decide; [| case_bool_decide]; simplify_eq.
  - apply evolves_heap. unfold ReceiveMediaEvent, emit. by autorewrite with world.
  - eapply evolves_trans; [| eapply Close_evolves; exact Hrun].
    apply evolves_heap. unfold ReceiveMediaEvent, emit. by autorewrite with world.
  - apply evolves_heap. by autorewrite with world.
Qed.

Lemma TickInput_evolves w w' : TickInput w = Some w' -> evolves w w'.
Proof.
  unfold TickInput. intros Hrun.
  destruct (match EventCallback (Player w) with
            | Some callback => GetMediaState callback w
            | None => Some EMediaState.Closed
            end) as [NewState|]; [| done].
  cbn [mbind option_bind] in Hrun.
  destruct (UpdatePlayerState NewState w) as [w1|] eqn:Hsync; [| done].
  cbn [mbind option_bind] in Hrun.
  apply UpdatePlayerState_evolves in Hsync.
  case_bool_decide; simplify_eq; [done |].
  eapply evolves_trans; [exact Hsync |]. apply evolves_heap. by autorewrite with world.
Qed.

Lemma TickFetch_evolves w w' : TickFetch w = Some w' -> evolves w w'.
Proof.
  unfold TickFetch, ProcessFrame, VerifyFrameDropCount. intros Hrun.
  destruct (IsHardwareReady w) as [[|]|]; simplify_eq/=; [| apply evolves_refl].
  destruct (EventCallback (Player w)) as [callback|] eqn:Hec; simplify_eq/=.
  destruct (Heap w !! callback) as [cb|]; simplify_eq/=.
  match type of Hrun with
  | (?m ≫= _) = _ => destruct m as [callback'|] eqn:Hec'; simplify_eq/=
  end.
  eapply evolves_trans; [| eapply VerifyFrameDropCount_GameThread_evolves; exact Hrun].
  apply evolves_heap. by autorewrite with world.
Qed.

Lemma OnInitializationCompleted_false_evolves this w w' :
  OnInitializationCompleted this false w = Some w' -> evolves w w'.
Proof.
  unfold OnInitializationCompleted. intros Hrun.
  destruct (Heap w !! this) as [cb|] eqn:Hcb; simplify_eq/=.
  eapply evolves_store; eauto; by destruct cb.
Qed.

Lemma OnShutdownCompleted_evolves this w w' :
  OnShutdownCompleted this w = Some w' -> evolves w w'.
Proof.
  unfold OnShutdownCompleted. intros Hrun.
  destruct (Heap w !! this) as [cb|] eqn:Hcb; simplify_eq/=.
  eapply evolves_store; eauto; by destruct cb.
Qed.

Lemma OnFrameFormatChanged_evolves this w w' :
  OnFrameFormatChanged this w = Some w' -> evolves w w'.
Proof.
  unfold OnFrameFormatChanged. intros Hrun.
  destruct (Heap w !! this) as [cb|] eqn:Hcb; simplify_eq/=.
  eapply evolves_store; eauto; try (by destruct cb).
  unfold emit. by autorewrite with world.
Qed.

Lemma OnInterlacedOddFieldEvent_evolves this w w' :
  OnInterlacedOddFieldEvent this w = Some w' -> evolves w w'.
Proof.
  unfold OnInterlacedOddFieldEvent. intros Hrun.
  destruct (Heap w !! this) as [cb|] eqn:Hcb; simplify_eq/=. apply evolves_refl.
Qed.

Lemma Initialize_evolves this o e a v g w r w' :
  Initialize this o e a v g w = Some (r, w') -> evolves w w'.
Proof.
  unfold Initialize. intros Hrun.
  destruct (AddRef this w) as [w1|] eqn:H1; [| done]. cbn [mbind option_bind] in Hrun.
  destruct (Heap w1 !! this) as [cb1|] eqn:Hcb1; [| done]. cbn [mbind option_bind] in Hrun.
  match type of Hrun with
  | (AddRef this ?x ≫= _) = _ => set (w2 := x) in *; destruct (AddRef this w2) as [w3|] eqn:H3
  end; [| done].
  cbn [mbind option_bind] in Hrun.
  destruct (Heap w3 !! this) as [cb3|] eqn:Hcb3; [| done]. cbn [mbind option_bind] in Hrun.
  destruct (RegisterCallbackForChannel (ChannelInfo cb3) o this (Sdk w3)) as [[id taken] sdk].
  match type of Hrun with
  | (Release this ?x ≫= _) = _ => set (w4 := x) in *; destruct (Release this w4) as [w5|] eqn:H5
  end; [| done].
  cbn [mbind option_bind] in Hrun. inversion Hrun; subst.
  eapply evolves_trans; [eapply AddRef_evolves; exact H1 |].
  eapply evolves_trans; [| eapply evolves_trans;
                             [eapply AddRef_evolves; exact H3 |
                              eapply evolves_trans; [| eapply Release_evolves; exact H5]]].
  - eapply evolves_store; eauto; by destruct cb1.
  - eapply evolves_store; eauto.
    + unfold emit. by autorewrite with world.
    + by destruct cb3.
    + destruct cb3, (IsValid id); simpl; discriminate.
Qed.

Lemma alloc_no_new_Playing this cb w :
  MediaState cb <> EMediaState.Playing -> no_new_Playing w (store this cb w).
Proof.
  intros Hst l c Hl Hs. rewrite Heap_store in Hl.
  destruct (decide (this = l)) as [-> | Hne].
  - rewrite lookup_insert_eq in Hl. congruence.
  - rewrite lookup_insert_ne in Hl by done. eauto.
Qed.

Lemma no_new_Playing_heap w w' : Heap w' = Heap w -> no_new_Playing w w'.
Proof. intros Heq. by apply evolves_no_new_Playing, evolves_heap. Qed.

Lemma Open_no_new_Playing Url Options w r w' :
  Open Url Options w = Some (r, w') -> no_new_Playing w w'.
Proof.
  unfold Open. intros Hrun.
  destruct (bIsInitialized w); simpl in Hrun;
    [| inversion Hrun; subst; apply no_new_Playing_heap; unfold emit;
       by autorewrite with world].
  destruct (bCanUseBlackmagicCard w); simpl in Hrun;
    [| inversion Hrun; subst; apply no_new_Playing_heap; unfold emit;
       by autorewrite with world].
  destruct (SuperOpen Url Options (Super (Player w))) as [[opened base] sent].
  set (w0 := call_Super (base, sent) w) in *.
  assert (H0 : no_new_Playing w w0)
    by (apply no_new_Playing_heap; unfold w0; by autorewrite with world).
  clearbody w0.
  destruct opened; simpl in Hrun; [| by inversion Hrun; subst].
  destruct (EventCallback (Player w0)); simpl in Hrun; [done |].
  set (this := fresh (dom (Heap w0))) in *.
  match type of Hrun with
  | (Initialize this ?o ?e ?a ?v ?g ?x ≫= _) = _ =>
      set (w1 := x) in *; destruct (Initialize this o e a v g w1) as [[ok w2]|] eqn:Hinit
  end; [| done].
  cbn [mbind option_bind] in Hrun.
  assert (H1 : no_new_Playing w0 w1).
  { eapply no_new_Playing_trans;
      [apply (alloc_no_new_Playing this
                (new_FBlackmagicMediaPlayerEventCallback
                   {| DeviceIndex :=
                        int32 (GetMediaOption_int64 Options
                                 BlackmagicMediaOption.DeviceIndex 0) |}));
       discriminate |].
    apply no_new_Playing_heap. unfold w1. by autorewrite with world. }
  apply Initialize_evolves, evolves_no_new_Playing in Hinit.
  destruct ok; simpl in Hrun.
  - inversion Hrun; subst. eauto using no_new_Playing_trans.
  - destruct (Uninitialize this w2) as [w3|] eqn:Hun; [| done].
    cbn [mbind option_bind] in Hrun. inversion Hrun; subst.
    apply Uninitialize_evolves, evolves_no_new_Playing in Hun.
    eapply no_new_Playing_trans; [| apply no_new_Playing_heap; by autorewrite with world].
    eauto using no_new_Playing_trans.
Qed.

(** *** C10: the only way into [Playing] *)

(** C10. Whatever the SDK calls on a callback object and whatever the host
    calls on the player, a callback object that is in the [Playing] state
    afterwards was in it before, unless the call is
    [OnInitializationCompleted(true)] on that object. A received frame
    leaves the state as it was or sets [Error]; a format change sets
    [Error]; the completed shutdown sets [Closed]; a failed initialisation
    sets [Error] and a successful one [Playing]. *)
Theorem C10_Playing_only_by_OnInitializationCompleted :
  (forall c w w' this cb',
     step c w = Some w' ->
     Heap w' !! this = Some cb' -> MediaState cb' = EMediaState.Playing ->
     (exists cb, Heap w !! this = Some cb /\ MediaState cb = EMediaState.Playing)
     \/ c = SdkOnInitializationCompleted this true)
  /\ (forall this clock info w cb,
        Heap w !! this = Some cb ->
        exists w' cb', OnFrameReceived this clock info w = Some w'
                       /\ Heap w' !! this = Some cb'
                       /\ (MediaState cb' = MediaState cb
                           \/ MediaState cb' = EMediaState.Error))
  /\ (forall this w cb,
        Heap w !! this = Some cb ->
        exists w' cb', OnFrameFormatChanged this w = Some w'
                       /\ Heap w' !! this = Some cb'
                       /\ MediaState cb' = EMediaState.Error)
  /\ (forall this w cb,
        Heap w !! this = Some cb ->
        exists w' cb', OnShutdownCompleted this w = Some w'
                       /\ Heap w' !! this = Some cb'
                       /\ MediaState cb' = EMediaState.Closed)
  /\ (forall this bSuccess w cb,
        Heap w !! this = Some cb ->
        exists w' cb', OnInitializationCompleted this bSuccess w = Some w'
                       /\ Heap w' !! this = Some cb'
                       /\ MediaState cb'
                          = if bSuccess then EMediaState.Playing else EMediaState.Error).
Proof.
  split_and!.
  - intros c w w' this cb' Hstep Hl Hs.
    assert (Hno : no_new_Playing w w' -> 
                  exists cb, Heap w !! this = Some cb /\ MediaState cb = EMediaState.Playing)
      by (intros Hno; exact (Hno _ _ Hl Hs)).
    destruct c as [l | l | l [|] | l | l clock info | l | l | Url Options | | | ];
      simpl in Hstep;
      try (left; apply Hno, evolves_no_new_Playing;
           eauto using AddRef_evolves, Release_evolves, OnInitializationCompleted_false_evolves,
             OnShutdownCompleted_evolves, OnFrameReceived_evolves,
             OnFrameFormatChanged_evolves, OnInterlacedOddFieldEvent_evolves,
             Close_evolves, TickInput_evolves, TickFetch_evolves; fail).
    + (* OnInitializationCompleted(true) *)
      destruct (decide (l = this)) as [-> | Hne]; [by right | left].
      unfold OnInitializationCompleted in Hstep.
      destruct (Heap w !! l) as [cb|] eqn:Hcb; simplify_eq/=.
      rewrite Heap_store, lookup_insert_ne in Hl by done. eauto.
    + (* Open *)
      destruct (Open Url Options w) as [[r w1]|] eqn:Hopen; simplify_eq/=.
      left. apply Hno. eapply Open_no_new_Playing; eauto.
  - intros this clock info w cb Hcb.
    destruct (OnFrameReceived_Received this clock info w cb Hcb) as (w' & cb' & Hrun & HR).
    exists w', cb'. split_and!; [done | apply HR | apply HR].
  - intros this w cb Hcb. unfold OnFrameFormatChanged. rewrite Hcb. simpl.
    eexists _, _. split; [reflexivity |]. rewrite Heap_store, lookup_insert_eq.
    split; [reflexivity | by destruct cb].
  - intros this w cb Hcb. unfold OnShutdownCompleted. rewrite Hcb. simpl.
    eexists _, _. split; [reflexivity |]. rewrite Heap_store, lookup_insert_eq.
    split; [reflexivity | by destruct cb].
  - intros this bSuccess w cb Hcb. unfold OnInitializationCompleted. rewrite Hcb. simpl.
    eexists _, _. split; [reflexivity |]. rewrite Heap_store, lookup_insert_eq.
    split; [reflexivity | by destruct cb, bSuccess].
Qed.

(** *** C5: a callback after [Uninitialize] *)

Lemma evolves_stays_detached w w' : evolves w w' -> stays_detached w w'.
Proof. intros He this cb' Hl. destruct (He _ _ Hl) as (cb & ? & ? & _). eauto. Qed.

Lemma step_stays_detached c w w' :
  constructs c = false -> step c w = Some w' -> stays_detached w w'.
Proof.
  intros Hc Hstep.
  destruct c as [l | l | l [|] | l | l clock info | l | l | Url Options | | | ];
    simpl in Hstep; try discriminate;
    try (apply evolves_stays_detached;
         eauto using AddRef_evolves, Release_evolves, OnInitializationCompleted_false_evolves,
           OnShutdownCompleted_evolves, OnFrameReceived_evolves,
           OnFrameFormatChanged_evolves, OnInterlacedOddFieldEvent_evolves,
           Close_evolves, TickInput_evolves, TickFetch_evolves; fail).
  unfold OnInitializationCompleted in Hstep.
  destruct (Heap w !! l) as [cb|] eqn:Hcb; simplify_eq/=.
  intros this cb' Hl. rewrite Heap_store in Hl.
  destruct (decide (l = this)) as [-> | Hne].
  - rewrite lookup_insert_eq in Hl. inversion Hl; subst. exists cb. split; [done |].
    by destruct cb.
  - rewrite lookup_insert_ne in Hl by done. eauto.
Qed.

Lemma run_stays_detached calls : forall w w',
  Forall (fun c => constructs c = false) calls -> run calls w = Some w' ->
  stays_detached w w'.
Proof.
  induction calls as [| c calls IH]; intros w w' Hall Hrun; simpl in Hrun.
  - simplify_eq. intros this cb' Hl. eauto.
  - inversion Hall; subst.
    destruct (step c w) as [w1|] eqn:Hstep; [| done]. cbn [mbind option_bind] in Hrun.
    intros this cb' Hl.
    destruct (IH _ _ ltac:(done) Hrun _ _ Hl) as (cb1 & Hl1 & Hp1).
    destruct (step_stays_detached _ _ _ ltac:(done) Hstep _ _ Hl1) as (cb & Hl0 & Hp0).
    eauto.
Qed.

Lemma Release_lookup this w w' cb' :
  Release this w = Some w' -> Heap w' !! this = Some cb' ->
  exists cb n, Heap w !! this = Some cb /\ cb' = set_RefCounter n cb.
Proof.
  unfold Release. intros Hrun Hl.
  destruct (Heap w !! this) as [cb|] eqn:Hcb; simplify_eq/=.
  case_decide; simplify_eq.
  - unfold emit in Hl. autorewrite with world in Hl. by rewrite lookup_delete_eq in Hl.
  - rewrite Heap_store, lookup_insert_eq in Hl. inversion Hl. eauto.
Qed.

Lemma Uninitialize_detaches this w w' cb' :
  Uninitialize this w = Some w' -> Heap w' !! this = Some cb' ->
  MediaPlayer cb' = false /\ BlackmagicIdendifier cb' = None.
Proof.
  intros Hrun Hl. destruct (Uninitialize_inv _ _ _ Hrun) as (cb & Hcb & _ & Hrel).
  destruct (IsValid (BlackmagicIdendifier (set_MediaPlayer false cb))) eqn:Hid;
    destruct (Release_lookup _ _ _ _ Hrel Hl) as (cb1 & n & Hl1 & ->);
    rewrite Heap_store, lookup_insert_eq in Hl1; inversion Hl1; subst cb1;
    destruct cb as [? [?|]]; simpl in *; done.
Qed.

(** C5. Once [Uninitialize] has run on a callback object, its
    back-reference to the player is null; and as long as the object lives,
    whatever the SDK and the host call in between (short of constructing
    a new callback object, which could take over the address), every
    [OnFrameReceived] on it returns at once and leaves the whole world as
    it was: queues, drop counters, media state and every other member. *)
Theorem C5_OnFrameReceived_after_Uninitialize this w w1 :
  Uninitialize this w = Some w1 ->
  (forall cb1, Heap w1 !! this = Some cb1 -> MediaPlayer cb1 = false)
  /\ forall calls w2 clock info,
       Forall (fun c => constructs c = false) calls ->
       run calls w1 = Some w2 ->
       is_Some (Heap w2 !! this) ->
       OnFrameReceived this clock info w2 = Some w2.
Proof.
  intros Hun. split.
  - intros cb1 Hl. by destruct (Uninitialize_detaches _ _ _ _ Hun Hl).
  - intros calls w2 clock info Hall Hrun [cb2 Hl2].
    destruct (run_stays_detached _ _ _ Hall Hrun _ _ Hl2) as (cb1 & Hl1 & Hkeep).
    destruct (Uninitialize_detaches _ _ _ _ Hun Hl1) as [Hnull _].
    eapply OnFrameReceived_detached; eauto.
Qed.

(** *** C6: the drop counters are reset when read *)

(** C6. With drop-count logging enabled, a call of
    [VerifyFrameDropCount_GameThread] prints the accumulated counts and
    leaves both drop counters at zero. The call that follows it at once
    computes, for each kind whose queue does not overflow, the count 0,
    and prints nothing when neither queue overflows. *)
Theorem C6_drop_counters_reset_on_read this InUrl w cb w1 :
  Heap w !! this = Some cb ->
  MediaPlayer cb = true ->
  bVerifyFrameDropCount (Player w) = true ->
  VerifyFrameDropCount_GameThread this InUrl w = Some w1 ->
  Trace w1 = Trace w ++ LostWarnings (AudioLostCount cb (TheSamples w))
                          (VideoLostCount cb (TheSamples w)) InUrl
  /\ exists cb1 w2,
       Heap w1 !! this = Some cb1
       /\ AudioFrameDropCount cb1 = 0 /\ VideoFrameDropCount cb1 = 0
       /\ VerifyFrameDropCount_GameThread this InUrl w1 = Some w2
       /\ Trace w2 = Trace w1 ++ LostWarnings (AudioLostCount cb1 (TheSamples w1))
                                  (VideoLostCount cb1 (TheSamples w1)) InUrl
       /\ (AudioOverflowCount cb1 (TheSamples w1) = 0 ->
           AudioLostCount cb1 (TheSamples w1) = 0)
       /\ (VideoOverflowCount cb1 (TheSamples w1) = 0 ->
           VideoLostCount cb1 (TheSamples w1) = 0)
       /\ (AudioOverflowCount cb1 (TheSamples w1) = 0 ->
           VideoOverflowCount cb1 (TheSamples w1) = 0 ->
           Trace w2 = Trace w1).
Proof.
  intros Hcb Hp Hlog Hrun.
  destruct (VerifyFrameDropCount_GameThread_spec this InUrl w cb Hcb Hp)
    as (w1' & Hrun' & _ & _ & _ & Hlog1 & _ & Hthis).
  assert (w1' = w1) by congruence. subst w1'.
  rewrite Hlog in Hthis, Hlog1. destruct Hthis as [Hcb1 Htrace]. split; [exact Htrace |].
  set (cb1 := set_VideoFrameDropCount 0 (set_AudioFrameDropCount 0 cb)) in *.
  assert (Hp1 : MediaPlayer cb1 = true) by (by destruct cb).
  assert (Ha0 : AudioFrameDropCount cb1 = 0) by (by destruct cb).
  assert (Hv0 : VideoFrameDropCount cb1 = 0) by (by destruct cb).
  destruct (VerifyFrameDropCount_GameThread_spec this InUrl w1 cb1 Hcb1 Hp1)
    as (w2 & Hrun2 & _ & _ & _ & _ & _ & Hthis2).
  rewrite Hlog1 in Hthis2. destruct Hthis2 as [_ Htrace2].
  assert (Ha : AudioOverflowCount cb1 (TheSamples w1) = 0 ->
               AudioLostCount cb1 (TheSamples w1) = 0).
  { intros Hno. unfold AudioLostCount. by rewrite Hno, Ha0. }
  assert (Hv : VideoOverflowCount cb1 (TheSamples w1) = 0 ->
               VideoLostCount cb1 (TheSamples w1) = 0).
  { intros Hno. unfold VideoLostCount. by rewrite Hno, Hv0. }
  exists cb1, w2. split_and!; try done.
  intros Hnoa Hnov. rewrite Htrace2, (Ha Hnoa), (Hv Hnov). apply app_nil_r.
Qed.

(** *** C8: the preconditions of [Open] *)

(** C8. When the vendor runtime is not initialised, or the card may not be
    used, [Open] returns [false] at once: the player, the heap of callback
    objects and the SDK are as before, and the only effect is one log
    line. *)
Theorem C8_Open_fails_fast Url Options w :
  bIsInitialized w = false \/ bCanUseBlackmagicCard w = false ->
  exists w' line,
    Open Url Options w = Some (false, w')
    /\ Player w' = Player w /\ Heap w' = Heap w /\ Sdk w' = Sdk w
    /\ bIsInitialized w' = bIsInitialized w
    /\ bCanUseBlackmagicCard w' = bCanUseBlackmagicCard w
    /\ Trace w' = Trace w ++ [line]
    /\ line = (if bIsInitialized w
               then UE_LOG ELogVerbosity.Warning (CardCannotBeUsed Url)
               else UE_LOG ELogVerbosity.Error (NotInitialized Url)).
Proof.
  intros Hpre. unfold Open.
  destruct (bIsInitialized w) eqn:Hinit; simpl.
  - destruct Hpre as [Hpre | Hpre]; [done |]. rewrite Hpre. simpl.
    eexists _, _. split; [reflexivity |].
    destruct w; simpl in *. split_and!; done.
  - eexists _, _. split; [reflexivity |].
    destruct w; simpl in *. split_and!; done.
Qed.

(** *** C9: [Close] twice *)

Lemma Release_total this w cb :
  Heap w !! this = Some cb ->
  exists w', Release this w = Some w' /\ Player w' = Player w
             /\ exists rest, Trace w' = Trace w ++ rest.
Proof.
  intros Hcb. unfold Release. rewrite Hcb. simpl.
  case_decide; eexists; (split; [reflexivity |]); unfold emit; autorewrite with world;
    (split; [done |]).
  - eauto.
  - exists []. by rewrite app_nil_r.
Qed.

(** *** [Uninitialize] and [Close], exactly *)

Lemma Unregistrations_UnregisterEffects cb :
  Unregistrations (UnregisterEffects cb)
  = (if IsValid (BlackmagicIdendifier cb)
     then [(ChannelInfo cb, BlackmagicIdendifier cb)] else [])
  /\ Registrations (UnregisterEffects cb) = []
  /\ forall e, In e (UnregisterEffects cb) -> forall this, e <> DeleteThis this.
Proof.
  unfold UnregisterEffects. destruct (IsValid (BlackmagicIdendifier cb)); simpl.
  - split_and!; try done. intros e [<- | []]. done.
  - split_and!; try done.
Qed.

(** [Uninitialize] on the last reference deletes the object and then
    releases the lock that was a member of it; otherwise it returns, the
    object detached, unregistered and one reference short. *)
Lemma Uninitialize_exact this w cb :
  Heap w !! this = Some cb ->
  if decide (int32 (RefCounter cb - 1) = 0)
  then Uninitialize this w = None
  else exists w',
         Uninitialize this w = Some w'
         /\ Player w' = Player w
         /\ Trace w' = Trace w ++ UnregisterEffects cb
         /\ Sdk w' = Unregistered cb (Sdk w)
         /\ Heap w' = <[this := Uninitialized cb]> (Heap w).
Proof.
  intros Hcb. unfold Uninitialize, Uninitialized, UnregisterEffects, Unregistered.
  rewrite Hcb. cbn [mbind option_bind]. cbv zeta. unfold Release.
  destruct cb as [r id info ? ? ? ? ? ? ? ? ? ? ? ? ? ? ? ? ? ?]. simpl.
  destruct id as [id|]; simpl;
    rewrite Heap_store, lookup_insert_eq; cbn [mbind option_bind]; simpl;
    destruct (decide (int32 (r - 1) = 0)) as [Hz | Hz].
  - cbn [mbind option_bind]. unfold emit. autorewrite with world.
    rewrite lookup_delete_eq. done.
  - cbn [mbind option_bind]. rewrite Heap_store, lookup_insert_eq.
    cbn [mbind option_bind]. eexists. split; [reflexivity |].
    unfold emit, store. open_world w. simpl. split_and!; try done.
    apply insert_insert_eq.
  - cbn [mbind option_bind]. unfold emit. autorewrite with world.
    rewrite lookup_delete_eq. done.
  - cbn [mbind option_bind]. rewrite Heap_store, lookup_insert_eq.
    cbn [mbind option_bind]. eexists. split; [reflexivity |].
    unfold emit, store. open_world w. simpl. rewrite app_nil_r. split_and!; try done.
    apply insert_insert_eq.
Qed.

Lemma Uninitialized_facts cb :
  MediaPlayer (Uninitialized cb) = false
  /\ BlackmagicIdendifier (Uninitialized cb) = None
  /\ RefCounter (Uninitialized cb) = int32 (RefCounter cb - 1)
  /\ MediaState (Uninitialized cb)
     = (if IsValid (BlackmagicIdendifier cb) then EMediaState.Stopped else MediaState cb)
  /\ ChannelInfo (Uninitialized cb) = ChannelInfo cb.
Proof. unfold Uninitialized. destruct cb as [? [?|]]; done. Qed.

Lemma Close_without_callback w :
  EventCallback (Player w) = None -> Close w = Some (CloseRest w).
Proof. intros Hnone. unfold Close. by rewrite Hnone. Qed.

Lemma Close_with_callback w this :
  EventCallback (Player w) = Some this ->
  Close w = w1 ← Uninitialize this w;
            Some (CloseRest (set_Player (set_EventCallback None (Player w1)) w1)).
Proof.
  intros Hsome. unfold Close. rewrite Hsome.
  by destruct (Uninitialize this w).
Qed.

Lemma CloseRest_frame w :
  EventCallback (Player (CloseRest w)) = EventCallback (Player w)
  /\ Heap (CloseRest w) = Heap w /\ Sdk (CloseRest w) = Sdk w
  /\ Trace (CloseRest w)
     = Trace w ++ (MediaEvent <$> snd (SuperClose (Super (Player w)))).
Proof. unfold CloseRest. by open_world w. Qed.

Lemma CloseRest_player w :
  Super (Player (CloseRest w)) = fst (SuperClose (Super (Player w)))
  /\ AudioSamplePool (Player (CloseRest w)) = PoolReset (AudioSamplePool (Player w))
  /\ TextureSamplePool (Player (CloseRest w)) = PoolReset (TextureSamplePool (Player w))
  /\ bVerifyFrameDropCount (Player (CloseRest w)) = bVerifyFrameDropCount (Player w).
Proof. unfold CloseRest, call_Super, emits. by open_world w. Qed.

Lemma Close_exact w this cb :
  EventCallback (Player w) = Some this ->
  Heap w !! this = Some cb ->
  int32 (RefCounter cb - 1) <> 0 ->
  exists w',
    Close w = Some w'
    /\ EventCallback (Player w') = None
    /\ Trace w'
       = Trace w ++ UnregisterEffects cb
         ++ (MediaEvent <$> snd (SuperClose (Super (Player w))))
    /\ Sdk w' = Unregistered cb (Sdk w)
    /\ Super (Player w') = fst (SuperClose (Super (Player w)))
    /\ AudioSamplePool (Player w') = PoolReset (AudioSamplePool (Player w))
    /\ TextureSamplePool (Player w') = PoolReset (TextureSamplePool (Player w))
    /\ Heap w' = <[this := Uninitialized cb]> (Heap w).
Proof.
  intros Hec Hcb Hr.
  pose proof (Uninitialize_exact this w cb Hcb) as Hun.
  rewrite decide_False in Hun by done.
  destruct Hun as (w1 & Hun & Hp1 & Ht1 & Hs1 & Hh1).
  rewrite (Close_with_callback w this Hec), Hun. cbn [mbind option_bind].
  set (w2 := set_Player (set_EventCallback None (Player w1)) w1).
  assert (H2 : EventCallback (Player w2) = None
               /\ Super (Player w2) = Super (Player w1)
               /\ AudioSamplePool (Player w2) = AudioSamplePool (Player w1)
               /\ TextureSamplePool (Player w2) = TextureSamplePool (Player w1)
               /\ Heap w2 = Heap w1 /\ Sdk w2 = Sdk w1 /\ Trace w2 = Trace w1)
    by (subst w2; by open_world w1).
  destruct H2 as (He2 & Hb2 & Hpa2 & Hpt2 & Hh2 & Hs2 & Ht2). clearbody w2.
  destruct (CloseRest_frame w2) as (He3 & Hh3 & Hs3 & Ht3).
  destruct (CloseRest_player w2) as (Hb3 & Hpa3 & Hpt3 & _).
  exists (CloseRest w2). split; [done |].
  rewrite He3, Ht3, Hs3, Hb3, Hpa3, Hpt3, Hh3, He2, Ht2, Hs2, Hb2, Hpa2, Hpt2, Hh2,
    Ht1, Hs1, Hp1, <- app_assoc.
  split_and!; done.
Qed.

Lemma Close_total w :
  callback_shared w ->
  exists w', Close w = Some w' /\ EventCallback (Player w') = None
             /\ exists rest, Trace w' = Trace w ++ rest.
Proof.
  intros Hshared. destruct (EventCallback (Player w)) as [this|] eqn:Hec.
  - destruct (Hshared this Hec) as (cb & Hcb & Hr).
    destruct (Close_exact w this cb Hec Hcb Hr) as (w' & Hclose & Hnone & Ht & _).
    exists w'. split_and!; eauto.
  - rewrite (Close_without_callback w Hec). eexists. split; [reflexivity |].
    destruct (CloseRest_frame w) as (-> & _ & _ & ->). eauto.
Qed.

(** C9. In every state of the player from which [Close] returns, it
    leaves no callback registered with the player, and a second [Close]
    returns too, runs no [Uninitialize] (the heap of callback objects and
    the SDK are untouched, nothing is unregistered, released or deleted,
    nothing is logged) and only repeats the pool resets and the base-class
    [Close]; when those two are idempotent, the world after the second call
    is the world after the first.  And [Close] does return on a player
    whose callback pointer is null, or refers to a live object that someone
    else references too (so that [Uninitialize] does not destroy it while
    holding its lock): if there was a callback, this first call has
    unregistered its channel (when it held a valid identifier) and dropped
    the player's reference, leaving the object detached. *)
Theorem C9_Close_idempotent w :
  (forall w1,
     Close w = Some w1 ->
     EventCallback (Player w1) = None
     /\ exists w2,
          Close w1 = Some w2
          /\ EventCallback (Player w2) = None
          /\ Heap w2 = Heap w1 /\ Sdk w2 = Sdk w1
          /\ (exists sent : list EMediaEvent.t, Trace w2 = Trace w1 ++ (MediaEvent <$> sent))
          /\ ((forall pool, PoolReset (PoolReset pool) = PoolReset pool) ->
              (forall base, SuperClose (fst (SuperClose base)) = (fst (SuperClose base), [])) ->
              w2 = w1))
  /\ (callback_shared w ->
      exists w1,
        Close w = Some w1
        /\ forall this cb,
             EventCallback (Player w) = Some this -> Heap w !! this = Some cb ->
             Sdk w1
             = (if IsValid (BlackmagicIdendifier cb)
                then UnregisterCallbackForChannel (ChannelInfo cb)
                       (BlackmagicIdendifier cb) (Sdk w)
                else Sdk w)
             /\ exists cb',
                  Heap w1 = <[this := cb']> (Heap w)
                  /\ MediaPlayer cb' = false
                  /\ BlackmagicIdendifier cb' = None
                  /\ RefCounter cb' = int32 (RefCounter cb - 1)).
Proof.
  split.
  - intros w1 Hclose.
    assert (Hshape : exists w0, EventCallback (Player w0) = None /\ w1 = CloseRest w0).
    { destruct (EventCallback (Player w)) as [this|] eqn:Hec0.
      - rewrite (Close_with_callback w this Hec0) in Hclose.
        destruct (Uninitialize this w) as [wu|]; simplify_eq/=.
        eexists. split; [| reflexivity]. by open_world wu.
      - rewrite (Close_without_callback w Hec0) in Hclose. simplify_eq. eauto. }
    destruct Hshape as (w0 & Hnone0 & ->).
    destruct (CloseRest_frame w0) as (Hec1 & _).
    assert (Hnone : EventCallback (Player (CloseRest w0)) = None) by congruence.
    split; [done |]. exists (CloseRest (CloseRest w0)).
    destruct (CloseRest_frame (CloseRest w0)) as (Hec & Hh & Hs & Ht).
    split_and!; try done; try congruence.
    + by apply Close_without_callback.
    + eauto.
    + intros Hpool Hbase.
      unfold CloseRest. open_world w0. simpl.
      rewrite !Hpool, Hbase. unfold call_Super, emits. simpl. by rewrite app_nil_r.
  - intros Hshared. destruct (Close_total w Hshared) as (w1 & Hclose & _).
    exists w1. split; [done |].
    intros this cb Hec0 Hcb.
    destruct (Hshared this Hec0) as (cb0 & Hcb0 & Hr).
    assert (cb0 = cb) as -> by congruence.
    destruct (Close_exact w this cb Hec0 Hcb Hr)
      as (w1' & Hclose' & _ & _ & Hs' & _ & _ & _ & Hh').
    assert (w1' = w1) as -> by congruence.
    destruct (Uninitialized_facts cb) as (Hp' & Hid' & Hrc' & _).
    split; [exact Hs' |]. exists (Uninitialized cb). split_and!; done.
Qed.

(** *** C7: the notifications of [TickInput] *)

(** C7. Let [TickInput] read a state that differs from the player's current
    state. If it is [Playing], [TickInput] returns and the event sink has
    received [TracksChanged], [MediaOpened], [PlaybackResumed] in this
    order, followed only by what the base-class [TickTimeManagement]
    sends; the callback stays registered. If it is [Error], read from a
    callback that someone else references too (so that it outlives the
    release of the player's reference), the sink receives
    [MediaOpenFailed] first; [Close] then runs on the player and returns:
    the channel is unregistered if the callback held a valid identifier,
    the callback object is left detached, without identifier and one
    reference short, and the base class is closed, its notifications
    coming last; when [TickInput] returns no callback is registered with
    the player. *)
Theorem C7_TickInput_notifications w NewState :
  ObservedState w = Some NewState ->
  NewState <> CurrentState (Super (Player w)) ->
  (NewState = EMediaState.Playing ->
     exists w',
       TickInput w = Some w'
       /\ EventCallback (Player w') = EventCallback (Player w)
       /\ Heap w' = Heap w /\ Sdk w' = Sdk w
       /\ Trace w'
          = Trace w ++ (MediaEvent <$> PlayingTrio)
            ++ (MediaEvent <$>
                  snd (TickTimeManagement
                         (set_CurrentState EMediaState.Playing (Super (Player w))))))
  /\ (NewState = EMediaState.Error ->
      forall this cb,
        EventCallback (Player w) = Some this ->
        Heap w !! this = Some cb ->
        int32 (RefCounter cb - 1) <> 0 ->
        exists closed w' sent,
          Close (ReceiveMediaEvent EMediaEvent.MediaOpenFailed
                   (with_Super (set_CurrentState EMediaState.Error) w)) = Some closed
          /\ TickInput w = Some w'
          /\ (w' = closed
              \/ w' = call_Super (TickTimeManagement (Super (Player closed))) closed)
          /\ EventCallback (Player w') = None
          /\ Trace w'
             = Trace w ++ MediaEvent EMediaEvent.MediaOpenFailed
                       :: (if IsValid (BlackmagicIdendifier cb)
                           then [SdkUnregister (ChannelInfo cb) (BlackmagicIdendifier cb)]
                           else [])
                       ++ (MediaEvent <$> sent)
          /\ Sdk w'
             = (if IsValid (BlackmagicIdendifier cb)
                then UnregisterCallbackForChannel (ChannelInfo cb)
                       (BlackmagicIdendifier cb) (Sdk w)
                else Sdk w)
          /\ exists cb',
               Heap w' = <[this := cb']> (Heap w)
               /\ MediaPlayer cb' = false
               /\ BlackmagicIdendifier cb' = None
               /\ RefCounter cb' = int32 (RefCounter cb - 1)).
Proof.
  unfold ObservedState. intros Hobs Hchanged. split; intros ->.
  - unfold TickInput. rewrite Hobs. cbn [mbind option_bind].
    unfold UpdatePlayerState.
    rewrite bool_decide_eq_true_2 by done.
    rewrite bool_decide_eq_true_2 by (by open_world w).
    cbn [mbind option_bind].
    rewrite bool_decide_eq_false_2 by (by open_world w; simpl; auto).
    eexists. split; [reflexivity |]. unfold PlayingTrio, call_Super, ReceiveMediaEvent, emit.
    open_world w. simpl. rewrite <- !app_assoc. split_and!; done.
  - intros this cb Hec Hcb Hr.
    set (w0 := ReceiveMediaEvent EMediaEvent.MediaOpenFailed
                 (with_Super (set_CurrentState EMediaState.Error) w)).
    assert (H0 : EventCallback (Player w0) = Some this /\ Heap w0 = Heap w
                 /\ Sdk w0 = Sdk w
                 /\ Trace w0 = Trace w ++ [MediaEvent EMediaEvent.MediaOpenFailed]).
    { rewrite <- Hec. subst w0. by open_world w. }
    destruct H0 as (He0 & Hh0 & Hs0 & Ht0).
    destruct (Close_exact w0 this cb He0 ltac:(by rewrite Hh0) Hr)
      as (closed & Hclose & Hnone & Htc & Hsc & _ & _ & _ & Hhc).
    destruct (Uninitialized_facts cb) as (Hp' & Hid' & Hrc' & _).
    assert (Hsync : UpdatePlayerState EMediaState.Error w = Some closed).
    { unfold UpdatePlayerState.
      rewrite bool_decide_eq_true_2 by done.
      rewrite bool_decide_eq_false_2 by (by open_world w).
      rewrite bool_decide_eq_true_2 by done. exact Hclose. }
    unfold TickInput. rewrite Hobs. cbn [mbind option_bind].
    rewrite Hsync. cbn [mbind option_bind].
    unfold UnregisterEffects in Htc. unfold Unregistered in Hsc.
    rewrite Ht0, Hs0, <- !app_assoc in *. rewrite Hh0 in Hhc. simpl in Htc.
    case_bool_decide.
    + exists closed, closed, (snd (SuperClose (Super (Player w0)))).
      split_and!; try done; auto.
      exists (Uninitialized cb). split_and!; done.
    + eexists closed, _,
        (snd (SuperClose (Super (Player w0)))
         ++ snd (TickTimeManagement (Super (Player closed)))).
      split_and!; try done; auto.
      * unfold call_Super. autorewrite with world. by destruct (Player closed).
      * unfold call_Super. autorewrite with world.
        rewrite Htc, fmap_app, <- !app_assoc. simpl. by rewrite <- !app_assoc.
      * unfold call_Super. by autorewrite with world.
      * exists (Uninitialized cb). split_and!; try done.
        unfold call_Super. by autorewrite with world.
Qed.

(** *** C4: the audio sample and the audio track format *)

(** C4 as the code has it. A callback attached to its player and in the
    [Playing] state receives a frame with an audio buffer of
    [AudioBufferSize] bytes, the audio queue being below the tolerated
    capacity and the engine accepting samples on that buffer. Then one
    audio sample is enqueued, of [AudioBufferSize / 4] samples, with the
    channel count and sample rate of the frame; and
    [UpdateAudioTrackFormat] then reports those two, and as
    [BitsPerSample] the value [sizeof(int32)], that is 4 and not 32.
    The three numbers are what the conversions of the code make of them
    (the division is done in [size_t], the sample and the members hold
    [uint32]); for a size, a channel count and a rate that are not
    negative and fit 32 bits they are the numbers of the frame. *)
Theorem C4_audio_sample_and_track_format this clock info w cb buffer Out :
  Heap w !! this = Some cb ->
  MediaPlayer cb = true ->
  MediaState cb = EMediaState.Playing ->
  AudioBuffer info = Some buffer ->
  NumAudioSamples (TheSamples w)
    < int32 (MaxNumAudioFrameBuffer cb * ToleratedExtraMaxBufferCount) ->
  (forall a, asBuffer a = buffer -> AudioSampleInitialize a = true) ->
  exists w' cb' a,
    OnFrameReceived this clock info w = Some w'
    /\ Heap w' !! this = Some cb'
    /\ AudioSamples (TheSamples w') = AudioSamples (TheSamples w) ++ [a]
    /\ asBufferSize a = uint32 (size_t (AudioBufferSize info) / 4)
    /\ asNumberOfChannels a = uint32 (fiNumberOfAudioChannel info)
    /\ asSampleRate a = uint32 (AudioRate info)
    /\ UpdateAudioTrackFormat cb' Out
       = {| BitsPerSample := 4;
            NumChannels := uint32 (fiNumberOfAudioChannel info);
            SampleRate := uint32 (AudioRate info) |}
    /\ BitsPerSample (UpdateAudioTrackFormat cb' Out) <> 32
    /\ (0 <= AudioBufferSize info < 2 ^ 32 ->
        asBufferSize a = AudioBufferSize info / 4)
    /\ (0 <= fiNumberOfAudioChannel info < 2 ^ 32 ->
        asNumberOfChannels a = fiNumberOfAudioChannel info
        /\ NumChannels (UpdateAudioTrackFormat cb' Out) = fiNumberOfAudioChannel info)
    /\ (0 <= AudioRate info < 2 ^ 32 ->
        asSampleRate a = AudioRate info
        /\ SampleRate (UpdateAudioTrackFormat cb' Out) = AudioRate info).
Proof.
  intros Hcb Hp Hst Hbuf Hroom Hinit.
  assert (Hno : IsNoSignal info = false).
  { unfold IsNoSignal. rewrite Hbuf. simpl. apply andb_false_r. }
  destruct (OnFrameReceived_Playing _ clock info _ _ Hcb Hp Hno Hst)
    as (L & cb1 & w1 & cb2 & w2 & cb3 & w3 & Hrun & _ & _ & Hp1
        & HA1 & _ & _ & _ & _ & _ & _ & _ & Ha & Hv).
  apply ReceiveAudio_frame in Ha as (_ & _ & _ & _ & _ & Haudio).
  apply ReceiveVideo_frame in Hv as (_ & _ & Has3 & _ & Hb3 & Hc3 & Hr3 & _).
  assert (Hs1 : TheSamples w1 = TheSamples w) by (unfold TheSamples; by rewrite Hp1).
  rewrite <- Hs1, <- HA1 in Hroom.
  destruct Haudio as [_ _ Hfull | buffer' Hbuf' _ _ _ Hnew Hbits Hch Hrate | _ _ _ _ _ Hfail].
  - lia.
  - assert (buffer' = buffer) by congruence. subst buffer'.
    eexists _, cb3, _. split; [exact Hrun |].
    rewrite TheSamples_store, Has3, Hnew, Hs1, Heap_store, lookup_insert_eq.
    unfold UpdateAudioTrackFormat. rewrite Hb3, Hc3, Hr3, Hbits, Hch, Hrate.
    simpl. split_and!; try done.
    + intros Hsize. unfold AudioSampleOf, sizeof_int32. simpl.
      rewrite size_t_small by lia. apply uint32_small.
      pose proof (Z.div_pos (AudioBufferSize info) 4 ltac:(lia) ltac:(lia)).
      pose proof (Z.div_le_upper_bound (AudioBufferSize info) 4 (2 ^ 30) ltac:(lia)
                    ltac:(lia)). lia.
    + intros Hch'. unfold AudioSampleOf. simpl. by rewrite uint32_small.
    + intros Hrate'. unfold AudioSampleOf. simpl. by rewrite uint32_small.
  - pose proof (Hfail _ Hbuf Hroom) as Hrefused.
    rewrite Hinit in Hrefused by reflexivity. done.
Qed.

(** *** More on the queues *)

(** X1. Queues that start within the tolerated capacity (twice the soft
    maximum) stay within it, whatever frames are received. *)
Theorem X1_tolerated_capacity_is_kept this frames w cb :
  Heap w !! this = Some cb ->
  sound_maximum (MaxNumAudioFrameBuffer cb) ->
  sound_maximum (MaxNumVideoFrameBuffer cb) ->
  NumAudioSamples (TheSamples w) <= 2 * MaxNumAudioFrameBuffer cb ->
  NumVideoSamples (TheSamples w) <= 2 * MaxNumVideoFrameBuffer cb ->
  exists w',
    ReceiveFrames this frames w = Some w'
    /\ NumAudioSamples (TheSamples w') <= 2 * MaxNumAudioFrameBuffer cb
    /\ NumVideoSamples (TheSamples w') <= 2 * MaxNumVideoFrameBuffer cb.
Proof.
  intros Hcb HA HV Hna Hnv.
  destruct (ReceiveFrames_invariant this frames w cb
              (2 * MaxNumAudioFrameBuffer cb) (2 * MaxNumVideoFrameBuffer cb))
    as (w' & cb' & Hrun & _ & _ & _ & _ & Hna' & Hnv'); try done; try lia.
  { unfold sound_maximum, INT32_MAX in *. lia. }
  eauto.
Qed.

(** While drop-count verification is off, no frame moves a drop counter. *)
Lemma ReceiveFrames_counters_off this frames : forall w cb,
  Heap w !! this = Some cb ->
  bVerifyFrameDropCount (Player w) = false ->
  exists w' cb',
    ReceiveFrames this frames w = Some w' /\ Heap w' !! this = Some cb'
    /\ AudioFrameDropCount cb' = AudioFrameDropCount cb
    /\ VideoFrameDropCount cb' = VideoFrameDropCount cb.
Proof.
  induction frames as [| [clock info] rest IH]; intros w cb Hcb Hoff.
  - exists w, cb. simpl. auto.
  - destruct (OnFrameReceived_Received this clock info w cb Hcb) as (w1 & cb1 & Hrun & HR).
    destruct (received_audio _ _ _ _ _ _ HR) as [[Ha | (_ & _ & Hon & _)] _]; [| congruence].
    destruct (received_video _ _ _ _ _ _ HR) as [[Hv | (_ & _ & Hon & _)] _]; [| congruence].
    destruct (IH w1 cb1) as (w' & cb' & Hrest & Hcb' & Ha' & Hv').
    { apply HR. }
    { rewrite (received_bVerify _ _ _ _ _ _ HR). exact Hoff. }
    exists w', cb'. simpl. rewrite Hrun. simpl. split_and!; try done; congruence.
Qed.

(** X3. With drop-count verification disabled ([bVerifyFrameDropCount]
    false), both drop counters keep their value over any sequence of
    received frames: overflow at tolerated capacity is then not counted. *)
Theorem X3_no_drop_count_without_verification this frames w cb :
  Heap w !! this = Some cb ->
  bVerifyFrameDropCount (Player w) = false ->
  exists w' cb',
    ReceiveFrames this frames w = Some w' /\ Heap w' !! this = Some cb'
    /\ AudioFrameDropCount cb' = AudioFrameDropCount cb
    /\ VideoFrameDropCount cb' = VideoFrameDropCount cb.
Proof. apply ReceiveFrames_counters_off. Qed.

(** *** [OnFrameReceived] in the [Playing] state, block by block *)

Lemma OnFrameReceived_Playing_blocks this clock info w cb :
  Heap w !! this = Some cb -> MediaPlayer cb = true -> IsNoSignal info = false ->
  MediaState cb = EMediaState.Playing ->
  exists L cb1 w1 cb2 w2 cb3 w3,
    ReceiveTimecode clock info
      {| DecodedTime := FromSeconds (PlatformSeconds clock);
         DecodedTimeF2 := FromSeconds (PlatformSeconds clock)
                          + FromSeconds (AsInterval (VideoFrameRate (Super (Player w))));
         DecodedTimecode := None; DecodedTimecodeF2 := None |}
      (set_bReceivedValidFrame (bReceivedValidFrame cb || bHasInputSource info) cb) w
    = (L, cb1, w1)
    /\ ReceiveAudio info L cb1 w1 = (cb2, w2)
    /\ ReceiveVideo info L cb2 w2 = (cb3, w3)
    /\ OnFrameReceived this clock info w = Some (store this cb3 w3).
Proof.
  intros Hcb Hp Hno Hst. unfold OnFrameReceived, IsNoSignal in *.
  rewrite Hcb. simpl. rewrite Hp, Hno. simpl.
  rewrite bool_decide_eq_true_2 by (by destruct cb).
  match goal with
  | |- context [ReceiveTimecode ?c ?i ?L ?b ?w] =>
      destruct (ReceiveTimecode c i L b w) as [[L1 cb1] w1] eqn:Htc
  end.
  destruct (ReceiveAudio info L1 cb1 w1) as [cb2 w2] eqn:Ha.
  destruct (ReceiveVideo info L1 cb2 w2) as [cb3 w3] eqn:Hv.
  exists L1, cb1, w1, cb2, w2, cb3, w3. done.
Qed.

Lemma ReceiveAudio_full info L cb w buffer :
  AudioBuffer info = Some buffer ->
  int32 (MaxNumAudioFrameBuffer cb * ToleratedExtraMaxBufferCount)
    <= NumAudioSamples (TheSamples w) ->
  ReceiveAudio info L cb w
  = (if bVerifyFrameDropCount (Player w)
     then set_AudioFrameDropCount (int32 (AudioFrameDropCount cb + 1)) cb else cb, w).
Proof.
  intros Hbuf Hfull. unfold ReceiveAudio. rewrite Hbuf.
  destruct (Z.leb_spec (int32 (MaxNumAudioFrameBuffer cb * ToleratedExtraMaxBufferCount))
              (NumAudioSamples (TheSamples w))); [| lia].
  by destruct (bVerifyFrameDropCount (Player w)).
Qed.

Lemma ReceiveVideo_full info L cb w buffer :
  VideoBuffer info = Some buffer ->
  int32 (MaxNumVideoFrameBuffer cb * ToleratedExtraMaxBufferCount)
    <= VideoOccupancy info (TheSamples w) ->
  ReceiveVideo info L cb w
  = (if bVerifyFrameDropCount (Player w)
     then set_VideoFrameDropCount (int32 (VideoFrameDropCount cb + 1)) cb else cb, w).
Proof.
  intros Hbuf Hfull. unfold ReceiveVideo. rewrite Hbuf.
  destruct (Z.leb_spec (int32 (MaxNumVideoFrameBuffer cb * ToleratedExtraMaxBufferCount))
              (VideoOccupancy info (TheSamples w))); [| lia].
  by destruct (bVerifyFrameDropCount (Player w)).
Qed.

(** X2. A frame processed in the [Playing] state with drop-count
    verification on: if it carries audio and the audio queue is at tolerated
    capacity, the audio drop counter goes up by one and the audio queue is
    left as it was; likewise for video, the occupancy counting one more slot
    for an interlaced picture. *)
Theorem X2_drop_at_tolerated_capacity this clock info w cb :
  Heap w !! this = Some cb ->
  ProcessedWhilePlaying cb info ->
  bVerifyFrameDropCount (Player w) = true ->
  exists w' cb',
    OnFrameReceived this clock info w = Some w'
    /\ Heap w' !! this = Some cb'
    /\ (is_null (AudioBuffer info) = false ->
        int32 (MaxNumAudioFrameBuffer cb * ToleratedExtraMaxBufferCount)
          <= NumAudioSamples (TheSamples w) ->
        AudioFrameDropCount cb' = int32 (AudioFrameDropCount cb + 1)
        /\ AudioSamples (TheSamples w') = AudioSamples (TheSamples w))
    /\ (is_null (VideoBuffer info) = false ->
        int32 (MaxNumVideoFrameBuffer cb * ToleratedExtraMaxBufferCount)
          <= VideoOccupancy info (TheSamples w) ->
        VideoFrameDropCount cb' = int32 (VideoFrameDropCount cb + 1)
        /\ VideoSamples (TheSamples w') = VideoSamples (TheSamples w)).
Proof.
  intros Hcb (Hp & Hno & Hst) Hon.
  destruct (OnFrameReceived_Playing_blocks _ clock info _ _ Hcb Hp Hno Hst)
    as (L & cb1 & w1 & cb2 & w2 & cb3 & w3 & Htc & Ha & Hv & Hrun).
  apply ReceiveTimecode_frame in Htc as (Hf1 & Hc1 & Hs1 & Hp1 & Hda1 & Hdv1 & _);
    [| reflexivity ..].
  destruct Hc1 as (HA1 & HV1 & _).
  assert (HA1' : MaxNumAudioFrameBuffer cb1 = MaxNumAudioFrameBuffer cb)
    by (rewrite HA1; by destruct cb).
  assert (HV1' : MaxNumVideoFrameBuffer cb1 = MaxNumVideoFrameBuffer cb)
    by (rewrite HV1; by destruct cb).
  assert (Hda1' : AudioFrameDropCount cb1 = AudioFrameDropCount cb)
    by (rewrite Hda1; by destruct cb).
  assert (Hdv1' : VideoFrameDropCount cb1 = VideoFrameDropCount cb)
    by (rewrite Hdv1; by destruct cb).
  pose proof Ha as Ha'. pose proof Hv as Hv'.
  apply ReceiveAudio_frame in Ha' as (Hf2 & Hc2 & Hvs2 & Hdv2 & _ & _).
  apply ReceiveVideo_frame in Hv' as (_ & _ & Has3 & Hda3 & _ & _ & _ & _).
  destruct Hc2 as (_ & HV2 & _). destruct Hf2 as (_ & _ & _ & Hon2 & _).
  exists (store this cb3 w3), cb3. split; [exact Hrun |].
  rewrite TheSamples_store, Heap_store, lookup_insert_eq. split; [reflexivity |]. split.
  - intros Hbuf Hfull. destruct (AudioBuffer info) as [buffer|] eqn:Hb; [| done].
    rewrite (ReceiveAudio_full info L cb1 w1 buffer Hb) in Ha
      by (rewrite HA1', Hs1; exact Hfull).
    rewrite Hp1, Hon in Ha. inversion Ha; subst cb2 w2.
    rewrite Hda3, Has3, Hs1. split; [| done]. destruct cb1; simpl in *. congruence.
  - intros Hbuf Hfull. destruct (VideoBuffer info) as [buffer|] eqn:Hb; [| done].
    assert (Hocc : VideoOccupancy info (TheSamples w2) = VideoOccupancy info (TheSamples w)).
    { unfold VideoOccupancy, NumVideoSamples. by rewrite Hvs2, Hs1. }
    rewrite (ReceiveVideo_full info L cb2 w2 buffer Hb) in Hv
      by (rewrite HV2, HV1', Hocc; exact Hfull).
    rewrite Hon2, Hp1, Hon in Hv. inversion Hv; subst cb3 w3.
    rewrite Hvs2, Hs1. split; [| done]. destruct cb2; simpl in *. congruence.
Qed.

(** *** Frames before [Playing], and the timeout that fires *)

(** X4. A frame that is not a no-signal heartbeat, received on an attached
    callback whose state is not [Playing], is discarded: player, queues, SDK
    and trace are untouched, and the callback only remembers whether a frame
    with an input source was ever received. If the frame had an input source,
    the next no-signal heartbeat sets the state to [Error] at once, without
    any grace period. *)
Theorem X4_frame_before_Playing this clock info w cb :
  Heap w !! this = Some cb ->
  MediaPlayer cb = true ->
  IsNoSignal info = false ->
  MediaState cb <> EMediaState.Playing ->
  exists w',
    OnFrameReceived this clock info w = Some w'
    /\ Player w' = Player w /\ Sdk w' = Sdk w /\ Trace w' = Trace w
    /\ Heap w' !! this
       = Some (set_bReceivedValidFrame (bReceivedValidFrame cb || bHasInputSource info) cb)
    /\ (bHasInputSource info = true ->
        forall clock' heartbeat, IsNoSignal heartbeat = true ->
          exists w'' cb'',
            OnFrameReceived this clock' heartbeat w' = Some w''
            /\ Heap w'' !! this = Some cb''
            /\ MediaState cb'' = EMediaState.Error).
Proof.
  intros Hcb Hp Hno Hst.
  rewrite (OnFrameReceived_not_Playing _ _ _ _ _ Hcb Hp Hno Hst).
  set (cb1 := set_bReceivedValidFrame (bReceivedValidFrame cb || bHasInputSource info) cb).
  eexists. split; [reflexivity |].
  autorewrite with world. rewrite lookup_insert_eq. split_and!; try done.
  intros Hsource clock' heartbeat Hbeat.
  assert (Hcb1 : Heap (store this cb1 w) !! this = Some cb1)
    by (rewrite Heap_store; apply lookup_insert_eq).
  assert (Hp1 : MediaPlayer cb1 = true) by (by destruct cb).
  assert (Hr1 : bReceivedValidFrame cb1 = true).
  { unfold cb1. destruct cb; simpl in *. rewrite Hsource. apply orb_true_r. }
  destruct (OnFrameReceived_NoSignal_callback this clock' heartbeat _ cb1 Hcb1 Hp1 Hbeat)
    as (w'' & Hrun & Hcb'').
  destruct (NoSignal_callback clock' cb1 (store this cb1 w)) as (_ & _ & _ & Hs).
  exists w'', (fst (NoSignal clock' cb1 (store this cb1 w))).
  rewrite Hs, Hr1. auto.
Qed.

Lemma Qltb_ge (a b : Q) : (b <= a)%Q -> Qltb a b = false.
Proof.
  intros Hle. destruct (Qltb a b) eqn:E; [| done].
  apply Qltb_lt in E. lra.
Qed.

(** Once the first heartbeat is recorded at a reading of at least 0.1,
    later heartbeats keep it. *)
Lemma NoSignal_keeps_first this (t0 : Q) frames : forall w cb,
  Heap w !! this = Some cb -> MediaPlayer cb = true ->
  LastHasFrameTime cb = t0 -> (1 # 10 <= t0)%Q ->
  Forall (fun f => IsNoSignal (snd f) = true) frames ->
  exists w' cb',
    ReceiveFrames this frames w = Some w' /\ Heap w' !! this = Some cb'
    /\ MediaPlayer cb' = true /\ LastHasFrameTime cb' = t0.
Proof.
  induction frames as [| [clock info] rest IH]; intros w cb Hcb Hp Hl Ht0 Hall.
  - exists w, cb. simpl. auto.
  - inversion Hall as [| ? ? Hno Hall']; subst. simpl in Hno.
    destruct (OnFrameReceived_NoSignal_callback this clock info w cb Hcb Hp Hno)
      as (w1 & Hrun & Hcb1).
    destruct (NoSignal_callback clock cb w) as (Hl1 & _ & Hp1 & _).
    rewrite Qltb_ge in Hl1 by exact Ht0.
    destruct (IH w1 _ Hcb1) as (w' & cb' & Hrest & Hcb' & Hp' & Hl'); try done; try congruence.
    exists w', cb'. simpl. rewrite Hrun. simpl. auto.
Qed.

(** While no valid frame was received and no heartbeat is late, the state
    stays as it is. *)
Lemma NoSignal_quiet this (t0 : Q) frames : forall w cb,
  Heap w !! this = Some cb -> MediaPlayer cb = true ->
  bReceivedValidFrame cb = false ->
  LastHasFrameTime cb = t0 -> (1 # 10 <= t0)%Q ->
  Forall (fun f => IsNoSignal (snd f) = true
                   /\ ~ (2 < RoundDouble (CurrentTime (fst f) - t0))%Q) frames ->
  exists w' cb',
    ReceiveFrames this frames w = Some w' /\ Heap w' !! this = Some cb'
    /\ MediaState cb' = MediaState cb.
Proof.
  induction frames as [| [clock info] rest IH]; intros w cb Hcb Hp Hrv Hl Ht0 Hall.
  - exists w, cb. simpl. auto.
  - inversion Hall as [| ? ? [Hno Hearly] Hall']; subst. simpl in Hno, Hearly.
    destruct (OnFrameReceived_NoSignal_callback this clock info w cb Hcb Hp Hno)
      as (w1 & Hrun & Hcb1).
    destruct (NoSignal_callback clock cb w) as (Hl1 & Hr1 & Hp1 & Hs1).
    rewrite Qltb_ge in Hl1 by exact Ht0.
    assert (Hs1' : MediaState (fst (NoSignal clock cb w)) = MediaState cb).
    { rewrite Hs1, Hrv, Hl1. simpl.
      destruct (Qltb 2 (RoundDouble (CurrentTime clock - LastHasFrameTime cb))) eqn:Hlate;
        [| done].
      apply Qltb_lt in Hlate. done. }
    destruct (IH w1 _ Hcb1) as (w' & cb' & Hrest & Hcb' & Hst');
      try done; try congruence.
    exists w', cb'. simpl. rewrite Hrun. simpl. split_and!; try done. congruence.
Qed.

(** X5. The timeout fires, and only by the difference the code computes.
    On an attached callback with no heartbeat recorded yet, let a run of
    no-signal heartbeats start at a clock reading of at least 0.1.  If it
    ends with a heartbeat whose reading minus the first reading, as the
    subtraction of doubles computes it, is more than 2.0, the state after
    that heartbeat is [Error].  If no valid frame was received and that
    computed difference is not more than 2.0 for any heartbeat of the run,
    the state after the run is the state before it. *)
Theorem X5_no_signal_timeout_fires this w cb first info :
  Heap w !! this = Some cb ->
  MediaPlayer cb = true ->
  (LastHasFrameTime cb < 1 # 10)%Q ->
  (1 # 10 <= CurrentTime first)%Q ->
  IsNoSignal info = true ->
  (forall between last info',
     (2 < RoundDouble (CurrentTime last - CurrentTime first))%Q ->
     Forall (fun f => IsNoSignal (snd f) = true) (between ++ [(last, info')]) ->
     exists w' cb',
       ReceiveFrames this ((first, info) :: between ++ [(last, info')]) w = Some w'
       /\ Heap w' !! this = Some cb'
       /\ MediaState cb' = EMediaState.Error)
  /\ (forall rest,
        bReceivedValidFrame cb = false ->
        Forall (fun f => IsNoSignal (snd f) = true
                         /\ ~ (2 < RoundDouble (CurrentTime (fst f) - CurrentTime first))%Q)
          rest ->
        exists w' cb',
          ReceiveFrames this ((first, info) :: rest) w = Some w'
          /\ Heap w' !! this = Some cb'
          /\ MediaState cb' = MediaState cb).
Proof.
  intros Hcb Hp Hunset Hfirst Hno.
  destruct (OnFrameReceived_NoSignal_callback this first info w cb Hcb Hp Hno)
    as (w1 & Hrun1 & Hcb1).
  destruct (NoSignal_callback first cb w) as (Hl1 & Hr1 & Hp1 & Hs1).
  apply Qltb_lt in Hunset. rewrite Hunset in Hl1.
  split.
  - intros between last info' Hlate Hall.
    apply Forall_app in Hall as [Hbetween Hlast].
    inversion Hlast as [| ? ? Hno' _]; subst. simpl in Hno'.
    destruct (NoSignal_keeps_first this (CurrentTime first) between w1 _ Hcb1)
      as (w2 & cb2 & Hrun2 & Hcb2 & Hp2 & Hl2); try done; try congruence.
    destruct (OnFrameReceived_NoSignal_callback this last info' w2 cb2 Hcb2 Hp2 Hno')
      as (w3 & Hrun3 & Hcb3).
    destruct (NoSignal_callback last cb2 w2) as (Hl3 & _ & _ & Hs3).
    rewrite Hl2, Qltb_ge in Hl3 by exact Hfirst.
    exists w3, (fst (NoSignal last cb2 w2)). split_and!; try done.
    + simpl. rewrite Hrun1. simpl. rewrite ReceiveFrames_app, Hrun2. simpl.
      by rewrite Hrun3.
    + rewrite Hs3, Hl3. apply Qltb_lt in Hlate. rewrite Hlate. by rewrite orb_true_r.
  - intros rest Hrv Hall.
    assert (Hs1' : MediaState (fst (NoSignal first cb w)) = MediaState cb).
    { rewrite Hs1, Hrv, Hl1. simpl.
      destruct (Qltb 2 (RoundDouble (CurrentTime first - CurrentTime first))) eqn:Hlate;
        [| done].
      apply Qltb_lt, RoundDouble_above_2 in Hlate. lra. }
    destruct (NoSignal_quiet this (CurrentTime first) rest w1 _ Hcb1)
      as (w' & cb' & Hrest & Hcb' & Hst'); try done; try congruence.
    exists w', cb'. simpl. rewrite Hrun1. simpl. split_and!; try done. congruence.
Qed.

(** *** The blocks of [OnFrameReceived], exactly *)

Lemma ReceiveTimecode_exact clock info cb w L1 cb1 w1 :
  ReceiveTimecode clock info
    {| DecodedTime := FromSeconds (PlatformSeconds clock);
       DecodedTimeF2 := FromSeconds (PlatformSeconds clock)
                        + FromSeconds (AsInterval (VideoFrameRate (Super (Player w))));
       DecodedTimecode := None; DecodedTimecodeF2 := None |} cb w = (L1, cb1, w1) ->
  Trace w1 = Trace w ++ TimecodeEffects clock info cb w
  /\ bBlackmagicWriteOutputRawDataCmdEnable w1 = bBlackmagicWriteOutputRawDataCmdEnable w
  /\ DecodedTime L1 = PresentationTime clock info w
  /\ DecodedTimeF2 L1
     = PresentationTime clock info w
       + FromSeconds (AsInterval (VideoFrameRate (Super (Player w))))
  /\ DecodedTimecode L1 = SampleTimecode info w
  /\ DecodedTimecodeF2 L1 = NextFrame <$> SampleTimecode info w
  /\ bEncodeTimecodeInTexel cb1 = bEncodeTimecodeInTexel cb
  /\ bIsTimecodeExpected cb1 = bIsTimecodeExpected cb
  /\ bHasWarnedMissingTimecode cb1
     = bHasWarnedMissingTimecode cb
       || (negb (bHaveTimecode info) && bIsTimecodeExpected cb).
Proof.
  unfold ReceiveTimecode, TimecodeEffects, PresentationTime, SampleTimecode, FrameLimit,
    DecodedTimecodeOf, NextFrame, GetUrl, emit.
  intros Heq. open_world w. destruct cb. simpl in *.
  repeat case_match; pair_eq; simpl in *; simplify_eq;
    rewrite <- ?app_assoc, ?app_nil_r; simpl; split_and!;
    try done; try (by destruct bHasWarnedMissingTimecode0);
    try (by destruct bHasWarnedMissingTimecode0, bIsTimecodeExpected0).
Qed.

Lemma ReceiveAudio_exact info L cb w cb' w' :
  ReceiveAudio info L cb w = (cb', w') ->
  Trace w' = Trace w
  /\ bEncodeTimecodeInTexel cb' = bEncodeTimecodeInTexel cb
  /\ bIsTimecodeExpected cb' = bIsTimecodeExpected cb
  /\ bHasWarnedMissingTimecode cb' = bHasWarnedMissingTimecode cb
  /\ AudioSamples (TheSamples w')
     = AudioSamples (TheSamples w)
       ++ match AudioBuffer info with
          | Some buffer =>
              if AudioRoom cb w
              then List.filter AudioSampleInitialize [AudioSampleOf info buffer L] else []
          | None => []
          end.
Proof.
  unfold ReceiveAudio, AudioRoom. intros Heq.
  destruct (AudioBuffer info) as [buffer|] eqn:Hbuf.
  - fold (AudioSampleOf info buffer L) in Heq.
    destruct (Z.leb_spec (int32 (MaxNumAudioFrameBuffer cb * ToleratedExtraMaxBufferCount))
                (NumAudioSamples (TheSamples w))) as [Hfull | Hroom].
    + rewrite (proj2 (Z.ltb_ge _ _) Hfull), app_nil_r.
      destruct (bVerifyFrameDropCount (Player w)); pair_eq; split_and!; try done;
        by destruct cb.
    + rewrite (proj2 (Z.ltb_lt _ _) Hroom). simpl.
      destruct (AudioSampleInitialize (AudioSampleOf info buffer L)); pair_eq;
        rewrite ?app_nil_r; split_and!; try (by destruct cb); by open_world w.
  - pair_eq. rewrite app_nil_r. done.
Qed.

Lemma WriteOutputRawData_exact info name w :
  Trace (WriteOutputRawData info name w)
  = Trace w ++ (if bBlackmagicWriteOutputRawDataCmdEnable w
                then [WriteRawFile (fst name) (snd name)
                        (uint32 (VideoPitch info * VideoHeight info))]
                else [])
  /\ bBlackmagicWriteOutputRawDataCmdEnable (WriteOutputRawData info name w) = false.
Proof.
  unfold WriteOutputRawData, emit. destruct w; simpl.
  case_match; simpl; rewrite ?app_nil_r; done.
Qed.

Lemma AddProgressive_exact info buffer fmt L cb w :
  let w' := AddProgressive info buffer fmt L cb w in
  Trace w'
  = Trace w ++ match DecodedTimecode L with
               | Some T => if bEncodeTimecodeInTexel cb
                           then [EncodeTimeRender (Hours T) (Minutes T) (Seconds T) (Frames T)]
                           else []
               | None => []
               end
  /\ bBlackmagicWriteOutputRawDataCmdEnable w' = bBlackmagicWriteOutputRawDataCmdEnable w.
Proof.
  unfold AddProgressive, emit. open_world w. simpl.
  repeat case_match; simpl; rewrite ?app_nil_r; done.
Qed.

Lemma AddInterlaced_exact info buffer fmt L cb w :
  let w' := AddInterlaced info buffer fmt L cb w in
  Trace w' = Trace w
  /\ bBlackmagicWriteOutputRawDataCmdEnable w' = bBlackmagicWriteOutputRawDataCmdEnable w.
Proof.
  unfold AddInterlaced. open_world w. simpl. repeat case_match; done.
Qed.

Lemma ReceiveVideo_exact info L cb w cb' w' :
  ReceiveVideo info L cb w = (cb', w') ->
  let room := negb (is_null (VideoBuffer info)) && VideoRoom info cb w in
  Trace w'
  = Trace w ++ (if room
                then VideoEffects info (DecodedTimecode L)
                       (bBlackmagicWriteOutputRawDataCmdEnable w) cb
                else [])
  /\ bBlackmagicWriteOutputRawDataCmdEnable w'
     = bBlackmagicWriteOutputRawDataCmdEnable w && negb room
  /\ bEncodeTimecodeInTexel cb' = bEncodeTimecodeInTexel cb
  /\ bIsTimecodeExpected cb' = bIsTimecodeExpected cb
  /\ bHasWarnedMissingTimecode cb' = bHasWarnedMissingTimecode cb
  /\ VideoSamples (TheSamples w')
     = VideoSamples (TheSamples w)
       ++ match VideoBuffer info with
          | Some buffer => if VideoRoom info cb w
                           then NewVideoSamples info buffer L cb w else []
          | None => []
          end.
Proof.
  unfold ReceiveVideo, VideoRoom, VideoEffects. intros Heq.
  destruct (VideoBuffer info) as [buffer|] eqn:Hbuf; simpl.
  - destruct (Z.leb_spec (int32 (MaxNumVideoFrameBuffer cb * ToleratedExtraMaxBufferCount))
                (VideoOccupancy info (TheSamples w))) as [Hfull | Hroom].
    + rewrite (proj2 (Z.ltb_ge _ _) Hfull), !app_nil_r, andb_true_r.
      destruct (bVerifyFrameDropCount (Player w)); pair_eq; split_and!; try done;
        by destruct cb.
    + rewrite (proj2 (Z.ltb_lt _ _) Hroom), andb_false_r.
      destruct (SelectFormats info cb) as [[fmt enc] name] eqn:Hsel. simpl.
      destruct (WriteOutputRawData_exact info name w) as [Ht0 Hg0].
      destruct (WriteOutputRawData_frame info name w) as [Hfw Hsw].
      destruct (bool_decide (FieldDominance info = EFieldDominance.Interlaced)) eqn:Hdom;
        simpl in Heq; pair_eq.
      * apply bool_decide_eq_true_1 in Hdom.
        destruct (AddInterlaced_exact info buffer fmt L cb' (WriteOutputRawData info name w))
          as [Ht Hg].
        destruct (AddInterlaced_frame info buffer fmt L cb' (WriteOutputRawData info name w)
                    Hdom) as (_ & _ & Hv); [by rewrite Hsel |].
        rewrite Ht, Ht0, Hg, Hg0, Hv, Hsw, app_nil_r. split_and!; try done.
        f_equal. unfold NewVideoSamples, OfferedVideoSamples.
        destruct Hfw as (_&_&_&_&->&_). done.
      * apply bool_decide_eq_false_1 in Hdom.
        destruct (AddProgressive_exact info buffer fmt L cb' (WriteOutputRawData info name w))
          as [Ht Hg].
        destruct (AddProgressive_frame info buffer fmt L cb' (WriteOutputRawData info name w)
                    Hdom) as (_ & _ & Hv); [by rewrite Hsel |].
        rewrite Ht, Ht0, Hg, Hg0, Hv, Hsw, <- app_assoc. split_and!; try done.
        f_equal. unfold NewVideoSamples, OfferedVideoSamples.
        destruct Hfw as (_&_&_&_&->&_). done.
  - pair_eq. rewrite !app_nil_r, andb_true_r. done.
Qed.

Lemma TimecodeEffects_ext clock info cb cb' w :
  bHasWarnedMissingTimecode cb' = bHasWarnedMissingTimecode cb ->
  bIsTimecodeExpected cb' = bIsTimecodeExpected cb ->
  TimecodeEffects clock info cb' w = TimecodeEffects clock info cb w.
Proof. unfold TimecodeEffects. by intros -> ->. Qed.

Lemma VideoEffects_ext info tc flag cb cb' :
  ChannelInfo cb' = ChannelInfo cb ->
  bEncodeTimecodeInTexel cb' = bEncodeTimecodeInTexel cb ->
  VideoEffects info tc flag cb' = VideoEffects info tc flag cb.
Proof. unfold VideoEffects, SelectFormats. by intros -> ->. Qed.

Lemma SelectFormats_format info cb :
  fst (fst (SelectFormats info cb)) = SampleFormatOf (fiPixelFormat info).
Proof. unfold SelectFormats, SampleFormatOf. by destruct (fiPixelFormat info). Qed.

(** One frame processed in the [Playing] state, block by block: what is
    logged, what is appended to each queue, and what becomes of the raw-dump
    flag and of the missing-timecode latch. *)
Lemma OnFrameReceived_Playing_exact this clock info w cb :
  Heap w !! this = Some cb -> MediaPlayer cb = true -> IsNoSignal info = false ->
  MediaState cb = EMediaState.Playing ->
  let room := negb (is_null (VideoBuffer info)) && VideoRoom info cb w in
  exists w' cb',
    OnFrameReceived this clock info w = Some w'
    /\ Heap w' !! this = Some cb'
    /\ Trace w'
       = Trace w ++ TimecodeEffects clock info cb w
         ++ (if room
             then VideoEffects info (SampleTimecode info w)
                    (bBlackmagicWriteOutputRawDataCmdEnable w) cb
             else [])
    /\ bBlackmagicWriteOutputRawDataCmdEnable w'
       = bBlackmagicWriteOutputRawDataCmdEnable w && negb room
    /\ bHasWarnedMissingTimecode cb'
       = bHasWarnedMissingTimecode cb || (negb (bHaveTimecode info) && bIsTimecodeExpected cb)
    /\ bIsTimecodeExpected cb' = bIsTimecodeExpected cb
    /\ bEncodeTimecodeInTexel cb' = bEncodeTimecodeInTexel cb
    /\ AudioSamples (TheSamples w')
       = AudioSamples (TheSamples w)
         ++ match AudioBuffer info with
            | Some buffer =>
                if AudioRoom cb w
                then List.filter AudioSampleInitialize [AudioSampleFor clock info buffer w]
                else []
            | None => []
            end
    /\ VideoSamples (TheSamples w')
       = VideoSamples (TheSamples w)
         ++ match VideoBuffer info with
            | Some buffer =>
                if VideoRoom info cb w
                then List.filter TextureSampleInitialize
                       (VideoSamplesFor clock info buffer cb w)
                else []
            | None => []
            end.
Proof.
  intros Hcb Hp Hno Hst room.
  destruct (OnFrameReceived_Playing_blocks this clock info w cb Hcb Hp Hno Hst)
    as (L & cb1 & w1 & cb2 & w2 & cb3 & w3 & Htc & Ha & Hv & Hrun).
  set (cb0 := set_bReceivedValidFrame (bReceivedValidFrame cb || bHasInputSource info) cb)
    in *.
  assert (Hcb0 : MediaPlayer cb0 = MediaPlayer cb
                 /\ bHasWarnedMissingTimecode cb0 = bHasWarnedMissingTimecode cb
                 /\ bIsTimecodeExpected cb0 = bIsTimecodeExpected cb
                 /\ bEncodeTimecodeInTexel cb0 = bEncodeTimecodeInTexel cb
                 /\ MaxNumAudioFrameBuffer cb0 = MaxNumAudioFrameBuffer cb
                 /\ MaxNumVideoFrameBuffer cb0 = MaxNumVideoFrameBuffer cb
                 /\ bIsSRGBInput cb0 = bIsSRGBInput cb
                 /\ ChannelInfo cb0 = ChannelInfo cb).
  { subst cb0. destruct cb. simpl. split_and!; done. }
  destruct Hcb0 as (_ & Hw0 & He0 & Hn0 & Ha0 & Hv0 & Hs0 & Hc0).
  destruct (ReceiveTimecode_exact _ _ _ _ _ _ _ Htc)
    as (Ht1 & Hg1 & HT & HT2 & HC & HC2 & Hn1 & He1 & Hw1).
  destruct (ReceiveTimecode_frame _ _ _ _ _ _ _ _ Htc eq_refl eq_refl eq_refl)
    as (Hfw1 & Hfc1 & Hsm1 & Hpl1 & _).
  destruct (ReceiveAudio_exact _ _ _ _ _ _ Ha) as (Ht2 & Hn2 & He2 & Hw2 & Has).
  destruct (ReceiveAudio_frame _ _ _ _ _ _ Ha) as (Hfw2 & Hfc2 & Hvs2 & _ & Hg2 & _).
  destruct (ReceiveVideo_exact _ _ _ _ _ _ Hv) as (Ht3 & Hg3 & Hn3 & He3 & Hw3 & Hvs).
  destruct (ReceiveVideo_frame _ _ _ _ _ _ Hv) as (Hfw3 & Hfc3 & Has3 & _).
  destruct Hfc1 as (HA1 & HV1 & _ & _ & _ & _ & HS1 & _ & _ & HI1).
  destruct Hfc2 as (HA2 & HV2 & _ & _ & _ & _ & HS2 & _ & _ & HI2).
  destruct Hfw2 as (_ & _ & _ & _ & Hr2 & _).
  assert (Hr1 : VideoFrameRate (Super (Player w1)) = VideoFrameRate (Super (Player w)))
    by (by rewrite Hpl1).
  assert (Hroom : VideoRoom info cb2 w2 = VideoRoom info cb w).
  { unfold VideoRoom, VideoOccupancy, NumVideoSamples.
    rewrite Hvs2, Hsm1, HV2, HV1, Hv0. done. }
  assert (Haroom : AudioRoom cb1 w1 = AudioRoom cb w).
  { unfold AudioRoom. rewrite Hsm1, HA1, Ha0. done. }
  exists (store this cb3 w3), cb3.
  destruct (store_frame this cb3 w3) as (Hsp & _ & Hst3 & Hsg & Hsh & _).
  split; [done |]. split; [done |].
  unfold TheSamples in *. rewrite Hsp, Hst3, Hsg.
  split.
  { rewrite Ht3, Ht2, Ht1, Hroom, Hg2, Hg1, <- app_assoc. f_equal.
    rewrite (TimecodeEffects_ext clock info cb cb0 w Hw0 He0). f_equal.
    fold room. destruct room; [| done].
    rewrite HC. apply VideoEffects_ext; [congruence | congruence]. }
  split. { rewrite Hg3, Hroom, Hg2, Hg1. done. }
  split. { rewrite Hw3, Hw2, Hw1, Hw0, He0. done. }
  split. { congruence. }
  split. { congruence. }
  split.
  { rewrite Has3, Has, Hsm1, Haroom. do 2 f_equal.
    unfold AudioSampleOf, AudioSampleFor. by rewrite HT, HC. }
  rewrite Hvs, Hvs2, Hsm1, Hroom. f_equal.
  destruct (VideoBuffer info) as [buffer|]; [| done].
  destruct (VideoRoom info cb w); [| done].
  unfold NewVideoSamples, OfferedVideoSamples, VideoSamplesFor, TextureSample. f_equal.
  rewrite SelectFormats_format, HT, HT2, HC, HC2, Hr2, Hr1, HS2, HS1, Hs0. done.
Qed.

(** *** The effects of the frame path *)

Lemma MissingTimecodeWarnings_app es1 es2 :
  MissingTimecodeWarnings (es1 ++ es2)
  = (MissingTimecodeWarnings es1 + MissingTimecodeWarnings es2)%nat.
Proof. unfold MissingTimecodeWarnings. by rewrite List.filter_app, List.length_app. Qed.

Lemma RawDumps_app es1 es2 : RawDumps (es1 ++ es2) = RawDumps es1 ++ RawDumps es2.
Proof. apply omap_app. Qed.

Lemma TimecodeEffects_shape clock info cb w :
  forallb is_frame_effect (TimecodeEffects clock info cb w) = true
  /\ RawDumps (TimecodeEffects clock info cb w) = []
  /\ MissingTimecodeWarnings (TimecodeEffects clock info cb w)
     = if negb (bHaveTimecode info) && negb (bHasWarnedMissingTimecode cb)
          && bIsTimecodeExpected cb
       then 1%nat else 0%nat.
Proof.
  unfold TimecodeEffects.
  destruct (bHaveTimecode info), (bHasWarnedMissingTimecode cb), (bIsTimecodeExpected cb);
    simpl; repeat case_match; done.
Qed.

Lemma VideoEffects_shape info tc flag cb :
  forallb is_frame_effect (VideoEffects info tc flag cb) = true
  /\ MissingTimecodeWarnings (VideoEffects info tc flag cb) = 0%nat
  /\ RawDumps (VideoEffects info tc flag cb)
     = if flag
       then [(fst (snd (SelectFormats info cb)), snd (snd (SelectFormats info cb)),
              uint32 (VideoPitch info * VideoHeight info))]
       else [].
Proof.
  unfold VideoEffects. destruct flag; simpl; repeat case_match; done.
Qed.

Lemma NoSignal_effects clock cb w cb' w' :
  NoSignal clock cb w = (cb', w') ->
  bHasWarnedMissingTimecode cb' = bHasWarnedMissingTimecode cb
  /\ bBlackmagicWriteOutputRawDataCmdEnable w' = bBlackmagicWriteOutputRawDataCmdEnable w
  /\ Player w' = Player w /\ Sdk w' = Sdk w
  /\ exists es, Trace w' = Trace w ++ es
                /\ forallb is_frame_effect es = true
                /\ RawDumps es = [] /\ MissingTimecodeWarnings es = 0%nat.
Proof.
  unfold NoSignal, emit. intros Heq. open_world w. destruct cb. simpl in *.
  repeat case_match; pair_eq; simpl; split_and!; try done;
    first [ by exists []; rewrite app_nil_r | by eexists [_] ].
Qed.

(** One frame, whatever its branch: only log lines, the raw dump and the
    burnt-in timecode are produced; with the raw-dump flag clear nothing is
    dumped and the flag stays clear; the missing-timecode warning is logged
    at most once and only while its latch is open, which it then closes. *)
Lemma OnFrameReceived_effects this clock info w cb :
  Heap w !! this = Some cb ->
  exists w' cb' es,
    OnFrameReceived this clock info w = Some w'
    /\ Heap w' !! this = Some cb'
    /\ Trace w' = Trace w ++ es
    /\ forallb is_frame_effect es = true
    /\ (bBlackmagicWriteOutputRawDataCmdEnable w = false ->
        bBlackmagicWriteOutputRawDataCmdEnable w' = false /\ RawDumps es = [])
    /\ (MissingTimecodeWarnings es
        <= if bHasWarnedMissingTimecode cb then 0 else 1)%nat
    /\ (bHasWarnedMissingTimecode cb = true \/ MissingTimecodeWarnings es = 1%nat ->
        bHasWarnedMissingTimecode cb' = true).
Proof.
  intros Hcb.
  destruct (MediaPlayer cb) eqn:Hp.
  2: { exists w, cb, []. rewrite (OnFrameReceived_detached this clock info w cb Hcb Hp).
       rewrite app_nil_r. split_and!; try done.
       - destruct (bHasWarnedMissingTimecode cb); cbn; lia.
       - by intros [? | ?]. }
  destruct (IsNoSignal info) eqn:Hno.
  { rewrite (OnFrameReceived_NoSignal this clock info w cb Hcb Hp Hno).
    destruct (NoSignal clock cb w) as [cb1 w1] eqn:Hns. simpl.
    destruct (NoSignal_effects _ _ _ _ _ Hns) as (Hw & Hg & _ & _ & es & Ht & Hf & Hd & Hm).
    destruct (store_frame this cb1 w1) as (_ & _ & Hst & Hsg & Hsh & _).
    exists (store this cb1 w1), cb1, es. rewrite Hst, Hsg, Hg, Hw, Hm.
    split_and!; try done.
    - destruct (bHasWarnedMissingTimecode cb); cbn; lia.
    - by intros [? | ?]. }
  destruct (decide (MediaState cb = EMediaState.Playing)) as [Hst | Hst].
  2: { rewrite (OnFrameReceived_not_Playing this clock info w cb Hcb Hp Hno Hst).
       set (cb1 := set_bReceivedValidFrame _ cb).
       destruct (store_frame this cb1 w) as (_ & _ & Hst1 & Hsg & Hsh & _).
       exists (store this cb1 w), cb1, []. rewrite Hst1, Hsg, app_nil_r.
       split_and!; try done.
       - destruct (bHasWarnedMissingTimecode cb); cbn; lia.
       - intros [? | ?]; [| done]. subst cb1. by destruct cb. }
  destruct (OnFrameReceived_Playing_exact this clock info w cb Hcb Hp Hno Hst)
    as (w' & cb' & Hrun & Hcb' & Ht & Hg & Hw & _).
  destruct (TimecodeEffects_shape clock info cb w) as (Hf1 & Hd1 & Hm1).
  eexists w', cb', _. split; [exact Hrun |]. split; [exact Hcb' |].
  split; [exact Ht |].
  set (room := negb (is_null (VideoBuffer info)) && VideoRoom info cb w) in *.
  rewrite forallb_app, RawDumps_app, MissingTimecodeWarnings_app, Hf1, Hd1, Hm1, Hg, Hw.
  destruct room; simpl.
  - destruct (VideoEffects_shape info (SampleTimecode info w)
                (bBlackmagicWriteOutputRawDataCmdEnable w) cb) as (Hf2 & Hm2 & Hd2).
    rewrite Hf2, Hm2, Hd2, andb_false_r.
    split_and!; try done.
    + by intros ->.
    + destruct (bHaveTimecode info), (bHasWarnedMissingTimecode cb),
        (bIsTimecodeExpected cb); cbn; lia.
    + destruct (bHaveTimecode info), (bHasWarnedMissingTimecode cb),
        (bIsTimecodeExpected cb); simpl; intros [? | ?]; done.
  - rewrite andb_true_r. split_and!; try done.
    + destruct (bHaveTimecode info), (bHasWarnedMissingTimecode cb),
        (bIsTimecodeExpected cb); cbn; lia.
    + destruct (bHaveTimecode info), (bHasWarnedMissingTimecode cb),
        (bIsTimecodeExpected cb); simpl; intros [? | ?]; done.
Qed.

Lemma ReceiveFrames_effects this frames : forall w cb,
  Heap w !! this = Some cb ->
  exists w' cb' es,
    ReceiveFrames this frames w = Some w'
    /\ Heap w' !! this = Some cb'
    /\ Trace w' = Trace w ++ es
    /\ forallb is_frame_effect es = true
    /\ (bBlackmagicWriteOutputRawDataCmdEnable w = false ->
        bBlackmagicWriteOutputRawDataCmdEnable w' = false /\ RawDumps es = [])
    /\ (MissingTimecodeWarnings es
        <= if bHasWarnedMissingTimecode cb then 0 else 1)%nat
    /\ (bHasWarnedMissingTimecode cb = true -> bHasWarnedMissingTimecode cb' = true).
Proof.
  induction frames as [| [clock info] rest IH]; intros w cb Hcb.
  - exists w, cb, []. simpl. rewrite app_nil_r. split_and!; try done.
    destruct (bHasWarnedMissingTimecode cb); cbn; lia.
  - destruct (OnFrameReceived_effects this clock info w cb Hcb)
      as (w1 & cb1 & es1 & Hrun & Hcb1 & Ht1 & Hf1 & Hd1 & Hm1 & Hl1).
    destruct (IH w1 cb1 Hcb1) as (w' & cb' & es2 & Hrest & Hcb' & Ht2 & Hf2 & Hd2 & Hm2 & Hl2).
    exists w', cb', (es1 ++ es2). simpl ReceiveFrames. rewrite Hrun. simpl.
    rewrite forallb_app, RawDumps_app, MissingTimecodeWarnings_app, Hf1, Hf2, Ht2, Ht1,
      <- app_assoc.
    split_and!; try done.
    + intros Hoff. destruct (Hd1 Hoff) as [Hoff1 ->]. destruct (Hd2 Hoff1) as [Hoff2 ->]. done.
    + destruct (bHasWarnedMissingTimecode cb) eqn:Hw.
      * rewrite (Hl1 (or_introl eq_refl)) in Hm2. lia.
      * destruct (MissingTimecodeWarnings es1) as [| [| n]] eqn:Hn; [| | lia].
        -- destruct (bHasWarnedMissingTimecode cb1); lia.
        -- rewrite (Hl1 (or_intror eq_refl)) in Hm2. lia.
    + intros Hw. apply Hl2, Hl1. by left.
Qed.

(** X6. A frame processed in the [Playing] state whose video buffer is
    present, with the video queue below tolerated capacity and every sample
    accepted by the engine, appends exactly the samples [VideoSamplesFor]:
    one whole-picture sample when progressive; the even-line and the
    odd-line sample when interlaced.  Each shares the frame's buffer, has
    size pitch * height, the frame's stride, width and height (each as the
    [uint32] the sample's [Initialize] receives, the product being formed in
    32 bits), the sample
    format of the pixel format (8 bit: UYVY, 10 bit: v210, otherwise BGRA),
    the player's frame rate and the callback's sRGB flag; its time is the
    timecode converted with the frame rate when the frame has a timecode and
    time synchronisation is on, and the platform clock otherwise. *)
Theorem X6_video_samples_of_a_frame this clock info buffer w cb :
  Heap w !! this = Some cb ->
  ProcessedWhilePlaying cb info ->
  VideoBuffer info = Some buffer ->
  VideoOccupancy info (TheSamples w)
    < int32 (MaxNumVideoFrameBuffer cb * ToleratedExtraMaxBufferCount) ->
  forallb TextureSampleInitialize (VideoSamplesFor clock info buffer cb w) = true ->
  exists w',
    OnFrameReceived this clock info w = Some w'
    /\ VideoSamples (TheSamples w')
       = VideoSamples (TheSamples w) ++ VideoSamplesFor clock info buffer cb w
    /\ Forall (fun s =>
                 tsBuffer s = buffer
                 /\ tsBufferSize s = uint32 (VideoPitch info * VideoHeight info)
                 /\ tsStride s = uint32 (VideoPitch info)
                 /\ tsWidth s = uint32 (VideoWidth info)
                 /\ tsHeight s = uint32 (VideoHeight info)
                 /\ tsSampleFormat s = SampleFormatOf (fiPixelFormat info)
                 /\ tsFrameRate s = VideoFrameRate (Super (Player w))
                 /\ tsIsSRGBInput s = bIsSRGBInput cb)
         (VideoSamplesFor clock info buffer cb w).
Proof.
  intros Hcb (Hp & Hno & Hst) Hbuf Hroom Hacc.
  destruct (OnFrameReceived_Playing_exact this clock info w cb Hcb Hp Hno Hst)
    as (w' & cb' & Hrun & _ & _ & _ & _ & _ & _ & _ & Hv).
  exists w'. split; [done |]. split.
  - rewrite Hv, Hbuf. unfold VideoRoom.
    rewrite (proj2 (Z.ltb_lt _ _) Hroom). f_equal.
    apply forallb_filter_id. exact Hacc.
  - unfold VideoSamplesFor. case_bool_decide; repeat constructor.
Qed.

(** X7. A frame processed in the [Playing] state whose audio buffer is
    present, with the audio queue below tolerated capacity and the sample
    accepted by the engine, appends exactly one audio sample: the frame's
    buffer, its size in bytes divided by [sizeof(int32)] (a division in
    [size_t], the quotient passed as [uint32]), the frame's channel count
    and rate (as [uint32]), the same presentation time as the video
    samples, and the frame's timecode if it has one. *)
Theorem X7_audio_sample_of_a_frame this clock info buffer w cb :
  Heap w !! this = Some cb ->
  ProcessedWhilePlaying cb info ->
  AudioBuffer info = Some buffer ->
  NumAudioSamples (TheSamples w)
    < int32 (MaxNumAudioFrameBuffer cb * ToleratedExtraMaxBufferCount) ->
  AudioSampleInitialize (AudioSampleFor clock info buffer w) = true ->
  exists w',
    OnFrameReceived this clock info w = Some w'
    /\ AudioSamples (TheSamples w')
       = AudioSamples (TheSamples w)
         ++ [{| asBuffer := buffer;
                asBufferSize := uint32 (size_t (AudioBufferSize info) / 4);
                asNumberOfChannels := uint32 (fiNumberOfAudioChannel info);
                asSampleRate := uint32 (AudioRate info);
                asTime := PresentationTime clock info w;
                asTimecode := SampleTimecode info w |}].
Proof.
  intros Hcb (Hp & Hno & Hst) Hbuf Hroom Hacc.
  destruct (OnFrameReceived_Playing_exact this clock info w cb Hcb Hp Hno Hst)
    as (w' & cb' & Hrun & _ & _ & _ & _ & _ & _ & Ha & _).
  exists w'. split; [done |]. rewrite Ha, Hbuf. unfold AudioRoom.
  rewrite (proj2 (Z.ltb_lt _ _) Hroom). simpl. rewrite Hacc. done.
Qed.

Lemma BlackmagicWriteOutputRawDataCmd_frame w :
  let w0 := BlackmagicWriteOutputRawDataCmd w in
  Heap w0 = Heap w /\ Player w0 = Player w /\ Sdk w0 = Sdk w /\ Trace w0 = Trace w
  /\ bBlackmagicWriteOutputRawDataCmdEnable w0 = true.
Proof. by destruct w. Qed.

(** X8. The raw dump is one-shot.  After the console command has set its
    flag, the first frame processed in the [Playing] state that gets as far
    as the video block (video buffer present, queue below tolerated
    capacity) writes one raw file, named after the pixel format and the
    callback's device index and of size pitch * height (the product formed
    in 32 bits and passed as [uint32]), and clears the flag; whatever
    frames follow, no further file is written and the flag stays clear. *)
Theorem X8_raw_dump_is_one_shot this clock info buffer frames w cb :
  Heap w !! this = Some cb ->
  ProcessedWhilePlaying cb info ->
  VideoBuffer info = Some buffer ->
  VideoOccupancy info (TheSamples w)
    < int32 (MaxNumVideoFrameBuffer cb * ToleratedExtraMaxBufferCount) ->
  exists w1 w2,
    OnFrameReceived this clock info (BlackmagicWriteOutputRawDataCmd w) = Some w1
    /\ RawDumps (Trace w1)
       = RawDumps (Trace w)
         ++ [(fst (snd (SelectFormats info cb)), snd (snd (SelectFormats info cb)),
              uint32 (VideoPitch info * VideoHeight info))]
    /\ bBlackmagicWriteOutputRawDataCmdEnable w1 = false
    /\ ReceiveFrames this frames w1 = Some w2
    /\ RawDumps (Trace w2) = RawDumps (Trace w1)
    /\ bBlackmagicWriteOutputRawDataCmdEnable w2 = false.
Proof.
  intros Hcb (Hp & Hno & Hst) Hbuf Hroom.
  destruct (BlackmagicWriteOutputRawDataCmd_frame w) as (Hh & Hpl & _ & Ht & Hg).
  set (w0 := BlackmagicWriteOutputRawDataCmd w) in *.
  assert (Hcb0 : Heap w0 !! this = Some cb) by (by rewrite Hh).
  destruct (OnFrameReceived_Playing_exact this clock info w0 cb Hcb0 Hp Hno Hst)
    as (w1 & cb1 & Hrun & Hcb1 & Ht1 & Hg1 & _).
  assert (Hr : VideoRoom info cb w0 = true).
  { unfold VideoRoom, TheSamples. rewrite Hpl. by apply Z.ltb_lt. }
  rewrite Hbuf, Hr, Hg in Ht1, Hg1. simpl in Ht1, Hg1.
  destruct (ReceiveFrames_effects this frames w1 cb1 Hcb1)
    as (w2 & cb2 & es & Hrest & _ & Ht2 & _ & Hd & _).
  destruct (Hd Hg1) as [Hg2 Hd2].
  destruct (TimecodeEffects_shape clock info cb w0) as (_ & Hd0 & _).
  destruct (VideoEffects_shape info (SampleTimecode info w0) true cb) as (_ & _ & Hdv).
  exists w1, w2. split; [done |]. split.
  { rewrite Ht1, !RawDumps_app, Hd0, Hdv, Ht. done. }
  split; [done |]. split; [done |]. split; [| done].
  rewrite Ht2, RawDumps_app, Hd2, app_nil_r. done.
Qed.

(** X9. The missing-timecode warning is logged at most once over any
    sequence of frames, and not at all once the latch
    [bHasWarnedMissingTimecode] is set.  It is logged: a frame processed in
    the [Playing] state that has no timecode, on a callback that expects
    one and has not warned yet, logs it once. *)
Theorem X9_missing_timecode_warned_once this frames w cb :
  Heap w !! this = Some cb ->
  (exists w' es,
     ReceiveFrames this frames w = Some w'
     /\ Trace w' = Trace w ++ es
     /\ (MissingTimecodeWarnings es <= 1)%nat
     /\ (bHasWarnedMissingTimecode cb = true -> MissingTimecodeWarnings es = 0%nat))
  /\ forall clock info,
       ProcessedWhilePlaying cb info ->
       bHaveTimecode info = false -> bIsTimecodeExpected cb = true ->
       bHasWarnedMissingTimecode cb = false ->
       exists w1 es1,
         OnFrameReceived this clock info w = Some w1
         /\ Trace w1 = Trace w ++ es1
         /\ In (UE_LOG ELogVerbosity.Warning (MissingTimecode (GetUrl w))) es1
         /\ MissingTimecodeWarnings es1 = 1%nat.
Proof.
  intros Hcb. split.
  - destruct (ReceiveFrames_effects this frames w cb Hcb)
      as (w' & cb' & es & Hrun & _ & Ht & _ & _ & Hm & _).
    exists w', es. split_and!; try done.
    + destruct (bHasWarnedMissingTimecode cb); lia.
    + intros Hw. rewrite Hw in Hm. lia.
  - intros clock info (Hp & Hno & Hst) Hno_tc Hexp Hw.
    destruct (OnFrameReceived_Playing_exact this clock info w cb Hcb Hp Hno Hst)
      as (w1 & cb1 & Hrun & _ & Ht & _).
    eexists w1, _. split; [done |]. split; [exact Ht |].
    destruct (TimecodeEffects_shape clock info cb w) as (_ & _ & Hm).
    rewrite MissingTimecodeWarnings_app, Hm, Hno_tc, Hw, Hexp. split.
    + apply in_or_app. left. unfold TimecodeEffects. rewrite Hno_tc, Hw, Hexp. by left.
    + destruct (negb (is_null (VideoBuffer info)) && VideoRoom info cb w); [| done].
      destruct (VideoEffects_shape info (SampleTimecode info w)
                  (bBlackmagicWriteOutputRawDataCmdEnable w) cb) as (_ & -> & _). done.
Qed.

Lemma TimecodeEffects_burn clock info cb w :
  BurntTimecodes (TimecodeEffects clock info cb w) = [].
Proof. unfold TimecodeEffects. repeat case_match; done. Qed.

(** X10. The timecode is burnt into the picture exactly for a progressive
    frame that has a timecode, on a callback with
    [bEncodeTimecodeInTexel]; the hours, minutes, seconds and frames burnt
    are those of the hardware timecode.  An interlaced frame, a frame
    without timecode, or a callback without the option, burn nothing. *)
Theorem X10_timecode_burnt_into_progressive_frames this clock info buffer w cb :
  Heap w !! this = Some cb ->
  ProcessedWhilePlaying cb info ->
  VideoBuffer info = Some buffer ->
  VideoOccupancy info (TheSamples w)
    < int32 (MaxNumVideoFrameBuffer cb * ToleratedExtraMaxBufferCount) ->
  exists w' es,
    OnFrameReceived this clock info w = Some w'
    /\ Trace w' = Trace w ++ es
    /\ BurntTimecodes es
       = if negb (bool_decide (FieldDominance info = EFieldDominance.Interlaced))
            && bHaveTimecode info && bEncodeTimecodeInTexel cb
         then [(int32 (bmHours (Timecode info)), int32 (bmMinutes (Timecode info)),
                int32 (bmSeconds (Timecode info)), int32 (bmFrames (Timecode info)))]
         else [].
Proof.
  intros Hcb (Hp & Hno & Hst) Hbuf Hroom.
  destruct (OnFrameReceived_Playing_exact this clock info w cb Hcb Hp Hno Hst)
    as (w' & cb' & Hrun & _ & Ht & _).
  eexists w', _. split; [done |]. split; [exact Ht |].
  unfold BurntTimecodes. rewrite omap_app.
  fold (BurntTimecodes (TimecodeEffects clock info cb w)).
  rewrite TimecodeEffects_burn, Hbuf. unfold VideoRoom.
  rewrite (proj2 (Z.ltb_lt _ _) Hroom). simpl.
  unfold VideoEffects, SampleTimecode, DecodedTimecodeOf.
  destruct (bBlackmagicWriteOutputRawDataCmdEnable w),
    (bool_decide (FieldDominance info = EFieldDominance.Interlaced)),
    (bHaveTimecode info), (bEncodeTimecodeInTexel cb); done.
Qed.

(** *** The calls of the SDK *)

Lemma behind_the_player_refl w : behind_the_player w w.
Proof. split_and!; try done. exists []. by rewrite app_nil_r. Qed.

Lemma behind_the_player_trans w1 w2 w3 :
  behind_the_player w1 w2 -> behind_the_player w2 w3 -> behind_the_player w1 w3.
Proof.
  intros (Hs & He & Hc & es & Ht & Hf) (Hs' & He' & Hc' & es' & Ht' & Hf').
  split_and!; try congruence.
  exists (es ++ es'). rewrite Ht', Ht, <- app_assoc, forallb_app, Hf, Hf'. done.
Qed.

Lemma behind_the_player_store this cb w : behind_the_player w (store this cb w).
Proof.
  destruct (store_frame this cb w) as (Hp & Hs & Ht & _).
  split_and!; try (by rewrite ?Hp). exists []. by rewrite Ht, app_nil_r.
Qed.

Lemma frame_effects_callback es :
  forallb is_frame_effect es = true -> forallb is_callback_effect es = true.
Proof.
  induction es as [| e es IH]; [done |]. simpl. intros [He Hes]%andb_true_iff.
  rewrite (IH Hes), andb_true_r. by destruct e.
Qed.

Lemma OnFrameReceived_behind this clock info w w' :
  OnFrameReceived this clock info w = Some w' -> behind_the_player w w'.
Proof.
  intros Hrun.
  destruct (Heap w !! this) as [cb|] eqn:Hcb;
    [| unfold OnFrameReceived in Hrun; by rewrite Hcb in Hrun].
  destruct (OnFrameReceived_effects this clock info w cb Hcb)
    as (w1 & cb1 & es & Hrun1 & _ & Ht & Hf & _).
  assert (w1 = w') as -> by congruence.
  assert (Hpub : Sdk w' = Sdk w
                 /\ EventCallback (Player w') = EventCallback (Player w)
                 /\ CurrentState (Super (Player w')) = CurrentState (Super (Player w))).
  { clear Hrun1 Ht Hf.
    destruct (MediaPlayer cb) eqn:Hp.
    2: { rewrite (OnFrameReceived_detached this clock info w cb Hcb Hp) in Hrun.
         by inversion Hrun. }
    destruct (IsNoSignal info) eqn:Hno.
    { rewrite (OnFrameReceived_NoSignal this clock info w cb Hcb Hp Hno) in Hrun.
      inversion Hrun; subst w'; clear Hrun.
      destruct (NoSignal clock cb w) as [cb2 w2] eqn:Hns. simpl.
      destruct (NoSignal_effects _ _ _ _ _ Hns) as (_ & _ & Hpl & Hs & _).
      destruct (store_frame this cb2 w2) as (Hsp & Hss & _).
      rewrite Hsp, Hss, Hpl, Hs. done. }
    destruct (decide (MediaState cb = EMediaState.Playing)) as [Hst | Hst].
    2: { rewrite (OnFrameReceived_not_Playing this clock info w cb Hcb Hp Hno Hst) in Hrun.
         inversion Hrun; subst w'; clear Hrun.
         match goal with
         | |- context [store this ?c w] =>
             destruct (store_frame this c w) as (Hsp & Hss & _)
         end.
         rewrite Hsp, Hss. done. }
    destruct (OnFrameReceived_Playing_blocks this clock info w cb Hcb Hp Hno Hst)
      as (L & cb1' & w1 & cb2 & w2 & cb3 & w3 & Htc & Ha & Hv & Hrun').
    rewrite Hrun' in Hrun. inversion Hrun; subst w'; clear Hrun Hrun'.
    destruct (ReceiveTimecode_frame _ _ _ _ _ _ _ _ Htc eq_refl eq_refl eq_refl)
      as ((_ & Hs1 & He1 & _ & _ & _ & Hc1) & _).
    destruct (ReceiveAudio_frame _ _ _ _ _ _ Ha) as ((_ & Hs2 & He2 & _ & _ & _ & Hc2) & _).
    destruct (ReceiveVideo_frame _ _ _ _ _ _ Hv) as ((_ & Hs3 & He3 & _ & _ & _ & Hc3) & _).
    destruct (store_frame this cb3 w3) as (Hsp & Hss & _).
    rewrite Hsp, Hss. split_and!; congruence. }
  destruct Hpub as (Hs & He & Hc). split_and!; try done.
  exists es. split; [done |]. by apply frame_effects_callback.
Qed.

Lemma sdk_step_behind c w w' :
  is_sdk_call c = true -> step c w = Some w' -> behind_the_player w w'.
Proof.
  destruct c; simpl; try done; intros _ Hrun.
  - unfold AddRef in Hrun. destruct (Heap w !! this) as [cb|]; [| done].
    inversion Hrun. apply behind_the_player_store.
  - unfold Release in Hrun. destruct (Heap w !! this) as [cb|]; [| done].
    simpl in Hrun. case_match; inversion Hrun.
    + unfold emit. open_world w. split_and!; try done. by exists [DeleteThis this].
    + apply behind_the_player_store.
  - unfold OnInitializationCompleted in Hrun. destruct (Heap w !! this) as [cb|]; [| done].
    inversion Hrun. apply behind_the_player_store.
  - unfold OnShutdownCompleted in Hrun. destruct (Heap w !! this) as [cb|]; [| done].
    inversion Hrun. apply behind_the_player_store.
  - by apply OnFrameReceived_behind in Hrun.
  - unfold OnFrameFormatChanged in Hrun. destruct (Heap w !! this) as [cb|]; [| done].
    inversion Hrun.
    eapply behind_the_player_trans; [| apply behind_the_player_store].
    unfold emit. open_world w. split_and!; try done. by eexists [_].
  - unfold OnInterlacedOddFieldEvent in Hrun. destruct (Heap w !! this) as [cb|]; [| done].
    inversion Hrun. apply behind_the_player_refl.
Qed.

(** X11. The calls the SDK makes on a callback object ([AddRef], [Release],
    [OnInitializationCompleted], [OnShutdownCompleted], [OnFrameReceived],
    [OnFrameFormatChanged], [OnInterlacedOddFieldEvent]), in any number and
    order, never notify the event sink, never register or unregister a
    channel, and change neither the player's callback pointer nor its
    published [CurrentState]: a state change of the callback reaches the
    player only at its next [TickInput]. *)
Theorem X11_sdk_calls_stay_behind_the_player calls : forall w w',
  forallb is_sdk_call calls = true ->
  run calls w = Some w' ->
  Sdk w' = Sdk w
  /\ EventCallback (Player w') = EventCallback (Player w)
  /\ CurrentState (Super (Player w')) = CurrentState (Super (Player w))
  /\ exists es, Trace w' = Trace w ++ es
                /\ forall e, In e es ->
                     match e with
                     | MediaEvent _ | SdkRegister _ | SdkUnregister _ _ => False
                     | _ => True
                     end.
Proof.
  assert (Hrun : forall w w', forallb is_sdk_call calls = true ->
                   run calls w = Some w' -> behind_the_player w w').
  { induction calls as [| c calls IH]; intros w w' Hsdk Hrun.
    - inversion Hrun. apply behind_the_player_refl.
    - simpl in Hsdk. apply andb_true_iff in Hsdk as [Hc Hcs].
      simpl in Hrun. destruct (step c w) as [w1|] eqn:Hstep; [| done].
      eapply behind_the_player_trans;
        [exact (sdk_step_behind c w w1 Hc Hstep) | by apply IH]. }
  intros w w' Hsdk Hr. destruct (Hrun w w' Hsdk Hr) as (Hs & He & Hc & es & Ht & Hf).
  split_and!; try done. exists es. split; [done |].
  intros e Hin. rewrite forallb_forall in Hf. specialize (Hf e Hin). by destruct e.
Qed.

(** *** More on the buffer maintenance and on [TickFetch] *)

Lemma overflow_count (n M : Z) :
  0 <= n <= INT32_MAX -> 0 <= M <= INT32_MAX ->
  Z.to_nat (FMath_Max (int32 (n - M)) 0) = Z.to_nat (n - M).
Proof.
  unfold INT32_MAX. intros Hn HM. rewrite int32_small by lia.
  unfold FMath_Max. destruct (Z.ltb_spec (n - M) 0); lia.
Qed.

(** X12. The buffer maintenance drops the oldest samples and keeps the
    newest: with a maximum M and a queue of n samples (both within
    [int32]), the queue afterwards is the old one without its first n - M
    samples, in the same order, and it is untouched when n <= M. *)
Theorem X12_trim_keeps_newest this InUrl w cb :
  Heap w !! this = Some cb -> MediaPlayer cb = true ->
  0 <= MaxNumAudioFrameBuffer cb <= INT32_MAX ->
  0 <= MaxNumVideoFrameBuffer cb <= INT32_MAX ->
  NumAudioSamples (TheSamples w) <= INT32_MAX ->
  NumVideoSamples (TheSamples w) <= INT32_MAX ->
  exists w',
    VerifyFrameDropCount_GameThread this InUrl w = Some w'
    /\ AudioSamples (TheSamples w')
       = drop (Z.to_nat (NumAudioSamples (TheSamples w) - MaxNumAudioFrameBuffer cb))
           (AudioSamples (TheSamples w))
    /\ VideoSamples (TheSamples w')
       = drop (Z.to_nat (NumVideoSamples (TheSamples w) - MaxNumVideoFrameBuffer cb))
           (VideoSamples (TheSamples w))
    /\ (NumAudioSamples (TheSamples w) <= MaxNumAudioFrameBuffer cb ->
        AudioSamples (TheSamples w') = AudioSamples (TheSamples w))
    /\ (NumVideoSamples (TheSamples w) <= MaxNumVideoFrameBuffer cb ->
        VideoSamples (TheSamples w') = VideoSamples (TheSamples w)).
Proof.
  intros Hcb Hp HA HV Ha Hv.
  destruct (VerifyFrameDropCount_GameThread_spec this InUrl w cb Hcb Hp)
    as (w' & Hrun & Has & Hvs & _).
  assert (Hna : 0 <= NumAudioSamples (TheSamples w)) by (unfold NumAudioSamples; lia).
  assert (Hnv : 0 <= NumVideoSamples (TheSamples w)) by (unfold NumVideoSamples; lia).
  unfold AudioOverflowCount in Has. unfold VideoOverflowCount in Hvs.
  rewrite overflow_count in Has by lia. rewrite overflow_count in Hvs by lia.
  exists w'. split_and!; try done.
  - intros Hle. rewrite Has. replace (Z.to_nat _) with 0%nat by lia. done.
  - intros Hle. rewrite Hvs. replace (Z.to_nat _) with 0%nat by lia. done.
Qed.

Lemma same_base_with_Samples f w : same_base w (with_Samples f w).
Proof. unfold same_base, with_Samples, with_Super. by open_world w. Qed.

Lemma same_base_emit e w : same_base w (emit e w).
Proof. unfold same_base, emit. by open_world w. Qed.

Lemma same_base_store this cb w : same_base w (store this cb w).
Proof. unfold same_base, store. by open_world w. Qed.

Lemma same_base_trans w1 w2 w3 : same_base w1 w2 -> same_base w2 w3 -> same_base w1 w3.
Proof. unfold same_base. intros (? & ? & ?) (? & ? & ?). split_and!; congruence. Qed.

Lemma VerifyFrameDropCount_GameThread_base this InUrl w w' :
  VerifyFrameDropCount_GameThread this InUrl w = Some w' -> same_base w w'.
Proof.
  unfold VerifyFrameDropCount_GameThread.
  destruct (Heap w !! this) as [cb|]; [| done]. cbn [mbind option_bind].
  destruct (MediaPlayer cb); [| done]. cbn [negb]. cbv zeta.
  set (w1 := with_Samples _ w).
  assert (H1 : same_base w w1) by apply same_base_with_Samples.
  clearbody w1.
  set (w2 := with_Samples _ w1).
  assert (H2 : same_base w w2)
    by (eapply same_base_trans; [exact H1 | apply same_base_with_Samples]).
  clearbody w2. clear H1.
  destruct (bVerifyFrameDropCount (Player w2)); [| by intros [= <-]].
  intros [= <-].
  eapply same_base_trans; [| apply same_base_store].
  repeat case_match;
    repeat (eapply same_base_trans; [| apply same_base_emit]); exact H2.
Qed.

(** X13. [TickFetch] acts only while the callback reports [Playing], which
    it reads from the callback, not from the player's published state.
    Then it refreshes the player's audio track format from the values the
    callback last observed and trims both queues to their maxima (oldest
    samples first), leaving the published state alone; in any other
    callback state it does nothing. *)
Theorem X13_TickFetch_acts_only_while_Playing w this cb :
  EventCallback (Player w) = Some this ->
  Heap w !! this = Some cb -> MediaPlayer cb = true ->
  0 <= MaxNumAudioFrameBuffer cb <= INT32_MAX ->
  0 <= MaxNumVideoFrameBuffer cb <= INT32_MAX ->
  NumAudioSamples (TheSamples w) <= INT32_MAX ->
  NumVideoSamples (TheSamples w) <= INT32_MAX ->
  if bool_decide (MediaState cb = EMediaState.Playing)
  then exists w',
         TickFetch w = Some w'
         /\ AudioTrackFormat (Super (Player w'))
            = {| BitsPerSample := LastBitsPerSample cb;
                 NumChannels := LastNumChannels cb;
                 SampleRate := LastSampleRate cb |}
         /\ AudioSamples (TheSamples w')
            = drop (Z.to_nat (NumAudioSamples (TheSamples w) - MaxNumAudioFrameBuffer cb))
                (AudioSamples (TheSamples w))
         /\ VideoSamples (TheSamples w')
            = drop (Z.to_nat (NumVideoSamples (TheSamples w) - MaxNumVideoFrameBuffer cb))
                (VideoSamples (TheSamples w))
         /\ CurrentState (Super (Player w')) = CurrentState (Super (Player w))
  else TickFetch w = Some w.
Proof.
  intros Hec Hcb Hp HA HV Ha Hv.
  unfold TickFetch, IsHardwareReady, GetMediaState. rewrite Hec, Hcb.
  cbn [mbind option_bind].
  destruct (bool_decide (MediaState cb = EMediaState.Playing)) eqn:Hst; [| done].
  unfold ProcessFrame. rewrite Hec. cbn [mbind option_bind]. rewrite Hcb.
  cbn [mbind option_bind].
  set (w1 := with_Super _ w).
  assert (H1 : Heap w1 = Heap w /\ TheSamples w1 = TheSamples w
               /\ EventCallback (Player w1) = EventCallback (Player w)
               /\ CurrentState (Super (Player w1)) = CurrentState (Super (Player w))
               /\ AudioTrackFormat (Super (Player w1))
                  = {| BitsPerSample := LastBitsPerSample cb;
                       NumChannels := LastNumChannels cb;
                       SampleRate := LastSampleRate cb |}).
  { subst w1. unfold with_Super, TheSamples, UpdateAudioTrackFormat. by open_world w. }
  destruct H1 as (Hh & Hs & He & Hc & Hf). clearbody w1.
  unfold VerifyFrameDropCount. rewrite He, Hec. cbn [mbind option_bind].
  assert (Hcb1 : Heap w1 !! this = Some cb) by (by rewrite Hh).
  destruct (VerifyFrameDropCount_GameThread_spec this (GetUrl w1) w1 cb Hcb1 Hp)
    as (w' & Hrun & Has & Hvs & _).
  destruct (VerifyFrameDropCount_GameThread_base _ _ _ _ Hrun) as (Hc' & Hf' & _).
  assert (Hna : 0 <= NumAudioSamples (TheSamples w)) by (unfold NumAudioSamples; lia).
  assert (Hnv : 0 <= NumVideoSamples (TheSamples w)) by (unfold NumVideoSamples; lia).
  rewrite Hs in Has, Hvs.
  unfold AudioOverflowCount in Has. unfold VideoOverflowCount in Hvs.
  rewrite overflow_count in Has by lia. rewrite overflow_count in Hvs by lia.
  exists w'. split_and!; try done; congruence.
Qed.

(** *** The reference count *)

(** X14. [AddRef] followed by [Release] gives back the same world when the
    object was referenced before (a count that is not 0 and fits an
    [int32]); on a count of 0 the pair destroys the object: [Release]
    deletes it exactly when the count reaches 0. *)
Theorem X14_AddRef_Release this w cb :
  Heap w !! this = Some cb ->
  - 2 ^ 31 <= RefCounter cb < 2 ^ 31 - 1 ->
  if decide (RefCounter cb = 0)
  then exists w',
         (w1 ← AddRef this w; Release this w1) = Some w'
         /\ Heap w' = delete this (Heap w)
         /\ Trace w' = Trace w ++ [DeleteThis this]
  else (w1 ← AddRef this w; Release this w1) = Some w.
Proof.
  intros Hcb Hr. unfold AddRef. rewrite Hcb. cbn [mbind option_bind].
  unfold Release.
  destruct (store_frame this (set_RefCounter (int32 (RefCounter cb + 1)) cb) w)
    as (_ & _ & _ & _ & -> & _).
  cbn [mbind option_bind].
  assert (Hn : int32 (RefCounter (set_RefCounter (int32 (RefCounter cb + 1)) cb) - 1)
               = RefCounter cb).
  { destruct cb. simpl in *. rewrite (int32_small (RefCounter0 + 1)) by lia.
    rewrite int32_small by lia. lia. }
  cbv zeta. rewrite Hn.
  destruct (decide (RefCounter cb = 0)) as [Hz | Hz].
  - eexists. split; [reflexivity |]. unfold emit, store. open_world w. simpl.
    split; [| done]. apply delete_insert_eq.
  - f_equal. unfold store. open_world w. simpl in *. f_equal.
    rewrite insert_insert_eq. apply insert_id. rewrite Hcb. f_equal. by destruct cb.
Qed.

(** X15. [Uninitialize] on the last reference (a count of 1) does not
    return safely: its [Release] deletes the object, and the scoped lock on
    [CallbackLock], a member of the object, is then released on freed
    memory.  On any other count it returns: the channel registration is
    given up exactly when the callback holds a valid identifier, and the
    object is left detached from the player, without identifier, one
    reference short and (if it was registered) in the [Stopped] state.  A
    second [Uninitialize] on the survivor, unless that is now its last
    reference, unregisters nothing and leaves the SDK as it is. *)
Theorem X15_Uninitialize_unregisters_once this w cb :
  Heap w !! this = Some cb ->
  - 2 ^ 31 + 1 < RefCounter cb < 2 ^ 31 ->
  if decide (RefCounter cb = 1)
  then Uninitialize this w = None
  else exists w' cb',
         Uninitialize this w = Some w'
         /\ Player w' = Player w
         /\ Trace w'
            = Trace w ++ (if IsValid (BlackmagicIdendifier cb)
                          then [SdkUnregister (ChannelInfo cb) (BlackmagicIdendifier cb)]
                          else [])
         /\ Sdk w'
            = (if IsValid (BlackmagicIdendifier cb)
               then UnregisterCallbackForChannel (ChannelInfo cb)
                      (BlackmagicIdendifier cb) (Sdk w)
               else Sdk w)
         /\ Heap w' = <[this := cb']> (Heap w)
         /\ MediaPlayer cb' = false
         /\ BlackmagicIdendifier cb' = None
         /\ RefCounter cb' = RefCounter cb - 1
         /\ MediaState cb'
            = (if IsValid (BlackmagicIdendifier cb)
               then EMediaState.Stopped else MediaState cb)
         /\ (RefCounter cb <> 2 ->
             exists w'',
               Uninitialize this w' = Some w''
               /\ Trace w'' = Trace w' /\ Sdk w'' = Sdk w').
Proof.
  intros Hcb Hr.
  pose proof (Uninitialize_exact this w cb Hcb) as Hun.
  rewrite (int32_small (RefCounter cb - 1)) in Hun by lia.
  destruct (decide (RefCounter cb = 1)) as [Hone | Hone].
  - rewrite decide_True in Hun by lia. exact Hun.
  - rewrite decide_False in Hun by lia.
    destruct Hun as (w' & Hrun & Hp & Ht & Hs & Hh).
    destruct (Uninitialized_facts cb) as (Hp' & Hid' & Hrc' & Hst' & _).
    rewrite int32_small in Hrc' by lia.
    exists w', (Uninitialized cb). split_and!; try done.
    intros Htwo.
    assert (Hcb' : Heap w' !! this = Some (Uninitialized cb))
      by (rewrite Hh; apply lookup_insert_eq).
    pose proof (Uninitialize_exact this w' (Uninitialized cb) Hcb') as Hun'.
    rewrite Hrc', int32_small, decide_False in Hun' by lia.
    destruct Hun' as (w'' & Hrun' & _ & Ht' & Hs' & _).
    unfold UnregisterEffects in Ht'. unfold Unregistered in Hs'.
    rewrite Hid' in Ht', Hs'. simpl in Ht', Hs'. rewrite app_nil_r in Ht'.
    by exists w''.
Qed.

(** *** [Initialize] and [Open], exactly *)

Lemma Initialize_exact this o e a v g w cb id taken sdk :
  Heap w !! this = Some cb ->
  - 2 ^ 31 <= RefCounter cb -> RefCounter cb + 2 + Z.of_nat taken < 2 ^ 31 ->
  RefCounter cb + 1 + Z.of_nat taken <> 0 ->
  RegisterCallbackForChannel (ChannelInfo cb) o this (Sdk w) = (id, taken, sdk) ->
  exists w',
    Initialize this o e a v g w = Some (IsValid id, w')
    /\ Player w' = Player w /\ Sdk w' = sdk
    /\ Trace w' = Trace w ++ [SdkRegister this]
    /\ Heap w' = <[this := Initialized cb o e a v g id taken]> (Heap w).
Proof.
  intros Hcb Hlo Hhi Hnz Hreg.
  unfold Initialize, AddRef. rewrite Hcb. cbn [mbind option_bind].
  destruct cb as [r ? info ? ? ? ? ? ? ? ? ? ? ? ? ? ? ? ? ? ?]. simpl in *.
  repeat (rewrite ?Heap_store, ?lookup_insert_eq, ?Sdk_store;
          cbn [mbind option_bind]; simpl).
  rewrite Hreg.
  rewrite (int32_small (r + 1)) by lia.
  rewrite (int32_small (r + 1 + 1)) by lia.
  rewrite (int32_small (r + 1 + 1 + Z.of_nat taken)) by lia.
  unfold Release. rewrite !Heap_store, !lookup_insert_eq. cbn [mbind option_bind].
  simpl. rewrite int32_small by lia.
  rewrite decide_False by lia.
  eexists. split; [reflexivity |].
  unfold Initialized, emit, store. open_world w. simpl. split_and!; try done.
  rewrite !insert_insert_eq. do 2 f_equal. lia.
Qed.

Lemma Open_registration Url Options w base sent id taken sdk :
  bIsInitialized w = true -> bCanUseBlackmagicCard w = true ->
  EventCallback (Player w) = None ->
  SuperOpen Url Options (Super (Player w)) = (true, base, sent) ->
  RegisterCallbackForChannel (ChannelInfoOf Options) (ChannelOptionsOf Options)
    (fresh (dom (Heap w))) (Sdk w) = (id, taken, sdk) ->
  Z.of_nat taken < 2 ^ 31 - 2 ->
  exists w1 cb1,
    Heap w !! fresh (dom (Heap w)) = None
    /\ Heap w1 = <[fresh (dom (Heap w)) := cb1]> (Heap w)
    /\ MediaPlayer cb1 = true
    /\ MediaState cb1 = (if IsValid id then EMediaState.Preparing else EMediaState.Error)
    /\ BlackmagicIdendifier cb1 = id
    /\ ChannelInfo cb1 = ChannelInfoOf Options
    /\ RefCounter cb1 = 1 + Z.of_nat taken
    /\ MaxNumAudioFrameBuffer cb1
       = int32 (GetMediaOption_int64 Options BlackmagicMediaOption.MaxAudioFrameBuffer 8)
    /\ MaxNumVideoFrameBuffer cb1
       = int32 (GetMediaOption_int64 Options BlackmagicMediaOption.MaxVideoFrameBuffer 8)
    /\ bIsSRGBInput cb1 = GetMediaOption_bool Options BlackmagicMediaOption.SRGBInput true
    /\ AudioFrameDropCount cb1 = 0 /\ VideoFrameDropCount cb1 = 0
    /\ bReceivedValidFrame cb1 = false
    /\ Super (Player w1) = base
    /\ EventCallback (Player w1) = Some (fresh (dom (Heap w)))
    /\ bVerifyFrameDropCount (Player w1)
       = GetMediaOption_bool Options BlackmagicMediaOption.LogDropFrame false
    /\ Sdk w1 = sdk
    /\ Trace w1 = Trace w ++ (MediaEvent <$> sent) ++ [SdkRegister (fresh (dom (Heap w)))]
    /\ Open Url Options w
       = if IsValid id then Some (true, w1)
         else w2 ← Uninitialize (fresh (dom (Heap w))) w1;
              Some (false, set_Player (set_EventCallback None (Player w2)) w2).
Proof.
  intros Hinit Hcan Hnone Hsuper Hreg Htaken.
  assert (Hfresh : Heap w !! fresh (dom (Heap w)) = None)
    by (apply not_elem_of_dom, is_fresh).
  unfold Open. rewrite Hinit, Hcan, Hsuper. cbn [negb].
  set (w0 := call_Super (base, sent) w).
  assert (H0 : Heap w0 = Heap w /\ Sdk w0 = Sdk w
               /\ EventCallback (Player w0) = None
               /\ Super (Player w0) = base
               /\ Trace w0 = Trace w ++ (MediaEvent <$> sent)).
  { subst w0. unfold call_Super, emits. open_world w. simpl in *. done. }
  destruct H0 as (Hh0 & Hs0 & He0 & Hb0 & Ht0). clearbody w0.
  rewrite He0. cbn [is_null negb]. rewrite Hh0.
  set (this := fresh (dom (Heap w))) in *.
  fold (ChannelInfoOf Options). fold (ChannelOptionsOf Options).
  match goal with
  | |- context [Initialize this ?o ?e ?a ?v ?g ?x] =>
      set (w1 := x);
      assert (H1 : Heap w1 = <[this := new_FBlackmagicMediaPlayerEventCallback
                                         (ChannelInfoOf Options)]> (Heap w)
                   /\ Sdk w1 = Sdk w /\ Trace w1 = Trace w ++ (MediaEvent <$> sent)
                   /\ Super (Player w1) = base
                   /\ EventCallback (Player w1) = Some this
                   /\ bVerifyFrameDropCount (Player w1)
                      = GetMediaOption_bool Options BlackmagicMediaOption.LogDropFrame false);
      [ subst w1; unfold store; rewrite <- Hh0, <- Hs0, <- Ht0, <- Hb0;
        by open_world w0 |];
      destruct H1 as (Hh1 & Hs1 & Ht1 & Hb1 & He1 & Hv1); clearbody w1;
      destruct (Initialize_exact this o e a v g w1
                  (new_FBlackmagicMediaPlayerEventCallback (ChannelInfoOf Options))
                  id taken sdk) as (w2 & Hrun & Hp2 & Hs2 & Ht2 & Hh2);
      [ by rewrite Hh1, lookup_insert_eq | simpl; lia | simpl; lia | simpl; lia
      | by rewrite Hs1 |];
      rewrite Hrun; cbn [mbind option_bind];
      exists w2, (Initialized (new_FBlackmagicMediaPlayerEventCallback (ChannelInfoOf Options))
                    o e a v g id taken)
  end.
  rewrite Hp2, Hh2, Hh1, Ht2, Ht1, <- app_assoc, insert_insert_eq.
  split_and!; try done.
  by destruct (IsValid id).
Qed.

(** X16. [Open], past its availability checks and with the base class
    agreeing, constructs one callback object at a fresh address and
    registers it once.  When the registration returns a valid identifier,
    [Open] returns true and the player points to the new object, which is
    attached, in the [Preparing] state, holds the player's reference and
    those the SDK took, carries the device index (0 by default) and the
    buffer maxima (8 by default) of the options, each narrowed to [int32],
    and has counted no drop; [bVerifyFrameDropCount] is the [LogDropFrame] option; nothing
    else in the heap changes. *)
Theorem X16_Open_registers_a_callback Url Options w base sent id taken sdk :
  bIsInitialized w = true -> bCanUseBlackmagicCard w = true ->
  EventCallback (Player w) = None ->
  SuperOpen Url Options (Super (Player w)) = (true, base, sent) ->
  RegisterCallbackForChannel (ChannelInfoOf Options) (ChannelOptionsOf Options)
    (fresh (dom (Heap w))) (Sdk w) = (Some id, taken, sdk) ->
  Z.of_nat taken < 2 ^ 31 - 2 ->
  exists w' this cb',
    Open Url Options w = Some (true, w')
    /\ Heap w !! this = None
    /\ Heap w' = <[this := cb']> (Heap w)
    /\ EventCallback (Player w') = Some this
    /\ MediaPlayer cb' = true
    /\ MediaState cb' = EMediaState.Preparing
    /\ BlackmagicIdendifier cb' = Some id
    /\ DeviceIndex (ChannelInfo cb')
       = int32 (GetMediaOption_int64 Options BlackmagicMediaOption.DeviceIndex 0)
    /\ RefCounter cb' = 1 + Z.of_nat taken
    /\ MaxNumAudioFrameBuffer cb'
       = int32 (GetMediaOption_int64 Options BlackmagicMediaOption.MaxAudioFrameBuffer 8)
    /\ MaxNumVideoFrameBuffer cb'
       = int32 (GetMediaOption_int64 Options BlackmagicMediaOption.MaxVideoFrameBuffer 8)
    /\ AudioFrameDropCount cb' = 0 /\ VideoFrameDropCount cb' = 0
    /\ bVerifyFrameDropCount (Player w')
       = GetMediaOption_bool Options BlackmagicMediaOption.LogDropFrame false
    /\ Super (Player w') = base
    /\ Sdk w' = sdk
    /\ Trace w' = Trace w ++ (MediaEvent <$> sent) ++ [SdkRegister this].
Proof.
  intros Hinit Hcan Hnone Hsuper Hreg Htaken.
  destruct (Open_registration Url Options w base sent (Some id) taken sdk
              Hinit Hcan Hnone Hsuper Hreg Htaken)
    as (w1 & cb1 & Hfresh & Hh & Hp & Hst & Hid & Hci & Hrc & HA & HV & _ & Hda & Hdv
        & _ & Hb & He & Hv & Hs & Ht & Hrun).
  exists w1, (fresh (dom (Heap w))), cb1. simpl in Hst, Hrun.
  split_and!; try done. by rewrite Hci.
Qed.

(** X17. When the registration fails (no valid identifier comes back),
    [Open] runs [Uninitialize] on the new callback, whose count is then 1
    plus the references the SDK kept.  If the SDK kept none, this is the
    last reference: the object is deleted inside [Uninitialize] and the
    scoped lock on its member [CallbackLock] is released on freed memory,
    so [Open] does not return safely.  If the SDK kept references, [Open]
    returns false and leaves the player without callback; it has asked for
    the registration once and unregisters nothing, since there is no
    identifier to give up; the object lives on with the references of the
    SDK, detached from the player and in the [Error] state.  The base class
    stays as its own [Open] left it: [Close] is not called. *)
Theorem X17_Open_registration_failure Url Options w base sent taken sdk :
  bIsInitialized w = true -> bCanUseBlackmagicCard w = true ->
  EventCallback (Player w) = None ->
  SuperOpen Url Options (Super (Player w)) = (true, base, sent) ->
  RegisterCallbackForChannel (ChannelInfoOf Options) (ChannelOptionsOf Options)
    (fresh (dom (Heap w))) (Sdk w) = (None, taken, sdk) ->
  Z.of_nat taken < 2 ^ 31 - 2 ->
  if decide (taken = 0%nat)
  then Open Url Options w = None
  else exists w' cb',
         Open Url Options w = Some (false, w')
         /\ EventCallback (Player w') = None
         /\ Super (Player w') = base
         /\ Sdk w' = sdk
         /\ Trace w'
            = Trace w ++ (MediaEvent <$> sent) ++ [SdkRegister (fresh (dom (Heap w)))]
         /\ Heap w' = <[fresh (dom (Heap w)) := cb']> (Heap w)
         /\ MediaPlayer cb' = false
         /\ MediaState cb' = EMediaState.Error
         /\ BlackmagicIdendifier cb' = None
         /\ RefCounter cb' = Z.of_nat taken.
Proof.
  intros Hinit Hcan Hnone Hsuper Hreg Htaken.
  destruct (Open_registration Url Options w base sent None taken sdk
              Hinit Hcan Hnone Hsuper Hreg Htaken)
    as (w1 & cb1 & Hfresh & Hh & Hp & Hst & Hid & Hci & Hrc & _ & _ & _ & _ & _
        & _ & Hb & He & Hv & Hs & Ht & Hrun).
  set (this := fresh (dom (Heap w))) in *. simpl in Hst, Hrun.
  assert (Hcb1 : Heap w1 !! this = Some cb1) by (by rewrite Hh, lookup_insert_eq).
  pose proof (Uninitialize_exact this w1 cb1 Hcb1) as Hun.
  rewrite Hrc, int32_small in Hun by lia.
  destruct (decide (taken = 0%nat)) as [Hzero | Hkept].
  - rewrite decide_True in Hun by lia. by rewrite Hrun, Hun.
  - rewrite decide_False in Hun by lia.
    destruct Hun as (w2 & Hun & Hp2 & Ht2 & Hs2 & Hh2).
    rewrite Hun in Hrun. cbn [mbind option_bind] in Hrun.
    unfold UnregisterEffects in Ht2. unfold Unregistered in Hs2.
    rewrite Hid in Ht2, Hs2. simpl in Ht2, Hs2. rewrite app_nil_r in Ht2.
    destruct (Uninitialized_facts cb1) as (Hp' & Hid' & Hrc' & Hst' & _).
    rewrite Hid, Hst in Hst'. simpl in Hst'.
    rewrite Hrc, int32_small in Hrc' by lia.
    exists (set_Player (set_EventCallback None (Player w2)) w2), (Uninitialized cb1).
    split; [done |].
    assert (Hw' : EventCallback (Player (set_Player (set_EventCallback None (Player w2)) w2))
                  = None
                  /\ Super (Player (set_Player (set_EventCallback None (Player w2)) w2))
                     = Super (Player w2)
                  /\ Sdk (set_Player (set_EventCallback None (Player w2)) w2) = Sdk w2
                  /\ Trace (set_Player (set_EventCallback None (Player w2)) w2) = Trace w2
                  /\ Heap (set_Player (set_EventCallback None (Player w2)) w2) = Heap w2)
      by (by open_world w2).
    destruct Hw' as (-> & -> & -> & -> & ->).
    rewrite Hp2, Hs2, Ht2, Ht, Hh2, Hh, insert_insert_eq.
    split_and!; try done. lia.
Qed.

(** *** [TickInput] when nothing is to be announced *)

Lemma TickInput_to_Playing w :
  ObservedState w = Some EMediaState.Playing ->
  CurrentState (Super (Player w)) <> EMediaState.Playing ->
  exists w',
    TickInput w = Some w'
    /\ EventCallback (Player w') = EventCallback (Player w)
    /\ Heap w' = Heap w /\ Sdk w' = Sdk w
    /\ Trace w'
       = Trace w ++ (MediaEvent <$> PlayingTrio)
         ++ (MediaEvent <$>
               snd (TickTimeManagement
                      (set_CurrentState EMediaState.Playing (Super (Player w))))).
Proof.
  unfold ObservedState. intros Hobs Hchanged.
  unfold TickInput. rewrite Hobs. cbn [mbind option_bind].
  unfold UpdatePlayerState.
  rewrite bool_decide_eq_true_2 by done.
  rewrite bool_decide_eq_true_2 by (by open_world w).
  cbn [mbind option_bind].
  rewrite bool_decide_eq_false_2 by (by open_world w; simpl; auto).
  eexists. split; [reflexivity |]. unfold PlayingTrio, call_Super, ReceiveMediaEvent, emit.
  open_world w. simpl. rewrite <- !app_assoc. split_and!; done.
Qed.

(** X18. [TickInput] announces nothing unless it has something new to
    announce.  When the state it reads is the player's current state, it
    does nothing at all if that state is not [Playing], and only runs the
    base-class time management if it is: the three notifications of the
    entry into [Playing] are not sent again.  When the state it reads is
    new but neither [Playing] nor [Error], only the player's current state
    changes: nothing is sent, the callback stays registered and the queues
    are untouched. *)
Theorem X18_TickInput_quiet w NewState :
  ObservedState w = Some NewState ->
  (NewState = CurrentState (Super (Player w)) ->
     TickInput w
     = Some (if bool_decide (NewState = EMediaState.Playing)
             then call_Super (TickTimeManagement (Super (Player w))) w
             else w))
  /\ (NewState <> CurrentState (Super (Player w)) ->
      NewState <> EMediaState.Playing -> NewState <> EMediaState.Error ->
      exists w',
        TickInput w = Some w'
        /\ CurrentState (Super (Player w')) = NewState
        /\ Trace w' = Trace w /\ Heap w' = Heap w /\ Sdk w' = Sdk w
        /\ EventCallback (Player w') = EventCallback (Player w)
        /\ TheSamples w' = TheSamples w).
Proof.
  unfold ObservedState. intros Hobs. split.
  - intros Hsame. unfold TickInput. rewrite Hobs. cbn [mbind option_bind].
    unfold UpdatePlayerState. rewrite bool_decide_eq_false_2 by (by intros []).
    cbn [mbind option_bind]. rewrite <- Hsame.
    destruct (decide (NewState = EMediaState.Playing)) as [Hp | Hp].
    + rewrite bool_decide_eq_false_2 by (by intros []).
      by rewrite bool_decide_eq_true_2.
    + rewrite bool_decide_eq_true_2 by done. by rewrite bool_decide_eq_false_2.
  - intros Hnew Hp He. unfold TickInput. rewrite Hobs. cbn [mbind option_bind].
    unfold UpdatePlayerState. rewrite bool_decide_eq_true_2 by done.
    rewrite bool_decide_eq_false_2 by (by open_world w).
    rewrite bool_decide_eq_false_2 by done.
    cbn [mbind option_bind].
    rewrite bool_decide_eq_true_2 by (by open_world w).
    eexists. split; [reflexivity |]. unfold TheSamples. by open_world w.
Qed.

(** *** [Close] on a registered callback *)

(** X19. [Close] on a player whose callback someone else references too
    (so that it outlives the release of the player's reference): the
    callback is uninitialised (the channel is unregistered exactly when it
    holds a valid identifier; the object is left detached, without
    identifier and one reference short), the player forgets it, both
    sample pools are reset, and the base class is closed; the notifications
    of the base class come after the unregistration. *)
Theorem X19_Close_tears_down w this cb :
  EventCallback (Player w) = Some this ->
  Heap w !! this = Some cb ->
  int32 (RefCounter cb - 1) <> 0 ->
  exists w' cb',
    Close w = Some w'
    /\ EventCallback (Player w') = None
    /\ Trace w'
       = Trace w ++ (if IsValid (BlackmagicIdendifier cb)
                     then [SdkUnregister (ChannelInfo cb) (BlackmagicIdendifier cb)]
                     else [])
         ++ (MediaEvent <$> snd (SuperClose (Super (Player w))))
    /\ Sdk w'
       = (if IsValid (BlackmagicIdendifier cb)
          then UnregisterCallbackForChannel (ChannelInfo cb) (BlackmagicIdendifier cb) (Sdk w)
          else Sdk w)
    /\ Super (Player w') = fst (SuperClose (Super (Player w)))
    /\ AudioSamplePool (Player w') = PoolReset (AudioSamplePool (Player w))
    /\ TextureSamplePool (Player w') = PoolReset (TextureSamplePool (Player w))
    /\ Heap w' = <[this := cb']> (Heap w)
    /\ MediaPlayer cb' = false
    /\ BlackmagicIdendifier cb' = None
    /\ RefCounter cb' = int32 (RefCounter cb - 1)
    /\ MediaState cb'
       = (if IsValid (BlackmagicIdendifier cb) then EMediaState.Stopped else MediaState cb).
Proof.
  intros Hec Hcb Hr.
  destruct (Close_exact w this cb Hec Hcb Hr)
    as (w' & Hclose & Hnone & Ht & Hs & Hb & Hpa & Hpt & Hh).
  destruct (Uninitialized_facts cb) as (Hp' & Hid' & Hrc' & Hst' & _).
  exists w', (Uninitialized cb). split_and!; done.
Qed.

(** *** From [Open] to [Playing] *)

(** X20. The way into playback.  After a successful [Open] the hardware is
    not ready yet; once the SDK has reported the completed initialisation
    on the new callback the hardware is ready, though the player's published
    state is still the one the base class set; the next [TickInput]
    publishes [Playing] and sends [TracksChanged], [MediaOpened],
    [PlaybackResumed] in this order, followed by what the base-class time
    management sends. *)
Theorem X20_Open_to_Playing Url Options w base sent id taken sdk :
  bIsInitialized w = true -> bCanUseBlackmagicCard w = true ->
  EventCallback (Player w) = None ->
  SuperOpen Url Options (Super (Player w)) = (true, base, sent) ->
  RegisterCallbackForChannel (ChannelInfoOf Options) (ChannelOptionsOf Options)
    (fresh (dom (Heap w))) (Sdk w) = (Some id, taken, sdk) ->
  Z.of_nat taken < 2 ^ 31 - 2 ->
  CurrentState base <> EMediaState.Playing ->
  exists this w1 w2 w3,
    Open Url Options w = Some (true, w1)
    /\ EventCallback (Player w1) = Some this
    /\ IsHardwareReady w1 = Some false
    /\ OnInitializationCompleted this true w1 = Some w2
    /\ IsHardwareReady w2 = Some true
    /\ CurrentState (Super (Player w2)) = CurrentState base
    /\ Trace w2 = Trace w1
    /\ TickInput w2 = Some w3
    /\ Trace w3
       = Trace w2 ++ [MediaEvent EMediaEvent.TracksChanged;
                      MediaEvent EMediaEvent.MediaOpened;
                      MediaEvent EMediaEvent.PlaybackResumed]
         ++ (MediaEvent <$>
               snd (TickTimeManagement (set_CurrentState EMediaState.Playing base)))
    /\ EventCallback (Player w3) = Some this.
Proof.
  intros Hinit Hcan Hnone Hsuper Hreg Htaken Hbase.
  destruct (Open_registration Url Options w base sent (Some id) taken sdk
              Hinit Hcan Hnone Hsuper Hreg Htaken)
    as (w1 & cb1 & Hfresh & Hh & Hp & Hst & _ & _ & _ & _ & _ & _ & _ & _
        & _ & Hb & He & _ & _ & _ & Hrun).
  set (this := fresh (dom (Heap w))) in *. simpl in Hst, Hrun.
  assert (Hcb1 : Heap w1 !! this = Some cb1) by (by rewrite Hh, lookup_insert_eq).
  set (cb2 := set_MediaState EMediaState.Playing cb1).
  destruct (store_frame this cb2 w1) as (Hp2 & Hs2 & Ht2 & _ & Hcb2 & _).
  assert (Hobs : ObservedState (store this cb2 w1) = Some EMediaState.Playing).
  { unfold ObservedState, GetMediaState. rewrite Hp2, He, Hcb2. by destruct cb1. }
  destruct (TickInput_to_Playing (store this cb2 w1) Hobs) as (w3 & Htick & He3 & _ & _ & Ht3).
  { by rewrite Hp2, Hb. }
  exists this, w1, (store this cb2 w1), w3.
  split; [done |]. split; [done |].
  split. { unfold IsHardwareReady, GetMediaState. rewrite He, Hcb1. simpl. by rewrite Hst. }
  split. { unfold OnInitializationCompleted. by rewrite Hcb1. }
  split. { unfold IsHardwareReady, GetMediaState. rewrite Hp2, He, Hcb2. by destruct cb1. }
  rewrite Hp2, Hb in *. split_and!; try done. by rewrite He3.
Qed.

(** *** An error of the SDK reaches the player *)

Lemma Unregistrations_MediaEvent evs : Unregistrations (MediaEvent <$> evs) = [].
Proof. induction evs; done. Qed.

Lemma Unregistrations_app es1 es2 :
  Unregistrations (es1 ++ es2) = Unregistrations es1 ++ Unregistrations es2.
Proof. apply omap_app. Qed.

(** X21. A change of the video format ends the playback at the next tick.
    [OnFrameFormatChanged] logs the error and puts the callback in the
    [Error] state; the next [TickInput] of a player that is not already in
    [Error], on a callback that someone else references too (so that it
    outlives the release of the player's reference), sends
    [MediaOpenFailed], closes the player, which unregisters the channel if
    it was registered and leaves the callback object detached, and leaves
    the player without callback. *)
Theorem X21_format_change_closes_the_player w this cb :
  EventCallback (Player w) = Some this ->
  Heap w !! this = Some cb -> MediaPlayer cb = true ->
  int32 (RefCounter cb - 1) <> 0 ->
  CurrentState (Super (Player w)) <> EMediaState.Error ->
  exists w1 w2 cb2 rest,
    OnFrameFormatChanged this w = Some w1
    /\ TickInput w1 = Some w2
    /\ EventCallback (Player w2) = None
    /\ Trace w2
       = Trace w ++ UE_LOG ELogVerbosity.Error (VideoFormatChanged (GetUrl w))
                 :: MediaEvent EMediaEvent.MediaOpenFailed :: rest
    /\ Unregistrations rest
       = (if IsValid (BlackmagicIdendifier cb)
          then [(ChannelInfo cb, BlackmagicIdendifier cb)] else [])
    /\ Heap w2 = <[this := cb2]> (Heap w)
    /\ MediaPlayer cb2 = false
    /\ BlackmagicIdendifier cb2 = None.
Proof.
  intros Hec Hcb Hp Hr Hstate.
  unfold OnFrameFormatChanged. rewrite Hcb. cbn [mbind option_bind]. rewrite Hp.
  set (cb1 := set_MediaState EMediaState.Error cb).
  set (w1 := store this cb1 (emit _ w)).
  assert (H1 : Heap w1 !! this = Some cb1
               /\ Player w1 = Player w
               /\ Trace w1
                  = Trace w ++ [UE_LOG ELogVerbosity.Error (VideoFormatChanged (GetUrl w))]).
  { subst w1. unfold emit. autorewrite with world. split; [apply lookup_insert_eq | done]. }
  destruct H1 as (Hcb1 & Hp1 & Ht1).
  assert (Hfacts : MediaState cb1 = EMediaState.Error
                   /\ RefCounter cb1 = RefCounter cb
                   /\ BlackmagicIdendifier cb1 = BlackmagicIdendifier cb
                   /\ ChannelInfo cb1 = ChannelInfo cb) by (by destruct cb).
  destruct Hfacts as (Hst1 & Hrc1 & Hid1 & Hci1).
  set (w0 := ReceiveMediaEvent EMediaEvent.MediaOpenFailed
               (with_Super (set_CurrentState EMediaState.Error) w1)).
  assert (H0 : EventCallback (Player w0) = Some this /\ Heap w0 = Heap w1
               /\ Trace w0 = Trace w1 ++ [MediaEvent EMediaEvent.MediaOpenFailed]).
  { rewrite <- Hec, <- Hp1. subst w0. by open_world w1. }
  destruct H0 as (He0 & Hh0 & Ht0).
  destruct (Close_exact w0 this cb1 He0 ltac:(by rewrite Hh0) ltac:(by rewrite Hrc1))
    as (closed & Hclose & Hnone & Htc & _ & _ & _ & _ & Hhc).
  destruct (Unregistrations_UnregisterEffects cb1) as (Hu & _).
  destruct (Uninitialized_facts cb1) as (Hp' & Hid' & _).
  assert (Hheap : Heap closed = <[this := Uninitialized cb1]> (Heap w)).
  { rewrite Hhc, Hh0. apply map_eq. intros l.
    destruct (decide (l = this)) as [-> | Hne].
    - by rewrite !lookup_insert_eq.
    - rewrite !lookup_insert_ne by done.
      destruct (store_frame this cb1 (emit (UE_LOG ELogVerbosity.Error
                  (VideoFormatChanged (GetUrl w))) w)) as (_ & _ & _ & _ & _ & Hother).
      fold w1 in Hother. rewrite Hother by done. unfold emit. by autorewrite with world. }
  clearbody w1.
  assert (Hsync : UpdatePlayerState EMediaState.Error w1 = Some closed).
  { unfold UpdatePlayerState.
    rewrite bool_decide_eq_true_2 by (rewrite Hp1; congruence).
    rewrite bool_decide_eq_false_2 by (by open_world w1).
    rewrite bool_decide_eq_true_2 by done. exact Hclose. }
  exists w1. unfold TickInput. rewrite Hp1, Hec. unfold GetMediaState. rewrite Hcb1.
  cbn [mbind option_bind]. rewrite Hst1, Hsync. cbn [mbind option_bind].
  rewrite Hid1, Hci1 in Hu.
  case_bool_decide.
  - eexists closed, (Uninitialized cb1), _. split; [done |]. split; [done |].
    split; [done |].
    rewrite Htc, Ht0, Ht1, <- !app_assoc. simpl. split; [reflexivity |].
    rewrite Unregistrations_app, Unregistrations_MediaEvent, app_nil_r.
    split_and!; done.
  - eexists _, (Uninitialized cb1), _. split; [done |]. split; [reflexivity |].
    unfold call_Super. autorewrite with world.
    split; [by destruct (Player closed) |].
    rewrite Htc, Ht0, Ht1, <- !app_assoc. simpl. split; [reflexivity |].
    rewrite !Unregistrations_app, !Unregistrations_MediaEvent, !app_nil_r.
    split_and!; done.
Qed.

End Properties.

(** ** The theorems at work on the reference instance *)


Lemma C1_buffer_bound_witness :
  exists w1 w2,
    ReceiveFrames 1%positive Examples.frames Examples.playing = Some w1
    /\ VerifyFrameDropCount_GameThread 1%positive "url" w1 = Some w2
    /\ NumAudioSamples (TheSamples w2) <= 4
    /\ NumVideoSamples (TheSamples w2) <= 4.
Proof.
  destruct (C1_buffer_bound (H := Reference.engine) 1%positive Examples.frames "url"
              Examples.playing (Reference.callback EMediaState.Playing))
    as (w1 & w2 & H1 & H2 & H3 & H4 & _).
  - reflexivity.
  - reflexivity.
  - unfold sound_maximum. simpl. lia.
  - unfold sound_maximum. simpl. lia.
  - reflexivity.
  - reflexivity.
  - exists w1, w2. auto.
Defined.

Lemma C2_no_signal_timeout_witness :
  exists w' cb',
    ReceiveFrames 1%positive
      ((Reference.clock 10, Reference.nosignal) :: Examples.heartbeats)
      (Reference.world EMediaState.Preparing) = Some w'
    /\ Heap w' !! 1%positive = Some cb'
    /\ (MediaState cb' = EMediaState.Error -> (2 < 13 - 10)%Q).
Proof.
  destruct (C2_no_signal_timeout (H := Reference.engine) 1%positive
              (Reference.world EMediaState.Preparing)
              (Reference.callback EMediaState.Preparing)) as [Hgrace _].
  - reflexivity.
  - reflexivity.
  - apply (Hgrace (Reference.clock 10) Reference.nosignal Examples.heartbeats).
    + reflexivity.
    + reflexivity.
    + discriminate.
    + repeat constructor.
    + simpl. repeat split; discriminate.
Defined.

Lemma C3_field_doubling_witness :
  exists w' even odd,
    OnFrameReceived 1%positive (Reference.clock 100) Reference.frame Examples.playing = Some w'
    /\ VideoSamples (TheSamples w') = [even; odd]
    /\ tsUseEvenLine even = Some true /\ tsUseEvenLine odd = Some false
    /\ tsTime odd = tsTime even + 333333
    /\ exists T, tsTimecode even = Some T /\ tsTimecode odd = Some (NextFrame T).
Proof.
  destruct (C3_field_doubling (H := Reference.engine) 1%positive (Reference.clock 100)
              Reference.frame Examples.playing (Reference.callback EMediaState.Playing)
              100%positive)
    as (w' & even & odd & Hrun & Hq & Heven & Hodd & Htime & T & HT & HT2 & _).
  - reflexivity.
  - repeat split.
  - reflexivity.
  - reflexivity.
  - reflexivity.
  - intros s _. reflexivity.
  - exists w', even, odd. split_and!; try done. eauto.
Defined.

Lemma C4_audio_sample_and_track_format_witness :
  exists w' cb' a,
    OnFrameReceived 1%positive (Reference.clock 100) Reference.frame Examples.playing = Some w'
    /\ Heap w' !! 1%positive = Some cb'
    /\ AudioSamples (TheSamples w') = [a]
    /\ asBufferSize a = 4
    /\ UpdateAudioTrackFormat cb' (AudioTrackFormat (Super (Player w')))
       = {| BitsPerSample := 4; NumChannels := 2; SampleRate := 48000 |}.
Proof.
  destruct (C4_audio_sample_and_track_format (H := Reference.engine) 1%positive
              (Reference.clock 100) Reference.frame Examples.playing
              (Reference.callback EMediaState.Playing) 200%positive
              {| BitsPerSample := 0; NumChannels := 0; SampleRate := 0 |})
    as (w' & cb' & a & Hrun & Hcb' & Hq & Hsize & _ & _ & Hformat & _).
  - reflexivity.
  - reflexivity.
  - reflexivity.
  - reflexivity.
  - reflexivity.
  - intros s _. reflexivity.
  - exists w', cb', a. split_and!; done.
Defined.

Lemma C5_OnFrameReceived_after_Uninitialize_witness :
  exists w1,
    Uninitialize 1%positive Examples.playing = Some w1
    /\ OnFrameReceived 1%positive (Reference.clock 100) Reference.frame w1 = Some w1.
Proof.
  destruct Examples.after_Uninitialize as [w1|] eqn:Hafter; [| discriminate].
  exists w1.
  assert (Hun : Uninitialize 1%positive Examples.playing = Some w1).
  { rewrite <- Hafter. vm_compute. reflexivity. }
  split; [exact Hun |].
  apply (proj2 (C5_OnFrameReceived_after_Uninitialize (H := Reference.engine)
                  1%positive Examples.playing w1 Hun) []).
  - constructor.
  - reflexivity.
  - inversion Hafter; subst w1. vm_compute. eauto.
Defined.

Lemma C6_drop_counters_reset_on_read_witness :
  exists w1 w2,
    VerifyFrameDropCount_GameThread 1%positive "url" Examples.dropping = Some w1
    /\ Trace w1 = [UE_LOG ELogVerbosity.Warning (LostAudioFrames 3 "url");
                   UE_LOG ELogVerbosity.Warning (LostVideoFrames 2 "url")]
    /\ VerifyFrameDropCount_GameThread 1%positive "url" w1 = Some w2
    /\ Trace w2 = Trace w1.
Proof.
  destruct Examples.after_Verify as [w1|] eqn:Hafter; [| discriminate].
  assert (Hrun : VerifyFrameDropCount_GameThread 1%positive "url" Examples.dropping = Some w1).
  { rewrite <- Hafter. vm_compute. reflexivity. }
  destruct (C6_drop_counters_reset_on_read (H := Reference.engine) 1%positive "url"
              Examples.dropping
              (set_VideoFrameDropCount 2
                 (set_AudioFrameDropCount 3 (Reference.callback EMediaState.Playing))) w1)
    as (Hfirst & cb1 & w2 & Hcb1 & _ & _ & Hsecond & _ & _ & _ & Hquiet).
  - reflexivity.
  - reflexivity.
  - reflexivity.
  - exact Hrun.
  - exists w1, w2. split_and!; try done.
    apply Hquiet; inversion Hafter; subst w1; vm_compute in Hcb1;
      inversion Hcb1; subst cb1; reflexivity.
Defined.

Lemma C7_TickInput_notifications_witness :
  (exists w',
     TickInput Examples.playing = Some w'
     /\ Trace w' = [MediaEvent EMediaEvent.TracksChanged; MediaEvent EMediaEvent.MediaOpened;
                    MediaEvent EMediaEvent.PlaybackResumed])
  /\ exists w' sent,
       TickInput (Reference.world EMediaState.Error) = Some w'
       /\ EventCallback (Player w') = None
       /\ Trace w'
          = MediaEvent EMediaEvent.MediaOpenFailed
            :: SdkUnregister {| DeviceIndex := 0 |} (Some 1%positive)
            :: (MediaEvent <$> sent).
Proof.
  split.
  - destruct (proj1 (C7_TickInput_notifications (H := Reference.engine) Examples.playing
                       EMediaState.Playing eq_refl ltac:(discriminate)) eq_refl)
      as (w' & Hrun & _ & _ & _ & Htrace).
    exists w'. split; done.
  - destruct (proj2 (C7_TickInput_notifications (H := Reference.engine)
                       (Reference.world EMediaState.Error) EMediaState.Error
                       eq_refl ltac:(discriminate)) eq_refl
                1%positive (Reference.callback EMediaState.Error))
      as (closed & w' & sent & _ & Hrun & _ & Hnone & Htrace & _).
    + reflexivity.
    + reflexivity.
    + vm_compute. discriminate.
    + exists w', sent. split_and!; done.
Defined.

Lemma C8_Open_fails_fast_witness :
  exists w',
    Open "url" Reference.options Examples.uninitialized = Some (false, w')
    /\ Player w' = Player Examples.uninitialized
    /\ Heap w' = Heap Examples.uninitialized.
Proof.
  destruct (C8_Open_fails_fast (H := Reference.engine) "url" Reference.options
              Examples.uninitialized) as (w' & line & Hrun & Hplayer & Hheap & _).
  - left. reflexivity.
  - exists w'. split_and!; done.
Defined.

Lemma C9_Close_idempotent_witness :
  exists w1, Close Examples.playing = Some w1 /\ Close w1 = Some w1.
Proof.
  destruct (C9_Close_idempotent (H := Reference.engine) Examples.playing)
    as [Hsecond Hfirst].
  destruct Hfirst as (w1 & Hclose & _).
  - intros this Hthis. inversion Hthis; subst this.
    exists (Reference.callback EMediaState.Playing).
    split; [reflexivity | vm_compute; discriminate].
  - destruct (Hsecond w1 Hclose) as (_ & w2 & Hagain & _ & _ & _ & _ & Hsame).
    exists w1. split; [exact Hclose |]. rewrite Hagain. f_equal. apply Hsame.
    + reflexivity.
    + intros [st [a v] url rate sync fmt]. reflexivity.
Defined.

Lemma C10_Playing_only_by_OnInitializationCompleted_witness :
  (exists cb, Heap Examples.playing !! 1%positive = Some cb
              /\ MediaState cb = EMediaState.Playing)
  \/ SdkOnFrameReceived 1%positive (Reference.clock 100) Reference.frame
     = SdkOnInitializationCompleted 1%positive true.
Proof.
  destruct Examples.after_frame as [w'|] eqn:Hafter; [| discriminate].
  inversion Hafter; subst w'.
  eapply (proj1 (C10_Playing_only_by_OnInitializationCompleted (H := Reference.engine))
            (SdkOnFrameReceived 1%positive (Reference.clock 100) Reference.frame)
            Examples.playing).
  - vm_compute. reflexivity.
  - vm_compute. reflexivity.
  - reflexivity.
Defined.

Lemma X1_tolerated_capacity_is_kept_witness :
  exists w',
    ReceiveFrames 1%positive Examples.eight Examples.playing = Some w'
    /\ NumAudioSamples (TheSamples w') <= 8
    /\ NumVideoSamples (TheSamples w') <= 8.
Proof.
  destruct (X1_tolerated_capacity_is_kept (H := Reference.engine) 1%positive Examples.eight
              Examples.playing (Reference.callback EMediaState.Playing))
    as (w' & Hrun & Ha & Hv).
  - reflexivity.
  - unfold sound_maximum. simpl. lia.
  - unfold sound_maximum. simpl. lia.
  - vm_compute. discriminate.
  - vm_compute. discriminate.
  - exists w'. split_and!; done.
Defined.

Lemma X2_drop_at_tolerated_capacity_witness :
  exists w' cb',
    OnFrameReceived 1%positive (Reference.clock 108) Reference.frame Examples.full = Some w'
    /\ Heap w' !! 1%positive = Some cb'
    /\ AudioFrameDropCount cb' = int32 (AudioFrameDropCount Examples.full_callback + 1)
    /\ AudioSamples (TheSamples w') = AudioSamples (TheSamples Examples.full)
    /\ VideoSamples (TheSamples w') = VideoSamples (TheSamples Examples.full).
Proof.
  destruct (X2_drop_at_tolerated_capacity (H := Reference.engine) 1%positive
              (Reference.clock 108) Reference.frame Examples.full Examples.full_callback)
    as (w' & cb' & Hrun & Hcb' & Ha & Hv).
  - reflexivity.
  - repeat split.
  - reflexivity.
  - destruct Ha as [Ha1 Ha2]; [reflexivity | vm_compute; discriminate |].
    destruct Hv as [Hv1 Hv2]; [reflexivity | vm_compute; discriminate |].
    exists w', cb'. split_and!; done.
Defined.

Lemma X3_no_drop_count_without_verification_witness :
  exists w' cb',
    ReceiveFrames 1%positive (Examples.eight ++ Examples.frames) Examples.quiet = Some w'
    /\ Heap w' !! 1%positive = Some cb'
    /\ AudioFrameDropCount cb' = 0 /\ VideoFrameDropCount cb' = 0.
Proof.
  destruct (X3_no_drop_count_without_verification (H := Reference.engine) 1%positive
              (Examples.eight ++ Examples.frames) Examples.quiet
              (Reference.callback EMediaState.Playing))
    as (w' & cb' & Hrun & Hcb' & Ha & Hv).
  - reflexivity.
  - reflexivity.
  - exists w', cb'. split_and!; done.
Defined.

Lemma X4_frame_before_Playing_witness :
  exists w',
    OnFrameReceived 1%positive (Reference.clock 100) Reference.frame
      (Reference.world EMediaState.Preparing) = Some w'
    /\ Trace w' = []
    /\ exists w'' cb'',
         OnFrameReceived 1%positive (Reference.clock 101) Reference.nosignal w' = Some w''
         /\ Heap w'' !! 1%positive = Some cb''
         /\ MediaState cb'' = EMediaState.Error.
Proof.
  destruct (X4_frame_before_Playing (H := Reference.engine) 1%positive (Reference.clock 100)
              Reference.frame (Reference.world EMediaState.Preparing)
              (Reference.callback EMediaState.Preparing))
    as (w' & Hrun & _ & _ & Ht & _ & Hnext).
  - reflexivity.
  - reflexivity.
  - reflexivity.
  - discriminate.
  - exists w'. split_and!; try done.
    apply (Hnext eq_refl (Reference.clock 101) Reference.nosignal). reflexivity.
Defined.

Lemma X5_no_signal_timeout_fires_witness :
  (exists w' cb',
     ReceiveFrames 1%positive
       ((Reference.clock 10, Reference.nosignal) :: Examples.heartbeats)
       (Reference.world EMediaState.Preparing) = Some w'
     /\ Heap w' !! 1%positive = Some cb'
     /\ MediaState cb' = EMediaState.Error)
  /\ exists w' cb',
       ReceiveFrames 1%positive
         [(Reference.clock 10, Reference.nosignal); (Reference.clock 12, Reference.nosignal)]
         (Reference.world EMediaState.Preparing) = Some w'
       /\ Heap w' !! 1%positive = Some cb'
       /\ MediaState cb' = EMediaState.Preparing.
Proof.
  pose proof (X5_no_signal_timeout_fires (H := Reference.engine) 1%positive
                (Reference.world EMediaState.Preparing)
                (Reference.callback EMediaState.Preparing)
                (Reference.clock 10) Reference.nosignal) as [Hfires Hquiet].
  - reflexivity.
  - reflexivity.
  - reflexivity.
  - vm_compute. discriminate.
  - reflexivity.
  - split.
    + apply (Hfires [(Reference.clock 11, Reference.nosignal)]
               (Reference.clock 13) Reference.nosignal).
      * reflexivity.
      * repeat constructor.
    + apply (Hquiet [(Reference.clock 12, Reference.nosignal)]).
      * reflexivity.
      * repeat constructor. vm_compute. discriminate.
Defined.

Lemma X6_video_samples_of_a_frame_witness :
  exists w',
    OnFrameReceived 1%positive (Reference.clock 100) Reference.progressive Examples.playing
    = Some w'
    /\ VideoSamples (TheSamples w')
       = [{| tsUseEvenLine := None; tsBuffer := 100%positive;
             tsBufferSize := 3840 * 1080; tsStride := 3840;
             tsWidth := 1920; tsHeight := 1080;
             tsSampleFormat := EMediaTextureSampleFormat.YUVv210;
             tsTime := 1000000000; tsFrameRate := Reference.rate30;
             tsTimecode := Some {| Hours := 1; Minutes := 2; Seconds := 3; Frames := 4;
                                   bDropFrameFormat := false |};
             tsIsSRGBInput := false |}].
Proof.
  destruct (X6_video_samples_of_a_frame (H := Reference.engine) 1%positive
              (Reference.clock 100) Reference.progressive 100%positive Examples.playing
              (Reference.callback EMediaState.Playing))
    as (w' & Hrun & Hv & _).
  - reflexivity.
  - repeat split.
  - reflexivity.
  - reflexivity.
  - reflexivity.
  - exists w'. split; [exact Hrun |]. rewrite Hv. reflexivity.
Defined.

Lemma X7_audio_sample_of_a_frame_witness :
  exists w',
    OnFrameReceived 1%positive (Reference.clock 100) Reference.frame Examples.playing = Some w'
    /\ AudioSamples (TheSamples w')
       = [{| asBuffer := 200%positive; asBufferSize := 4; asNumberOfChannels := 2;
             asSampleRate := 48000; asTime := 1000000000;
             asTimecode := Some {| Hours := 1; Minutes := 2; Seconds := 3; Frames := 4;
                                   bDropFrameFormat := false |} |}].
Proof.
  destruct (X7_audio_sample_of_a_frame (H := Reference.engine) 1%positive
              (Reference.clock 100) Reference.frame 200%positive Examples.playing
              (Reference.callback EMediaState.Playing))
    as (w' & Hrun & Ha).
  - reflexivity.
  - repeat split.
  - reflexivity.
  - reflexivity.
  - reflexivity.
  - exists w'. split; [exact Hrun |]. rewrite Ha. reflexivity.
Defined.

Lemma X8_raw_dump_is_one_shot_witness :
  exists w1 w2,
    OnFrameReceived 1%positive (Reference.clock 100) Reference.frame
      (BlackmagicWriteOutputRawDataCmd Examples.playing) = Some w1
    /\ RawDumps (Trace w1) = [("Blackmagic_Output_8_YUV_ch"%string, Some 0, 3840 * 1080)]
    /\ ReceiveFrames 1%positive Examples.frames w1 = Some w2
    /\ RawDumps (Trace w2) = RawDumps (Trace w1).
Proof.
  destruct (X8_raw_dump_is_one_shot (H := Reference.engine) 1%positive (Reference.clock 100)
              Reference.frame 100%positive Examples.frames Examples.playing
              (Reference.callback EMediaState.Playing))
    as (w1 & w2 & Hrun & Hd & _ & Hrest & Hd2 & _).
  - reflexivity.
  - repeat split.
  - reflexivity.
  - reflexivity.
  - exists w1, w2. split_and!; done.
Defined.

Lemma X9_missing_timecode_warned_once_witness :
  exists w1 es1,
    OnFrameReceived 1%positive (Reference.clock 100) Reference.untimed Examples.expecting
    = Some w1
    /\ Trace w1 = Trace Examples.expecting ++ es1
    /\ MissingTimecodeWarnings es1 = 1%nat.
Proof.
  destruct (proj2 (X9_missing_timecode_warned_once (H := Reference.engine) 1%positive []
                     Examples.expecting
                     (set_bIsTimecodeExpected true (Reference.callback EMediaState.Playing))
                     eq_refl)
              (Reference.clock 100) Reference.untimed)
    as (w1 & es1 & Hrun & Ht & _ & Hm).
  - repeat split.
  - reflexivity.
  - reflexivity.
  - reflexivity.
  - exists w1, es1. split_and!; done.
Defined.

Lemma X10_timecode_burnt_into_progressive_frames_witness :
  exists w' es,
    OnFrameReceived 1%positive (Reference.clock 100) Reference.progressive Examples.burning
    = Some w'
    /\ Trace w' = Trace Examples.burning ++ es
    /\ BurntTimecodes es = [(1, 2, 3, 4)].
Proof.
  destruct (X10_timecode_burnt_into_progressive_frames (H := Reference.engine) 1%positive
              (Reference.clock 100) Reference.progressive 100%positive Examples.burning
              (set_bEncodeTimecodeInTexel true (Reference.callback EMediaState.Playing)))
    as (w' & es & Hrun & Ht & Hb).
  - reflexivity.
  - repeat split.
  - reflexivity.
  - reflexivity.
  - exists w', es. split_and!; done.
Defined.

Lemma X11_sdk_calls_stay_behind_the_player_witness :
  exists w',
    run Examples.sdk_calls Examples.playing = Some w'
    /\ EventCallback (Player w') = Some 1%positive
    /\ CurrentState (Super (Player w')) = EMediaState.Preparing.
Proof.
  destruct Examples.after_sdk_calls as [w'|] eqn:Hafter; [| discriminate].
  assert (Hrun : run Examples.sdk_calls Examples.playing = Some w').
  { rewrite <- Hafter. vm_compute. reflexivity. }
  destruct (X11_sdk_calls_stay_behind_the_player (H := Reference.engine) Examples.sdk_calls
              Examples.playing w') as (_ & He & Hc & _).
  - reflexivity.
  - exact Hrun.
  - exists w'. split_and!; done.
Defined.

Lemma X12_trim_keeps_newest_witness :
  exists w',
    VerifyFrameDropCount_GameThread 1%positive "url" Examples.full = Some w'
    /\ AudioSamples (TheSamples w') = drop 4 (AudioSamples (TheSamples Examples.full))
    /\ VideoSamples (TheSamples w') = drop 4 (VideoSamples (TheSamples Examples.full)).
Proof.
  destruct (X12_trim_keeps_newest (H := Reference.engine) 1%positive "url" Examples.full
              Examples.full_callback) as (w' & Hrun & Ha & Hv & _).
  - reflexivity.
  - reflexivity.
  - vm_compute. split; discriminate.
  - vm_compute. split; discriminate.
  - vm_compute. discriminate.
  - vm_compute. discriminate.
  - exists w'. split_and!; done.
Defined.

Lemma X13_TickFetch_acts_only_while_Playing_witness :
  (exists w',
     TickFetch Examples.full = Some w'
     /\ AudioSamples (TheSamples w') = drop 4 (AudioSamples (TheSamples Examples.full))
     /\ CurrentState (Super (Player w')) = EMediaState.Preparing)
  /\ TickFetch (Reference.world EMediaState.Preparing)
     = Some (Reference.world EMediaState.Preparing).
Proof.
  split.
  - pose proof (X13_TickFetch_acts_only_while_Playing (H := Reference.engine) Examples.full
                  1%positive Examples.full_callback) as Hfetch.
    destruct Hfetch as (w' & Hrun & _ & Ha & _ & Hc).
    + reflexivity.
    + reflexivity.
    + reflexivity.
    + vm_compute. split; discriminate.
    + vm_compute. split; discriminate.
    + vm_compute. discriminate.
    + vm_compute. discriminate.
    + exists w'. split_and!; done.
  - apply (X13_TickFetch_acts_only_while_Playing (H := Reference.engine)
             (Reference.world EMediaState.Preparing) 1%positive
             (Reference.callback EMediaState.Preparing)).
    + reflexivity.
    + reflexivity.
    + reflexivity.
    + vm_compute. split; discriminate.
    + vm_compute. split; discriminate.
    + vm_compute. discriminate.
    + vm_compute. discriminate.
Defined.

Lemma X14_AddRef_Release_witness :
  (w1 ← AddRef 1%positive Examples.playing; Release 1%positive w1) = Some Examples.playing.
Proof.
  apply (X14_AddRef_Release (H := Reference.engine) 1%positive Examples.playing
           (Reference.callback EMediaState.Playing)).
  - reflexivity.
  - vm_compute. split; [discriminate | reflexivity].
Defined.

Lemma X15_Uninitialize_unregisters_once_witness :
  Uninitialize 1%positive Examples.sole = None
  /\ exists w' cb',
       Uninitialize 1%positive Examples.playing = Some w'
       /\ Trace w' = [SdkUnregister {| DeviceIndex := 0 |} (Some 1%positive)]
       /\ Heap w' = <[1%positive := cb']> (Heap Examples.playing)
       /\ MediaPlayer cb' = false
       /\ MediaState cb' = EMediaState.Stopped
       /\ RefCounter cb' = 1.
Proof.
  split.
  - pose proof (X15_Uninitialize_unregisters_once (H := Reference.engine) 1%positive
                  Examples.sole (set_RefCounter 1 (Reference.callback EMediaState.Playing))
                  eq_refl ltac:(vm_compute; split; reflexivity)) as Hlast.
    rewrite decide_True in Hlast by reflexivity. exact Hlast.
  - pose proof (X15_Uninitialize_unregisters_once (H := Reference.engine) 1%positive
                  Examples.playing (Reference.callback EMediaState.Playing)
                  eq_refl ltac:(vm_compute; split; reflexivity)) as Hshared.
    rewrite decide_False in Hshared by (vm_compute; discriminate).
    destruct Hshared as (w' & cb' & Hrun & _ & Ht & _ & Hh & Hp & _ & Hrc & Hst & _).
    exists w', cb'. split_and!; done.
Defined.

Lemma X16_Open_registers_a_callback_witness :
  exists w' this cb',
    Open "blackmagic://device0" Reference.options Examples.closed = Some (true, w')
    /\ EventCallback (Player w') = Some this
    /\ Heap w' !! this = Some cb'
    /\ MediaState cb' = EMediaState.Preparing
    /\ RefCounter cb' = 2
    /\ MaxNumAudioFrameBuffer cb' = 8 /\ MaxNumVideoFrameBuffer cb' = 8.
Proof.
  edestruct (X16_Open_registers_a_callback (H := Reference.engine) "blackmagic://device0"
               Reference.options Examples.closed)
    as (w' & this & cb' & Hrun & _ & Hh & He & _ & Hst & _ & _ & Hrc & Ha & Hv & _).
  - reflexivity.
  - reflexivity.
  - reflexivity.
  - reflexivity.
  - reflexivity.
  - vm_compute. reflexivity.
  - exists w', this, cb'. split_and!; try done.
    rewrite Hh. apply lookup_insert_eq.
Defined.

Lemma X17_Open_registration_failure_witness :
  Open (H := Reference.refusing 0) "blackmagic://device0" Reference.options
    (Examples.refused 0) = None
  /\ exists w' cb',
       Open (H := Reference.refusing 1) "blackmagic://device0" Reference.options
         (Examples.refused 1) = Some (false, w')
       /\ EventCallback (Player w') = None
       /\ Heap w' = <[fresh (dom (Heap (Examples.refused 1))) := cb']>
                      (Heap (Examples.refused 1))
       /\ MediaPlayer cb' = false
       /\ MediaState cb' = EMediaState.Error
       /\ RefCounter cb' = 1.
Proof.
  split.
  - epose proof (X17_Open_registration_failure (H := Reference.refusing 0)
                   "blackmagic://device0" Reference.options (Examples.refused 0)
                   _ _ 0%nat _ eq_refl eq_refl eq_refl eq_refl eq_refl
                   ltac:(vm_compute; reflexivity)) as Hnone.
    exact Hnone.
  - epose proof (X17_Open_registration_failure (H := Reference.refusing 1)
                   "blackmagic://device0" Reference.options (Examples.refused 1)
                   _ _ 1%nat _ eq_refl eq_refl eq_refl eq_refl eq_refl
                   ltac:(vm_compute; reflexivity)) as Hkept.
    destruct Hkept as (w' & cb' & Hrun & He & _ & _ & _ & Hh & Hp & Hst & _ & Hrc).
    exists w', cb'. split_and!; done.
Defined.

Lemma X18_TickInput_quiet_witness :
  exists w',
    TickInput (Reference.world EMediaState.Stopped) = Some w'
    /\ CurrentState (Super (Player w')) = EMediaState.Stopped
    /\ Trace w' = [].
Proof.
  destruct (proj2 (X18_TickInput_quiet (H := Reference.engine)
                     (Reference.world EMediaState.Stopped) EMediaState.Stopped eq_refl))
    as (w' & Hrun & Hc & Ht & _).
  - discriminate.
  - discriminate.
  - discriminate.
  - exists w'. split_and!; done.
Defined.

Lemma X19_Close_tears_down_witness :
  exists w' cb',
    Close Examples.playing = Some w'
    /\ EventCallback (Player w') = None
    /\ Trace w' = [SdkUnregister {| DeviceIndex := 0 |} (Some 1%positive);
                   MediaEvent EMediaEvent.TracksChanged;
                   MediaEvent EMediaEvent.MediaClosed]
    /\ Heap w' = <[1%positive := cb']> (Heap Examples.playing)
    /\ MediaPlayer cb' = false.
Proof.
  destruct (X19_Close_tears_down (H := Reference.engine) Examples.playing 1%positive
              (Reference.callback EMediaState.Playing))
    as (w' & cb' & Hrun & He & Ht & _ & _ & _ & _ & Hh & Hp & _).
  - reflexivity.
  - reflexivity.
  - vm_compute. discriminate.
  - exists w', cb'. split_and!; done.
Defined.

Lemma X20_Open_to_Playing_witness :
  exists this w1 w2 w3,
    Open "blackmagic://device0" Reference.options Examples.closed = Some (true, w1)
    /\ OnInitializationCompleted this true w1 = Some w2
    /\ TickInput w2 = Some w3
    /\ Trace w3 = Trace w2 ++ [MediaEvent EMediaEvent.TracksChanged;
                               MediaEvent EMediaEvent.MediaOpened;
                               MediaEvent EMediaEvent.PlaybackResumed].
Proof.
  edestruct (X20_Open_to_Playing (H := Reference.engine) "blackmagic://device0"
               Reference.options Examples.closed)
    as (this & w1 & w2 & w3 & Hopen & _ & _ & Hinit & _ & _ & _ & Htick & Ht & _).
  - reflexivity.
  - reflexivity.
  - reflexivity.
  - reflexivity.
  - reflexivity.
  - vm_compute. reflexivity.
  - discriminate.
  - exists this, w1, w2, w3. split_and!; done.
Defined.

Lemma X21_format_change_closes_the_player_witness :
  exists w1 w2 rest,
    OnFrameFormatChanged 1%positive Examples.playing = Some w1
    /\ TickInput w1 = Some w2
    /\ EventCallback (Player w2) = None
    /\ Trace w2
       = UE_LOG ELogVerbosity.Error (VideoFormatChanged "blackmagic://device0")
         :: MediaEvent EMediaEvent.MediaOpenFailed :: rest
    /\ Unregistrations rest = [({| DeviceIndex := 0 |}, Some 1%positive)].
Proof.
  destruct (X21_format_change_closes_the_player (H := Reference.engine) Examples.playing
              1%positive (Reference.callback EMediaState.Playing))
    as (w1 & w2 & cb2 & rest & Hrun & Htick & He & Ht & Hu & _).
  - reflexivity.
  - reflexivity.
  - reflexivity.
  - vm_compute. discriminate.
  - discriminate.
  - exists w1, w2, rest. split_and!; done.
Defined.
